(** * Verification of the EEZ Studio Docker build tool

    A shallow embedding of the build orchestration code
    ([scripts/docker-build-lib.ts], [src/main/main.ts] and the renderer
    script) together with the properties its specification states.

    Conventions of the embedding:
    - a JavaScript string is a [string]: one [ascii] per code unit, so
      only code units below 256 are represented;
    - a promise that always resolves is a total function; a thrown
      [Error] is the [inl] branch of a sum carrying the message;
    - the outcome of every external command (docker, the file system,
      the TCP stack) is an input of the model. *)

From Stdlib Require Import ZArith List Bool Lia.
From stdpp Require Import base gmap strings.
From Stdlib Require Import Ascii String DecimalString.
Import ListNotations.

Local Open Scope string_scope.

(** ** JavaScript string primitives used by the sources *)

Module JsString.

(** [s.includes(search)] / [StringIndexOf(s, search, 0)]: the least
    position at which [search] occurs in [s]. *)
Fixpoint indexOf (search s : string) : option nat :=
  if String.prefix search s then Some 0%nat
  else match s with
       | EmptyString => None
       | String _ s' => option_map S (indexOf search s')
       end.

Definition includes (s search : string) : bool :=
  match indexOf search s with Some _ => true | None => false end.

(** [s.substring(from)] *)
Fixpoint drop (n : nat) (s : string) : string :=
  match n, s with
  | O, _ => s
  | S _, EmptyString => EmptyString
  | S n', String _ s' => drop n' s'
  end.

(** [s.substring(0, n)] *)
Fixpoint take (n : nat) (s : string) : string :=
  match n, s with
  | O, _ => EmptyString
  | S _, EmptyString => EmptyString
  | S n', String c s' => String c (take n' s')
  end.

(** ECMAScript [GetSubstitution] for a string pattern: there are no
    captures and no named groups, so [$1]..[$99] and [$<] stand for
    themselves and only [$$], [$&], [$`] and [$'] are expanded. *)
Fixpoint getSubstitution (matched str : string) (position : nat)
    (template : string) : string :=
  match template with
  | EmptyString => EmptyString
  | String "$" (String c rest as tl) =>
      if Ascii.eqb c "$" then
        String "$" (getSubstitution matched str position rest)
      else if Ascii.eqb c "`" then
        take position str ++ getSubstitution matched str position rest
      else if Ascii.eqb c "&" then
        matched ++ getSubstitution matched str position rest
      else if Ascii.eqb c "'" then
        drop (position + String.length matched) str
          ++ getSubstitution matched str position rest
      else String "$" (getSubstitution matched str position tl)
  | String c rest => String c (getSubstitution matched str position rest)
  end.

(** [s.replace(searchValue, replaceValue)] with two strings: only the
    first occurrence is replaced; without an occurrence [s] is returned. *)
Definition replace (s searchValue replaceValue : string) : string :=
  match indexOf searchValue s with
  | None => s
  | Some pos =>
      take pos s
        ++ getSubstitution searchValue s pos replaceValue
        ++ drop (pos + String.length searchValue) s
  end.

(** White space of [String.prototype.trim] among the code units below
    256: TAB, LF, VT, FF, CR, SP and NBSP. *)
Definition isWhiteSpace (c : ascii) : bool :=
  let n := nat_of_ascii c in
  ((9 <=? n) && (n <=? 13) || (n =? 32) || (n =? 160))%nat.

Fixpoint trimStart (s : string) : string :=
  match s with
  | EmptyString => EmptyString
  | String c s' => if isWhiteSpace c then trimStart s' else s
  end.

Fixpoint trimEnd (s : string) : string :=
  match s with
  | EmptyString => EmptyString
  | String c s' =>
      match trimEnd s' with
      | EmptyString => if isWhiteSpace c then EmptyString else String c EmptyString
      | t => String c t
      end
  end.

Definition trim (s : string) : string := trimEnd (trimStart s).

(** Truthiness of a string value: [!s] holds exactly for the empty string. *)
Definition falsy (s : string) : bool :=
  match s with EmptyString => true | _ => false end.

End JsString.

(** ** scripts/docker-build-lib.ts *)

Module Lib.

Definition dq : string := String (ascii_of_nat 34) EmptyString.
Definition nl : string := String (ascii_of_nat 10) EmptyString.

(** A number in a template literal, for an integer below 10^21 in
    absolute value; from there on JavaScript prints an exponent. *)
Definition showZ (z : Z) : string :=
  DecimalString.NilZero.string_of_int (Z.to_int z).

(** [export interface BuildConfig] *)
Record BuildConfig := {
  repositoryName : string;
  dockerVolumeName : string;
  dockerBuildPath : string
}.

(** [export interface FontInfo] *)
Record FontInfo := {
  localPath : string;
  targetPath : string;
  fileName : string
}.

(** [export interface ProjectInfo] *)
Record ProjectInfo := {
  lvglVersion : string;
  flowSupport : bool;
  projectDir : string;
  uiDir : string;
  destinationFolder : string;
  displayWidth : Z;
  displayHeight : Z;
  fonts : list FontInfo
}.

(** [export interface CommandResult]; [output] and [error] are optional. *)
Record CommandResult := {
  success : bool;
  output : option string;
  error : option string
}.

(** The second argument of [LogFunction] is optional. *)
Inductive LogType := info | successT | errorT | warning.

Record LogEntry := { message : string; logType : option LogType }.

(** Both loggers handed to the library ([log] of main.ts and of
    docker-build.ts) declare [type = 'info'] as the default. *)
Definition level (e : LogEntry) : LogType :=
  match logType e with Some t => t | None => info end.

(** The external commands the library spawns, one constructor per call
    site; [argv] gives the command line of each. *)
Inductive Command :=
| ComposeBuild
| ProbeBuildSh
| RunDetached
| GitClone (containerId repository : string)
| GitPull
| PrepareSrc (containerId : string)
| CopyUiDir (containerId resolvedUiDir : string)
| TouchSources (containerId : string)
| MkdirFonts (containerId : string)
| MkdirFontTarget (containerId targetDir : string)
| CopyFont (containerId source targetDir targetFileName : string)
| WriteManifest (containerId manifestContent : string)
| Stop (containerId : string)
| CopyOut (containerId file destPath : string).

Definition argv (c : Command) : string * list string :=
  match c with
  | ComposeBuild => ("docker-compose", ["build"])
  | ProbeBuildSh =>
      ("docker-compose",
       ["run"; "--rm"; "emscripten-build"; "test"; "-f"; "/project/build.sh"])
  | RunDetached =>
      ("docker-compose", ["run"; "-d"; "emscripten-build"; "sleep"; "infinity"])
  | GitClone containerId repository =>
      ("docker",
       ["exec"; containerId; "sh"; "-c";
        dq ++ "cd /project && git clone --recursive https://github.com/eez-open/"
           ++ repository ++ " ." ++ dq])
  | GitPull =>
      ("docker-compose",
       ["run"; "--rm"; "emscripten-build"; "sh"; "-c";
        dq ++ "cd /project && git pull" ++ dq])
  | PrepareSrc containerId =>
      ("docker",
       ["exec"; containerId; "sh"; "-c";
        dq ++ "rm -rf /project/src && mkdir -p /project/src" ++ dq])
  | CopyUiDir containerId resolvedUiDir =>
      ("docker", ["cp"; resolvedUiDir ++ "/."; containerId ++ ":/project/src/"])
  | TouchSources containerId =>
      ("docker",
       ["exec"; containerId; "find"; "/project/src"; "-type"; "f"; "(";
        "-name"; "*.c"; "-o"; "-name"; "*.h"; ")"; "-exec"; "touch"; "{}"; "+"])
  | MkdirFonts containerId =>
      ("docker", ["exec"; containerId; "mkdir"; "-p"; "/project/fonts"])
  | MkdirFontTarget containerId targetDir =>
      ("docker", ["exec"; containerId; "mkdir"; "-p"; "/project" ++ targetDir])
  | CopyFont containerId source targetDir targetFileName =>
      ("docker",
       ["cp"; source;
        containerId ++ ":/project" ++ targetDir ++ "/" ++ targetFileName])
  | WriteManifest containerId manifestContent =>
      ("docker",
       ["exec"; containerId; "sh"; "-c";
        dq ++ "echo '" ++ manifestContent
           ++ "' | base64 -d > /project/fonts.txt" ++ dq])
  | Stop containerId => ("docker", ["stop"; containerId])
  | CopyOut containerId file destPath =>
      ("docker", ["cp"; containerId ++ ":/project/build/" ++ file; destPath])
  end.

Definition Event : Type := Command * CommandResult.

(** Everything outside the process: the outcome of a spawned command
    (which may depend on the commands run before it), the file system,
    the [path] and [Buffer] helpers and the formatted elapsed time. *)
Record Env := {
  respond : list Event -> Command -> CommandResult;
  existsSync : string -> bool;
  rmSync : string -> option string;
  mkdirSync : string -> option string;
  statSync : string -> string + Z;
  path_resolve : string -> string;
  path_join : string -> string -> string;
  posix_dirname : string -> string;
  posix_basename : string -> string;
  base64 : string -> string;
  duration : string
}.

(** What a run leaves behind: the commands spawned with their results,
    in order, and the log lines handed to the [LogFunction]. *)
Record Run := { trace : list Event; logs : list LogEntry }.

Definition start : Run := {| trace := []; logs := [] |}.

(** An [async] body: it either throws [Error(msg)] or returns. *)
Definition M (A : Type) : Type := Run -> (string + A) * Run.

Definition ret {A} (a : A) : M A := fun st => (inr a, st).

Definition throw {A} (msg : string) : M A := fun st => (inl msg, st).

Definition bind {A B} (m : M A) (k : A -> M B) : M B :=
  fun st =>
    match m st with
    | (inl msg, st') => (inl msg, st')
    | (inr a, st') => k a st'
    end.

Notation "x <- m ;; k" := (bind m (fun x => k))
  (at level 100, m at next level, right associativity).
Notation "m ;;; k" := (bind m (fun _ => k))
  (at level 100, right associativity).

Definition log (msg : string) (type : option LogType) : M unit :=
  fun st =>
    (inr tt,
     {| trace := trace st;
        logs := logs st ++ [ {| message := msg; logType := type |} ] |}).

Section WithEnv.

Variable E : Env.

Definition spawn (c : Command) : M CommandResult :=
  fun st =>
    let r := respond E (trace st) c in
    (inr r, {| trace := trace st ++ [(c, r)]; logs := logs st |}).

(** [runCommand]: logs the command line, spawns, resolves on close or
    error; it never rejects. *)
Definition runCommand (c : Command) : M CommandResult :=
  log ("Running: " ++ fst (argv c) ++ " " ++ String.concat " " (snd (argv c))) None ;;;
  spawn c.

(** [runCommandSilent] *)
Definition runCommandSilent (c : Command) : M CommandResult := spawn c.

(** [createTempContainer] *)
Definition createTempContainer : M string :=
  result <- runCommandSilent RunDetached ;;
  match output result with
  | Some out =>
      if negb (success result) || JsString.falsy out
      then throw "Failed to create temporary container"
      else
        let containerId := JsString.trim out in
        log ("Created temporary container: " ++ containerId) None ;;;
        ret containerId
  | None => throw "Failed to create temporary container"
  end.

(** The [for (const font of projectInfo.fonts)] loop of [setupProject]. *)
Fixpoint copyFontFiles (containerId : string) (fs : list FontInfo) : M unit :=
  match fs with
  | [] => ret tt
  | font :: rest =>
      log ("Copying font: " ++ fileName font) None ;;;
      let targetDir := posix_dirname E (targetPath font) in
      let targetFileName := posix_basename E (targetPath font) in
      _ <- runCommand (MkdirFontTarget containerId targetDir) ;;
      result <- runCommand (CopyFont containerId (localPath font) targetDir targetFileName) ;;
      if negb (success result) then
        _ <- runCommand (Stop containerId) ;;
        throw ("Failed to copy font file: " ++ fileName font)
      else copyFontFiles containerId rest
  end.

(** [setupProject] from "Preparing src directory" to its end, that
    is, once the helper container of step 4 is known. *)
Definition updateBuildFiles (projectInfo : ProjectInfo) (containerId : string) : M unit :=
  log "Preparing src directory..." None ;;;
  _ <- runCommand (PrepareSrc containerId) ;;
  if JsString.falsy (uiDir projectInfo) then
    _ <- runCommand (Stop containerId) ;;
    throw "UI directory path is missing"
  else
  if negb (existsSync E (uiDir projectInfo)) then
    _ <- runCommand (Stop containerId) ;;
    throw ("UI directory not found: " ++ uiDir projectInfo)
  else
  let resolvedUiDir := path_resolve E (uiDir projectInfo) in
  log ("Copying " ++ resolvedUiDir ++ " to container...") None ;;;
  result <- runCommand (CopyUiDir containerId resolvedUiDir) ;;
  if negb (success result) then
    _ <- runCommand (Stop containerId) ;;
    throw "Failed to copy build destination directory"
  else
  _ <- runCommand (TouchSources containerId) ;;
  (match fonts projectInfo with
   | [] => ret tt
   | _ :: _ =>
       log ("Copying " ++ showZ (Z.of_nat (List.length (fonts projectInfo)))
              ++ " font(s) to container...") None ;;;
       _ <- runCommand (MkdirFonts containerId) ;;
       copyFontFiles containerId (fonts projectInfo) ;;;
       let fontsManifest := String.concat nl (map targetPath (fonts projectInfo)) in
       let manifestContent := base64 E fontsManifest in
       _ <- runCommand (WriteManifest containerId manifestContent) ;;
       log "Fonts manifest created: /project/fonts.txt" (Some successT)
   end) ;;;
  _ <- runCommand (Stop containerId) ;;
  log ("Setup completed successfully in " ++ duration E ++ "s!") (Some successT).

(** [setupProject]: steps 1 to 3 and the choice of the helper
    container, then [updateBuildFiles]. *)
Definition setupProject (projectInfo : ProjectInfo) (config : BuildConfig) : M unit :=
  log "=== Step 1/3: Setup ===" None ;;;
  log "Building Docker image..." None ;;;
  result <- runCommandSilent ComposeBuild ;;
  if negb (success result) then throw "Failed to build Docker image" else
  log "Docker image built successfully." (Some successT) ;;;
  log "Checking if project is already set up..." None ;;;
  result <- runCommandSilent ProbeBuildSh ;;
  let projectAlreadySetup := success result in
  containerId <-
    (if negb projectAlreadySetup then
       log "First-time setup: Cloning repository from GitHub..." None ;;;
       containerId <- createTempContainer ;;
       result <- runCommand (GitClone containerId (repositoryName config)) ;;
       if negb (success result) then
         _ <- runCommand (Stop containerId) ;;
         throw "Git clone failed"
       else
         log "Repository cloned successfully." (Some successT) ;;;
         ret (Some containerId)
     else
       log "Project already exists in Docker volume. Checking for updates..." None ;;;
       log "Pulling latest changes from GitHub..." None ;;;
       result <- runCommand GitPull ;;
       (if negb (success result)
        then log "Git pull failed, continuing with existing code..." (Some warning)
        else log "Latest changes pulled successfully." (Some successT)) ;;;
       ret None) ;;
  log "Updating build files..." None ;;;
  containerId <-
    (match containerId with
     | Some c => if JsString.falsy c then createTempContainer else ret c
     | None => createTempContainer
     end) ;;
  updateBuildFiles projectInfo containerId.

(** The body of the [for (const file of files)] loop of [extractBuild]. *)
Fixpoint extractFiles (containerId outputPath : string) (files : list string) : M unit :=
  match files with
  | [] => ret tt
  | file :: rest =>
      let destPath := path_join E outputPath file in
      result <- runCommand (CopyOut containerId file destPath) ;;
      if negb (success result) then
        if String.eqb file "index.data" then
          log (file ++ " not found (optional file, skipping)") None ;;;
          extractFiles containerId outputPath rest
        else
          _ <- runCommand (Stop containerId) ;;
          throw ("Failed to extract " ++ file)
      else
        (match statSync E destPath with
         | inr size => log ("Extracted " ++ file ++ ": " ++ showZ size ++ " bytes") None
         | inl msg => log ("Could not stat " ++ file ++ ": " ++ msg) (Some warning)
         end) ;;;
        extractFiles containerId outputPath rest
  end.

Definition files : list string :=
  ["index.html"; "index.js"; "index.wasm"; "index.data"].

(** [extractBuild] *)
Definition extractBuild (outputPath : string) (config : BuildConfig) : M unit :=
  log "=== Step 3/3: Extract ===" None ;;;
  log ("Output path: " ++ outputPath) None ;;;
  log "Cleaning output directory..." None ;;;
  (if existsSync E outputPath then
     match rmSync E outputPath with
     | Some msg => throw msg
     | None => log "Output directory cleaned." None
     end
   else ret tt) ;;;
  (match mkdirSync E outputPath with
   | Some msg => throw msg
   | None => ret tt
   end) ;;;
  log "Extracting build files from Docker volume..." None ;;;
  containerId <- createTempContainer ;;
  log ("Container ID: " ++ containerId) None ;;;
  extractFiles containerId outputPath files ;;;
  _ <- runCommand (Stop containerId) ;;
  log ("Build files extracted successfully in " ++ duration E ++ "s!") (Some successT).

End WithEnv.

(** The identifiers of the helper containers a run obtained from
    [createTempContainer]. *)
Definition createdContainers (tr : list Event) : list string :=
  flat_map
    (fun ev =>
       match ev with
       | (RunDetached, r) =>
           match output r with
           | Some out =>
               if success r && negb (JsString.falsy out)
               then [JsString.trim out] else []
           | None => []
           end
       | _ => []
       end) tr.

(** The commands of [updateBuildFiles]: they work inside a helper
    container that already exists. *)
Definition isFileOp (c : Command) : bool :=
  match c with
  | PrepareSrc _ | CopyUiDir _ _ | TouchSources _ | MkdirFonts _
  | MkdirFontTarget _ _ | CopyFont _ _ _ _ | WriteManifest _ _ | Stop _ => true
  | _ => false
  end.

End Lib.

(** ** src/main/main.ts *)

Module Main.

(** *** Process supervision: [runDockerCommand] and the
    ['abort-operation'] handler *)

Inductive Signal := SIGTERM | SIGKILL.

(** A [ChildProcess] object.  [killed] is Node's flag: it is set when
    [kill()] delivered a signal, not when the process is gone. [exited]
    says the process has ended, so that signals can no longer be
    delivered. *)
Record ChildProcess := {
  killed : bool;
  exited : bool;
  signals : list Signal
}.

(** [interface DockerCommandResult] (the captured output is left out). *)
Record DockerCommandResult := {
  success : bool;
  code : option Z;
  error : option string
}.

(** The module-level [currentDockerProcess], the child processes
    spawned so far (by reference), the delays of the pending
    [setTimeout] callbacks of the abort handler, and the result each
    [runDockerCommand] promise resolved with. *)
Record Supervisor := {
  currentDockerProcess : option nat;
  children : gmap nat ChildProcess;
  timers : list Z;
  resolved : gmap nat DockerCommandResult
}.

Definition set_current (c : option nat) (s : Supervisor) : Supervisor :=
  {| currentDockerProcess := c; children := children s;
     timers := timers s; resolved := resolved s |}.

(** [child.kill(signal)] *)
Definition kill (p : nat) (sig : Signal) (s : Supervisor) : Supervisor :=
  match children s !! p with
  | Some c =>
      if exited c then s
      else
        {| currentDockerProcess := currentDockerProcess s;
           children :=
             <[p := {| killed := true; exited := exited c;
                       signals := signals c ++ [sig] |}]> (children s);
           timers := timers s; resolved := resolved s |}
  | None => s
  end.

Definition setTimeout (delay : Z) (s : Supervisor) : Supervisor :=
  {| currentDockerProcess := currentDockerProcess s; children := children s;
     timers := timers s ++ [delay]; resolved := resolved s |}.

(** [runDockerCommand], up to the registration of the listeners: the
    new child becomes [currentDockerProcess]. *)
Definition runDockerCommand (p : nat) (s : Supervisor) : Supervisor :=
  {| currentDockerProcess := Some p;
     children := <[p := {| killed := false; exited := false; signals := [] |}]> (children s);
     timers := timers s; resolved := resolved s |}.

(** The ['close'] listener of [runDockerCommand]; [code] is [None]
    when the child was ended by a signal. *)
Definition on_close (p : nat) (exitCode : option Z) (s : Supervisor) : Supervisor :=
  {| currentDockerProcess := None;
     children :=
       match children s !! p with
       | Some c => <[p := {| killed := killed c; exited := true; signals := signals c |}]> (children s)
       | None => children s
       end;
     timers := timers s;
     resolved :=
       <[p := {| success := match exitCode with Some 0%Z => true | _ => false end;
                 code := exitCode; error := None |}]> (resolved s) |}.

(** The reply of an [ipcMain.handle] callback. *)
Record Reply := { r_success : bool; r_error : option string }.

(** The callback handed to [setTimeout] by the abort handler.  It
    reads the module-level variable when it runs. *)
Definition abort_timeout (s : Supervisor) : Supervisor :=
  match currentDockerProcess s with
  | Some p =>
      match children s !! p with
      | Some c => if negb (killed c) then kill p SIGKILL s else s
      | None => s
      end
  | None => s
  end.

(** [ipcMain.handle('abort-operation', ...)] *)
Definition abort_operation (s : Supervisor) : Supervisor * Reply :=
  match currentDockerProcess s with
  | Some p =>
      let s1 := kill p SIGTERM s in
      let s2 := setTimeout 1000 s1 in
      let s3 := set_current None s2 in
      (s3, {| r_success := true; r_error := None |})
  | None => (s, {| r_success := false; r_error := Some "No operation running" |})
  end.

(** The oldest pending timer fires. *)
Definition fire_timer (s : Supervisor) : Supervisor :=
  match timers s with
  | [] => s
  | _ :: rest =>
      abort_timeout
        {| currentDockerProcess := currentDockerProcess s; children := children s;
           timers := rest; resolved := resolved s |}
  end.

(** *** Port probing: [findAvailablePort] *)

(** The TCP ports of the host: those on which binding fails, the port
    the system hands out for a request of port 0, and the ports held by
    listeners of [findAvailablePort] itself. *)
Record Net := {
  occupied : gset Z;
  ephemeral : Z;
  probes : gset Z
}.

Inductive ListenResult :=
| Listening (port : Z) (n : Net)   (* the callback of [listen] runs *)
| ErrorEvent                        (* the ['error'] listener runs *)
| RangeError.                       (* [listen] throws: port outside 0..65535 *)

(** [net.createServer().listen(port, cb)] *)
Definition listen (port : Z) (n : Net) : ListenResult :=
  if (port <? 0)%Z || (65535 <? port)%Z then RangeError
  else
    let actual := if (port =? 0)%Z then ephemeral n else port in
    if decide (actual ∈ occupied n ∪ probes n) then ErrorEvent
    else Listening actual
           {| occupied := occupied n; ephemeral := ephemeral n;
              probes := {[actual]} ∪ probes n |}.

(** [server.close(cb)] *)
Definition close (port : Z) (n : Net) : Net :=
  {| occupied := occupied n; ephemeral := ephemeral n;
     probes := probes n ∖ {[port]} |}.

(** How the promise of [findAvailablePort] settles. *)
Inductive Settled := Resolved (port : Z) | Rejected.

(** [findAvailablePort], with the recursion bounded by [fuel]; [None]
    means the bound was too small. *)
Fixpoint findAvailablePort_fuel (fuel : nat) (startPort : Z) (n : Net)
  : option (Settled * Net) :=
  match listen startPort n with
  | Listening port n' => Some (Resolved port, close port n')
  | RangeError => Some (Rejected, n)
  | ErrorEvent =>
      match fuel with
      | O => None
      | S fuel' => findAvailablePort_fuel fuel' (startPort + 1) n
      end
  end.

(** [findAvailablePort]: no more than [65536 - startPort] retries can
    happen before [listen] throws. *)
Definition findAvailablePort (startPort : Z) (n : Net) : option (Settled * Net) :=
  findAvailablePort_fuel (Z.to_nat (65536 - startPort)) startPort n.

(** *** The test server: ['start-test-server'] *)

Definition captureScript : string := "
<script>
(function() {
  const original = {
    log: console.log,
    error: console.error,
    warn: console.warn,
    info: console.info
  };
  
  function sendToParent(type, args) {
    window.parent.postMessage({
      type: 'console',
      level: type,
      message: Array.from(args).map(arg => {
        if (typeof arg === 'object') {
          try { return JSON.stringify(arg); }
          catch { return String(arg); }
        }
        return String(arg);
      }).join(' ')
    }, '*');
  }
  
  console.log = function(...args) {
    original.log.apply(console, args);
    sendToParent('log', args);
  };
  
  console.error = function(...args) {
    original.error.apply(console, args);
    sendToParent('error', args);
  };
  
  console.warn = function(...args) {
    original.warn.apply(console, args);
    sendToParent('warn', args);
  };
  
  console.info = function(...args) {
    original.info.apply(console, args);
    sendToParent('info', args);
  };
  
  window.addEventListener('error', function(e) {
    sendToParent('error', [e.message + ' at ' + e.filename + ':' + e.lineno]);
  });
})();
</script>
".

Inductive Method := GET | HEAD | OtherMethod.

(** An incoming request: method and [req.path] (no query string). *)
Record Request := { method : Method; path : string }.

Record Response := {
  statusCode : Z;
  headers : gmap string string;
  body : string
}.

(** A middleware either ends the response or calls [next()], in both
    cases with the headers set so far. *)
Inductive Outcome := Sent (res : Response) | Next (hdrs : gmap string string).

(** What the server reads from outside: [fs.readFile(p, 'utf8')]
    ([None] when it rejects), [path.join], and the file
    [express.static(root)] finds for a request, if any. *)
Record ServerEnv := {
  readFile : string -> option string;
  path_join : string -> string -> string;
  static_file : string -> Request -> option string
}.

Section TestServer.

Variable E : ServerEnv.
Variable outputPath : string.

(** [app.use((req, res, next) => { res.setHeader(...); next(); })] *)
Definition noCache (req : Request) (hdrs : gmap string string) : Outcome :=
  Next (<["Expires" := "0"]>
         (<["Pragma" := "no-cache"]>
           (<["Cache-Control" := "no-store, no-cache, must-revalidate, private"]> hdrs))).

(** [res.send(html)]: a HEAD request gets no body. *)
Definition send (req : Request) (hdrs : gmap string string) (html : string) : Outcome :=
  Sent {| statusCode := 200; headers := hdrs;
          body := match method req with HEAD => "" | _ => html end |}.

(** The rewriting done by the root handler. *)
Definition injectCaptureScript (html : string) : string :=
  JsString.replace html "</head>" (captureScript ++ "</head>").

(** [app.get('/', async (req, res, next) => ...)]: the route takes
    GET and HEAD requests for the path [/]. *)
Definition rootHandler (req : Request) (hdrs : gmap string string) : Outcome :=
  match method req with
  | OtherMethod => Next hdrs
  | _ =>
      if String.eqb (path req) "/" then
        let indexPath := path_join E outputPath "index.html" in
        match readFile E indexPath with
        | Some html => send req hdrs (injectCaptureScript html)
        | None => Next hdrs
        end
      else Next hdrs
  end.

(** [app.use(express.static(outputPath))]: of the answers of the
    static layer only the file sent with status 200 is kept. Its
    redirect of a directory named without the final slash (301), its
    answers to conditional and range requests (304, 206, 412, 416) and
    the headers it adds are left out. *)
Definition static (req : Request) (hdrs : gmap string string) : Outcome :=
  match method req with
  | OtherMethod => Next hdrs
  | _ =>
      match static_file E outputPath req with
      | Some content => send req hdrs content
      | None => Next hdrs
      end
  end.

(** Express answers 404 when every layer called [next()]; the page
    it sends as the body is not kept, nor is its automatic answer to
    OPTIONS. *)
Definition notFound (hdrs : gmap string string) : Response :=
  {| statusCode := 404; headers := hdrs; body := "" |}.

Fixpoint dispatch (stack : list (Request -> gmap string string -> Outcome))
    (req : Request) (hdrs : gmap string string) : Response :=
  match stack with
  | [] => notFound hdrs
  | layer :: rest =>
      match layer req hdrs with
      | Sent res => res
      | Next hdrs' => dispatch rest req hdrs'
      end
  end.

(** The stack in registration order, and the response to a request. *)
Definition app : list (Request -> gmap string string -> Outcome) :=
  [noCache; rootHandler; static].

Definition respondTo (req : Request) : Response := dispatch app req ∅.

End TestServer.

End Main.

(** ** The renderer script *)

Module Renderer.

(** The class given to a status badge by [setStatus]. *)
Inductive StatusClass := pending | in_progress | completed | error | running.

(** The three badges: [setupStatus], [buildStatus], [testStatus]. *)
Inductive Badge := setupStatus | buildStatus | testStatus.

(** What [electronAPI.readProjectFile] resolves with. *)
Record ReadResult := {
  rr_success : bool;
  rr_projectName : string;
  rr_lvglVersion : string;
  rr_setupComplete : option bool;
  rr_buildComplete : option bool;
  rr_error : string
}.

(** What the other [electronAPI] calls resolve with. *)
Record IpcResult := {
  ok : bool;
  res_outputPath : option string;
  res_url : option string
}.

(** One call of [setStatus], with the workflow flags and badges as they
    were when it was made. *)
Record Transition := {
  badge : Badge;
  class : StatusClass;
  at_setupComplete : bool;
  at_buildComplete : bool;
  at_setupBadge : StatusClass;
  at_buildBadge : StatusClass
}.

(** The [state] object (workflow fields), the parts of the page the
    handlers write (badges, the file-change notification, the log), the
    record of [setStatus] calls, and the [loadProject] calls started by
    the file watcher that still wait for [readProjectFile]. *)
Record State := {
  projectPath : option string;
  projectInfo : option ReadResult;
  setupComplete : bool;
  buildComplete : bool;
  testRunning : bool;
  operationRunning : bool;
  outputPath : option string;
  testUrl : option string;
  fileChangedSinceSetup : bool;
  setupBadge : StatusClass;
  buildBadge : StatusClass;
  testBadge : StatusClass;
  notificationShown : bool;
  messages : list (string * string);
  history : list Transition;
  pendingReloads : list (string * bool)
}.

Definition set_projectPath (v : option string) (s : State) : State :=
  {| projectPath := v; projectInfo := projectInfo s;
     setupComplete := setupComplete s; buildComplete := buildComplete s;
     testRunning := testRunning s; operationRunning := operationRunning s;
     outputPath := outputPath s; testUrl := testUrl s;
     fileChangedSinceSetup := fileChangedSinceSetup s;
     setupBadge := setupBadge s; buildBadge := buildBadge s;
     testBadge := testBadge s; notificationShown := notificationShown s;
     messages := messages s; history := history s;
     pendingReloads := pendingReloads s |}.

Definition set_projectInfo (v : option ReadResult) (s : State) : State :=
  {| projectPath := projectPath s; projectInfo := v;
     setupComplete := setupComplete s; buildComplete := buildComplete s;
     testRunning := testRunning s; operationRunning := operationRunning s;
     outputPath := outputPath s; testUrl := testUrl s;
     fileChangedSinceSetup := fileChangedSinceSetup s;
     setupBadge := setupBadge s; buildBadge := buildBadge s;
     testBadge := testBadge s; notificationShown := notificationShown s;
     messages := messages s; history := history s;
     pendingReloads := pendingReloads s |}.

Definition set_setupComplete (v : bool) (s : State) : State :=
  {| projectPath := projectPath s; projectInfo := projectInfo s;
     setupComplete := v; buildComplete := buildComplete s;
     testRunning := testRunning s; operationRunning := operationRunning s;
     outputPath := outputPath s; testUrl := testUrl s;
     fileChangedSinceSetup := fileChangedSinceSetup s;
     setupBadge := setupBadge s; buildBadge := buildBadge s;
     testBadge := testBadge s; notificationShown := notificationShown s;
     messages := messages s; history := history s;
     pendingReloads := pendingReloads s |}.

Definition set_buildComplete (v : bool) (s : State) : State :=
  {| projectPath := projectPath s; projectInfo := projectInfo s;
     setupComplete := setupComplete s; buildComplete := v;
     testRunning := testRunning s; operationRunning := operationRunning s;
     outputPath := outputPath s; testUrl := testUrl s;
     fileChangedSinceSetup := fileChangedSinceSetup s;
     setupBadge := setupBadge s; buildBadge := buildBadge s;
     testBadge := testBadge s; notificationShown := notificationShown s;
     messages := messages s; history := history s;
     pendingReloads := pendingReloads s |}.

Definition set_testRunning (v : bool) (s : State) : State :=
  {| projectPath := projectPath s; projectInfo := projectInfo s;
     setupComplete := setupComplete s; buildComplete := buildComplete s;
     testRunning := v; operationRunning := operationRunning s;
     outputPath := outputPath s; testUrl := testUrl s;
     fileChangedSinceSetup := fileChangedSinceSetup s;
     setupBadge := setupBadge s; buildBadge := buildBadge s;
     testBadge := testBadge s; notificationShown := notificationShown s;
     messages := messages s; history := history s;
     pendingReloads := pendingReloads s |}.

Definition set_operationRunning (v : bool) (s : State) : State :=
  {| projectPath := projectPath s; projectInfo := projectInfo s;
     setupComplete := setupComplete s; buildComplete := buildComplete s;
     testRunning := testRunning s; operationRunning := v;
     outputPath := outputPath s; testUrl := testUrl s;
     fileChangedSinceSetup := fileChangedSinceSetup s;
     setupBadge := setupBadge s; buildBadge := buildBadge s;
     testBadge := testBadge s; notificationShown := notificationShown s;
     messages := messages s; history := history s;
     pendingReloads := pendingReloads s |}.

Definition set_outputPath (v : option string) (s : State) : State :=
  {| projectPath := projectPath s; projectInfo := projectInfo s;
     setupComplete := setupComplete s; buildComplete := buildComplete s;
     testRunning := testRunning s; operationRunning := operationRunning s;
     outputPath := v; testUrl := testUrl s;
     fileChangedSinceSetup := fileChangedSinceSetup s;
     setupBadge := setupBadge s; buildBadge := buildBadge s;
     testBadge := testBadge s; notificationShown := notificationShown s;
     messages := messages s; history := history s;
     pendingReloads := pendingReloads s |}.

Definition set_testUrl (v : option string) (s : State) : State :=
  {| projectPath := projectPath s; projectInfo := projectInfo s;
     setupComplete := setupComplete s; buildComplete := buildComplete s;
     testRunning := testRunning s; operationRunning := operationRunning s;
     outputPath := outputPath s; testUrl := v;
     fileChangedSinceSetup := fileChangedSinceSetup s;
     setupBadge := setupBadge s; buildBadge := buildBadge s;
     testBadge := testBadge s; notificationShown := notificationShown s;
     messages := messages s; history := history s;
     pendingReloads := pendingReloads s |}.

Definition set_fileChangedSinceSetup (v : bool) (s : State) : State :=
  {| projectPath := projectPath s; projectInfo := projectInfo s;
     setupComplete := setupComplete s; buildComplete := buildComplete s;
     testRunning := testRunning s; operationRunning := operationRunning s;
     outputPath := outputPath s; testUrl := testUrl s;
     fileChangedSinceSetup := v; setupBadge := setupBadge s;
     buildBadge := buildBadge s; testBadge := testBadge s;
     notificationShown := notificationShown s; messages := messages s;
     history := history s; pendingReloads := pendingReloads s |}.

Definition set_setupBadge (v : StatusClass) (s : State) : State :=
  {| projectPath := projectPath s; projectInfo := projectInfo s;
     setupComplete := setupComplete s; buildComplete := buildComplete s;
     testRunning := testRunning s; operationRunning := operationRunning s;
     outputPath := outputPath s; testUrl := testUrl s;
     fileChangedSinceSetup := fileChangedSinceSetup s; setupBadge := v;
     buildBadge := buildBadge s; testBadge := testBadge s;
     notificationShown := notificationShown s; messages := messages s;
     history := history s; pendingReloads := pendingReloads s |}.

Definition set_buildBadge (v : StatusClass) (s : State) : State :=
  {| projectPath := projectPath s; projectInfo := projectInfo s;
     setupComplete := setupComplete s; buildComplete := buildComplete s;
     testRunning := testRunning s; operationRunning := operationRunning s;
     outputPath := outputPath s; testUrl := testUrl s;
     fileChangedSinceSetup := fileChangedSinceSetup s;
     setupBadge := setupBadge s; buildBadge := v; testBadge := testBadge s;
     notificationShown := notificationShown s; messages := messages s;
     history := history s; pendingReloads := pendingReloads s |}.

Definition set_testBadge (v : StatusClass) (s : State) : State :=
  {| projectPath := projectPath s; projectInfo := projectInfo s;
     setupComplete := setupComplete s; buildComplete := buildComplete s;
     testRunning := testRunning s; operationRunning := operationRunning s;
     outputPath := outputPath s; testUrl := testUrl s;
     fileChangedSinceSetup := fileChangedSinceSetup s;
     setupBadge := setupBadge s; buildBadge := buildBadge s; testBadge := v;
     notificationShown := notificationShown s; messages := messages s;
     history := history s; pendingReloads := pendingReloads s |}.

Definition set_notificationShown (v : bool) (s : State) : State :=
  {| projectPath := projectPath s; projectInfo := projectInfo s;
     setupComplete := setupComplete s; buildComplete := buildComplete s;
     testRunning := testRunning s; operationRunning := operationRunning s;
     outputPath := outputPath s; testUrl := testUrl s;
     fileChangedSinceSetup := fileChangedSinceSetup s;
     setupBadge := setupBadge s; buildBadge := buildBadge s;
     testBadge := testBadge s; notificationShown := v;
     messages := messages s; history := history s;
     pendingReloads := pendingReloads s |}.

Definition set_messages (v : list (string * string)) (s : State) : State :=
  {| projectPath := projectPath s; projectInfo := projectInfo s;
     setupComplete := setupComplete s; buildComplete := buildComplete s;
     testRunning := testRunning s; operationRunning := operationRunning s;
     outputPath := outputPath s; testUrl := testUrl s;
     fileChangedSinceSetup := fileChangedSinceSetup s;
     setupBadge := setupBadge s; buildBadge := buildBadge s;
     testBadge := testBadge s; notificationShown := notificationShown s;
     messages := v; history := history s;
     pendingReloads := pendingReloads s |}.

Definition set_history (v : list Transition) (s : State) : State :=
  {| projectPath := projectPath s; projectInfo := projectInfo s;
     setupComplete := setupComplete s; buildComplete := buildComplete s;
     testRunning := testRunning s; operationRunning := operationRunning s;
     outputPath := outputPath s; testUrl := testUrl s;
     fileChangedSinceSetup := fileChangedSinceSetup s;
     setupBadge := setupBadge s; buildBadge := buildBadge s;
     testBadge := testBadge s; notificationShown := notificationShown s;
     messages := messages s; history := v;
     pendingReloads := pendingReloads s |}.

Definition set_pendingReloads (v : list (string * bool)) (s : State) : State :=
  {| projectPath := projectPath s; projectInfo := projectInfo s;
     setupComplete := setupComplete s; buildComplete := buildComplete s;
     testRunning := testRunning s; operationRunning := operationRunning s;
     outputPath := outputPath s; testUrl := testUrl s;
     fileChangedSinceSetup := fileChangedSinceSetup s;
     setupBadge := setupBadge s; buildBadge := buildBadge s;
     testBadge := testBadge s; notificationShown := notificationShown s;
     messages := messages s; history := history s; pendingReloads := v |}.

(** [x || false] for an optional boolean. *)
Definition orFalse (b : option bool) : bool :=
  match b with Some true => true | _ => false end.

(** The state once [init] has run without a remembered project. *)
Definition initial : State :=
  {| projectPath := None; projectInfo := None; setupComplete := false;
     buildComplete := false; testRunning := false; operationRunning := false;
     outputPath := None; testUrl := None; fileChangedSinceSetup := false;
     setupBadge := pending; buildBadge := pending; testBadge := pending;
     notificationShown := false; messages := []; history := [];
     pendingReloads := [] |}.

(** [logMessage(type, text)] *)
Definition logMessage (type text : string) (s : State) : State :=
  set_messages (messages s ++ [(type, text)]) s.

(** [setStatus(elementId, status, text)]; the badge text is not kept. *)
Definition setStatus (b : Badge) (c : StatusClass) (s : State) : State :=
  let t := {| badge := b; class := c;
              at_setupComplete := setupComplete s;
              at_buildComplete := buildComplete s;
              at_setupBadge := setupBadge s;
              at_buildBadge := buildBadge s |} in
  let s := set_history (history s ++ [t]) s in
  match b with
  | setupStatus => set_setupBadge c s
  | buildStatus => set_buildBadge c s
  | testStatus => set_testBadge c s
  end.

(** [updateUI]: only its writes to the badges are modelled. *)
Definition updateUI (s : State) : State :=
  if operationRunning s then s
  else if testRunning s then s
  else match projectInfo s with
       | None =>
           setStatus testStatus pending
             (setStatus buildStatus pending (setStatus setupStatus pending s))
       | Some _ => s
       end.

(** [stopTest] *)
Definition stopTest (s : State) : State :=
  let s := set_testRunning false s in
  let s := set_testUrl None s in
  let s := setStatus testStatus pending s in
  let s := logMessage "info" "Test server stopped." s in
  updateUI s.

Definition hideNotification (s : State) : State := set_notificationShown false s.
Definition showNotification (s : State) : State := set_notificationShown true s.

(** [loadProject] up to its first [await]. *)
Definition loadProject_begin (path : string) (s : State) : State * bool :=
  let isDifferentProject :=
    match projectPath s with
    | Some p => negb (JsString.falsy p) && negb (String.eqb p path)
    | None => false
    end in
  let s := set_projectPath (Some path) s in
  let s := logMessage "info" ("Selected project file: " ++ path) s in
  (s, isDifferentProject).

(** [loadProject] from the point where [readProjectFile] has resolved. *)
Definition loadProject_resume (isDifferentProject : bool) (result : ReadResult)
    (s : State) : State :=
  if rr_success result then
    let s := set_projectInfo (Some result) s in
    let s := logMessage "success" ("Project loaded: " ++ rr_projectName result) s in
    let s :=
      if isDifferentProject then
        let s := logMessage "info" "Different project selected - resetting workflow state." s in
        let s := if testRunning s then stopTest s else s in
        let s := set_setupComplete false s in
        let s := set_buildComplete false s in
        let s := set_testRunning false s in
        let s := set_fileChangedSinceSetup false s in
        let s := hideNotification s in
        let s := setStatus setupStatus pending s in
        let s := setStatus buildStatus pending s in
        setStatus testStatus pending s
      else
        let s := set_setupComplete (orFalse (rr_setupComplete result)) s in
        let s := set_buildComplete (orFalse (rr_buildComplete result)) s in
        let s := set_testRunning false s in
        let s := set_fileChangedSinceSetup false s in
        let s := hideNotification s in
        let s :=
          if setupComplete s then
            logMessage "info" "Previous setup detected."
              (setStatus setupStatus completed s)
          else s in
        if buildComplete s then
          logMessage "info" "Previous build detected. Ready to test."
            (setStatus buildStatus completed s)
        else s in
    updateUI s
  else
    let s := logMessage "error" ("Failed to load project: " ++ rr_error result) s in
    let s := set_projectInfo None s in
    updateUI s.

(** [loadProject] run to its end. *)
Definition loadProject (path : string) (result : ReadResult) (s : State) : State :=
  let '(s, isDifferentProject) := loadProject_begin path s in
  loadProject_resume isDifferentProject result s.

(** [runSetup]; [reread] is the answer to the second [readProjectFile]. *)
Definition runSetup (reread : ReadResult) (result : IpcResult) (s : State) : State :=
  match projectInfo s with
  | None => s
  | Some _ =>
      let s := if testRunning s then stopTest s else s in
      let continue (s : State) : State :=
        let s := set_operationRunning true s in
        let s := setStatus setupStatus in_progress s in
        let s := updateUI s in
        let s := logMessage "info" "=== Starting Setup ===" s in
        let s :=
          if ok result then
            let s := set_setupComplete true s in
            let s := set_buildComplete false s in
            let s := set_testRunning false s in
            let s := set_fileChangedSinceSetup false s in
            let s := hideNotification s in
            let s := setStatus setupStatus completed s in
            let s := setStatus buildStatus pending s in
            setStatus testStatus pending s
          else
            let s := set_setupComplete false s in
            setStatus setupStatus error s in
        let s := set_operationRunning false s in
        updateUI s in
      match projectPath s with
      | Some p =>
          if JsString.falsy p then continue s
          else
            let s := logMessage "info" "Re-reading project file for latest settings..." s in
            if rr_success reread then
              let s := set_projectInfo (Some reread) s in
              let s := logMessage "success"
                         ("Detected project: " ++ rr_projectName reread
                            ++ " (LVGL " ++ rr_lvglVersion reread ++ ")") s in
              continue s
            else
              logMessage "error" ("Failed to read project: " ++ rr_error reread) s
      | None => continue s
      end
  end.

(** [runBuild] *)
Definition runBuild (result : IpcResult) (s : State) : State :=
  match projectInfo s with
  | None => s
  | Some _ =>
      if negb (setupComplete s) then s
      else
        let s := if testRunning s then stopTest s else s in
        let s := set_operationRunning true s in
        let s := setStatus buildStatus in_progress s in
        let s := updateUI s in
        let s := logMessage "info" "=== Starting Build ===" s in
        let s :=
          if ok result then
            let s := set_buildComplete true s in
            let s := set_testRunning false s in
            let s := setStatus buildStatus completed s in
            setStatus testStatus pending s
          else
            let s := set_buildComplete false s in
            setStatus buildStatus error s in
        let s := set_operationRunning false s in
        updateUI s
  end.

(** [runRebuild] *)
Definition runRebuild (cleanResult buildResult : IpcResult) (s : State) : State :=
  match projectInfo s with
  | None => s
  | Some _ =>
      if negb (setupComplete s) then s
      else
        let s := if testRunning s then stopTest s else s in
        let s := set_operationRunning true s in
        let s := setStatus buildStatus in_progress s in
        let s := updateUI s in
        let s := logMessage "info" "=== Starting Rebuild ===" s in
        let s := logMessage "info" "Cleaning build directory..." s in
        if negb (ok cleanResult) then
          let s := logMessage "error" "Failed to clean build directory" s in
          let s := set_buildComplete false s in
          let s := setStatus buildStatus error s in
          let s := set_operationRunning false s in
          updateUI s
        else runBuild buildResult s
  end.

(** [runAll]; [elapsed] is the printed duration of the run. *)
Definition runAll (setupResult buildResult extractResult serverResult : IpcResult)
    (elapsed : string) (s : State) : State :=
  match projectInfo s with
  | None => s
  | Some _ =>
      let s := if testRunning s then stopTest s else s in
      let s := set_operationRunning true s in
      let s := updateUI s in
      let s := logMessage "info" "=== Starting Run All (Setup -> Build -> Test) ===" s in
      let s := logMessage "info" "Step 1/3: Running Setup..." s in
      let s := setStatus setupStatus in_progress s in
      if negb (ok setupResult) then
        let s := logMessage "error" "Setup failed - aborting Run All" s in
        let s := set_setupComplete false s in
        let s := setStatus setupStatus error s in
        let s := set_operationRunning false s in
        updateUI s
      else
      let s := set_setupComplete true s in
      let s := set_fileChangedSinceSetup false s in
      let s := hideNotification s in
      let s := setStatus setupStatus completed s in
      let s := logMessage "info" "Step 2/3: Running Build..." s in
      let s := setStatus buildStatus in_progress s in
      if negb (ok buildResult) then
        let s := logMessage "error" "Build failed - aborting Run All" s in
        let s := set_buildComplete false s in
        let s := setStatus buildStatus error s in
        let s := set_operationRunning false s in
        updateUI s
      else
      let s := set_buildComplete true s in
      let s := setStatus buildStatus completed s in
      let s := logMessage "info" "Step 3/3: Starting Test..." s in
      let s := setStatus testStatus in_progress s in
      if negb (ok extractResult) then
        let s := logMessage "error" "Extract failed - aborting Run All" s in
        let s := setStatus testStatus error s in
        let s := set_operationRunning false s in
        updateUI s
      else
      let s := set_outputPath (res_outputPath extractResult) s in
      let s := setStatus testStatus in_progress s in
      if negb (ok serverResult) then
        let s := logMessage "error" "Server start failed - aborting Run All" s in
        let s := setStatus testStatus error s in
        let s := set_operationRunning false s in
        updateUI s
      else
      let s := set_testUrl (res_url serverResult) s in
      let s := set_testRunning true s in
      let s := setStatus testStatus running s in
      let s := logMessage "success"
                 ("=== Run All completed successfully in " ++ elapsed ++ "s! ===") s in
      let s := set_operationRunning false s in
      updateUI s
  end.

(** [runTest] *)
Definition runTest (extractResult serverResult : IpcResult) (s : State) : State :=
  match projectInfo s with
  | None => s
  | Some _ =>
      if negb (buildComplete s) then s
      else
        let s := set_operationRunning true s in
        let s := setStatus testStatus in_progress s in
        let s := updateUI s in
        let s := logMessage "info" "=== Starting Test ===" s in
        if negb (ok extractResult) then
          let s := setStatus testStatus error s in
          let s := set_operationRunning false s in
          updateUI s
        else
          let s := set_outputPath (res_outputPath extractResult) s in
          let s := setStatus testStatus in_progress s in
          let s :=
            if ok serverResult then
              let s := set_testRunning true s in
              let s := set_testUrl (res_url serverResult) s in
              setStatus testStatus completed s
            else setStatus testStatus error s in
          let s := set_operationRunning false s in
          updateUI s
  end.

(** The listener registered with [electronAPI.onFileChanged]. The call
    of [loadProject] is not awaited: its first part runs at once and the
    rest is queued until [readProjectFile] answers. *)
Definition onFileChanged (path : string) (s : State) : State :=
  if match projectPath s with Some p => String.eqb path p | None => false end then
    let s := logMessage "info" "Project file changed, reloading..." s in
    let wasSetupComplete := setupComplete s in
    let '(s, isDifferentProject) := loadProject_begin path s in
    let s := set_pendingReloads (pendingReloads s ++ [(path, isDifferentProject)]) s in
    if wasSetupComplete then
      showNotification (set_fileChangedSinceSetup true s)
    else s
  else if setupComplete s && negb (fileChangedSinceSetup s) then
    let s := set_fileChangedSinceSetup true s in
    let s := showNotification s in
    logMessage "info" ("File changed: " ++ path) s
  else s.

(** [readProjectFile] answers the oldest queued [loadProject]. *)
Definition reloadDone (result : ReadResult) (s : State) : State :=
  match pendingReloads s with
  | [] => s
  | (_, isDifferentProject) :: rest =>
      loadProject_resume isDifferentProject result (set_pendingReloads rest s)
  end.

(** The click listener of [btnDismiss]. *)
Definition dismiss (s : State) : State :=
  set_fileChangedSinceSetup false (hideNotification s).

(** The click listener of [btnRebuild]. *)
Definition rebuild (setupResult buildResult extractResult serverResult : IpcResult)
    (elapsed : string) (s : State) : State :=
  let s := if testRunning s then stopTest s else s in
  let s := hideNotification s in
  let s := set_fileChangedSinceSetup false s in
  runAll setupResult buildResult extractResult serverResult elapsed s.

(** A handler with the answers it is given, run to its end with nothing
    in between; [Turns] below cuts the handlers at their [await]s. *)
Inductive Event :=
| LoadProject (path : string) (result : ReadResult)
| RunSetup (reread : ReadResult) (result : IpcResult)
| RunBuild (result : IpcResult)
| RunRebuild (cleanResult buildResult : IpcResult)
| RunAll (setupResult buildResult extractResult serverResult : IpcResult)
    (elapsed : string)
| RunTest (extractResult serverResult : IpcResult)
| StopTest
| FileChanged (path : string)
| ReloadDone (result : ReadResult)
| Rebuild (setupResult buildResult extractResult serverResult : IpcResult)
    (elapsed : string)
| Dismiss.

Definition handle (e : Event) (s : State) : State :=
  match e with
  | LoadProject path result => loadProject path result s
  | RunSetup reread result => runSetup reread result s
  | RunBuild result => runBuild result s
  | RunRebuild c b => runRebuild c b s
  | RunAll r1 r2 r3 r4 d => runAll r1 r2 r3 r4 d s
  | RunTest r1 r2 => runTest r1 r2 s
  | StopTest => stopTest s
  | FileChanged path => onFileChanged path s
  | ReloadDone result => reloadDone result s
  | Rebuild r1 r2 r3 r4 d => rebuild r1 r2 r3 r4 d s
  | Dismiss => dismiss s
  end.

(** The watch events delivered one after the other. *)
Definition deliver (paths : list string) (s : State) : State :=
  fold_left (fun s p => onFileChanged p s) paths s.

(** How often delivering [paths] turns the stale flag from off to on. *)
Fixpoint raised (paths : list string) (s : State) : nat :=
  match paths with
  | [] => 0
  | p :: rest =>
      let s' := onFileChanged p s in
      (if negb (fileChangedSinceSetup s) && fileChangedSinceSetup s' then 1 else 0)
        + raised rest s'
  end%nat.

End Renderer.

(** ** The renderer script, turn by turn

    The handlers of the renderer are [async] functions: each runs until
    its next [await] of an [electronAPI] call, and goes on when that
    call is answered. Between the two the page takes whatever comes
    next: a click, a watch event, the answer another handler waits for.
    [Renderer] gives each handler run to its end with nothing in
    between; here the same handlers are cut at their [await]s. Every
    awaited call is taken to resolve: the handlers of the main process
    catch their errors and answer with [success: false]. *)

Module Turns.
Import Renderer.

(** The [electronAPI] calls that resolve with a result object, and the
    awaited calls whose result the handlers do not look at. *)
Inductive IpcCall :=
| CallSetupProject | CallBuildProject | CallCleanBuild
| CallExtractBuild | CallStartTestServer.

Inductive VoidCall :=
| CallAddToRecentProjects | CallGetRecentProjects | CallStopTestServer.

#[local] Set Warnings "-register-all".

(** A handler between two turns: it has returned, it has died of a
    [TypeError] (a property read from [state.projectInfo] when that is
    [null]), or it waits for an answer, with what it does then. *)
Inductive Proc :=
| Done
| Died
| AwaitRead (path : string) (k : ReadResult -> State -> State * Proc)
| AwaitIpc (call : IpcCall) (k : IpcResult -> State -> State * Proc)
| AwaitVoid (call : VoidCall) (k : State -> State * Proc).

(** What is left of a handler to run, from the state it finds. *)
Definition Rest : Type := State -> State * Proc.

Definition finished : Rest := fun s => (s, Done).

(** [await stopTest()]: the body of [stopTest] follows its one
    [await]. *)
Definition stopTest_stopped (k : Rest) : Rest :=
  fun s => k (stopTest s).

Definition stopTestK (k : Rest) : Rest :=
  fun s => (s, AwaitVoid CallStopTestServer (stopTest_stopped k)).

(** [if (state.testRunning) { await stopTest(); }] *)
Definition stopIfRunning (k : Rest) : Rest :=
  fun s => if testRunning s then stopTestK k s else k s.

(** [await loadRecentProjects()]; the list it stores is not kept. *)
Definition loadRecentProjectsK (k : Rest) : Rest :=
  fun s => (s, AwaitVoid CallGetRecentProjects k).

(** *** [loadProject] *)

(** The reset of the workflow for another project, after [stopTest]. *)
Definition loadProject_reset (k : Rest) : Rest :=
  fun s =>
    let s := set_setupComplete false s in
    let s := set_buildComplete false s in
    let s := set_testRunning false s in
    let s := set_fileChangedSinceSetup false s in
    let s := hideNotification s in
    let s := setStatus setupStatus pending s in
    let s := setStatus buildStatus pending s in
    let s := setStatus testStatus pending s in
    k (updateUI s).

(** From the point where the list of recent projects is back. *)
Definition loadProject_loaded (isDifferentProject : bool) (result : ReadResult)
    (k : Rest) : Rest :=
  fun s =>
    let s := logMessage "success" ("Project loaded: " ++ rr_projectName result) s in
    if isDifferentProject then
      let s := logMessage "info" "Different project selected - resetting workflow state." s in
      stopIfRunning (loadProject_reset k) s
    else
      let s := set_setupComplete (orFalse (rr_setupComplete result)) s in
      let s := set_buildComplete (orFalse (rr_buildComplete result)) s in
      let s := set_testRunning false s in
      let s := set_fileChangedSinceSetup false s in
      let s := hideNotification s in
      let s :=
        if setupComplete s then
          logMessage "info" "Previous setup detected."
            (setStatus setupStatus completed s)
        else s in
      let s :=
        if buildComplete s then
          logMessage "info" "Previous build detected. Ready to test."
            (setStatus buildStatus completed s)
        else s in
      k (updateUI s).

(** From the point where [addToRecentProjects] has resolved. *)
Definition loadProject_added (isDifferentProject : bool) (result : ReadResult)
    (k : Rest) : Rest :=
  loadRecentProjectsK (loadProject_loaded isDifferentProject result k).

(** From the point where [readProjectFile] has resolved. *)
Definition loadProject_read (path : string) (isDifferentProject : bool) (k : Rest)
    (result : ReadResult) : Rest :=
  fun s =>
    if rr_success result then
      let s := set_projectInfo (Some result) s in
      (s, AwaitVoid CallAddToRecentProjects
            (loadProject_added isDifferentProject result k))
    else
      let s := logMessage "error" ("Failed to load project: " ++ rr_error result) s in
      let s := set_projectInfo None s in
      k (updateUI s).

Definition loadProjectK (path : string) (k : Rest) : Rest :=
  fun s =>
    let '(s, isDifferentProject) := loadProject_begin path s in
    (s, AwaitRead path (loadProject_read path isDifferentProject k)).

(** *** [runSetup] *)

Definition runSetup_done (k : Rest) (result : IpcResult) : Rest :=
  fun s =>
    let s :=
      if ok result then
        let s := set_setupComplete true s in
        let s := set_buildComplete false s in
        let s := set_testRunning false s in
        let s := set_fileChangedSinceSetup false s in
        let s := hideNotification s in
        let s := setStatus setupStatus completed s in
        let s := setStatus buildStatus pending s in
        setStatus testStatus pending s
      else
        let s := set_setupComplete false s in
        setStatus setupStatus error s in
    let s := set_operationRunning false s in
    k (updateUI s).

(** The argument of [setupProject] reads [state.projectInfo.projectName]. *)
Definition runSetup_start (k : Rest) : Rest :=
  fun s =>
    let s := set_operationRunning true s in
    let s := setStatus setupStatus in_progress s in
    let s := updateUI s in
    let s := logMessage "info" "=== Starting Setup ===" s in
    match projectInfo s with
    | None => (s, Died)
    | Some _ => (s, AwaitIpc CallSetupProject (runSetup_done k))
    end.

Definition runSetup_reread (k : Rest) (result : ReadResult) : Rest :=
  fun s =>
    if rr_success result then
      let s := set_projectInfo (Some result) s in
      let s := logMessage "success"
                 ("Detected project: " ++ rr_projectName result
                    ++ " (LVGL " ++ rr_lvglVersion result ++ ")") s in
      runSetup_start k s
    else
      k (logMessage "error" ("Failed to read project: " ++ rr_error result) s).

Definition runSetup_stopped (k : Rest) : Rest :=
  fun s =>
    match projectPath s with
    | Some p =>
        if JsString.falsy p then runSetup_start k s
        else
          let s := logMessage "info" "Re-reading project file for latest settings..." s in
          (s, AwaitRead p (runSetup_reread k))
    | None => runSetup_start k s
    end.

Definition runSetupK (k : Rest) : Rest :=
  fun s =>
    match projectInfo s with
    | None => k s
    | Some _ => stopIfRunning (runSetup_stopped k) s
    end.

(** *** [runBuild] *)

Definition runBuild_done (k : Rest) (result : IpcResult) : Rest :=
  fun s =>
    let s :=
      if ok result then
        let s := set_buildComplete true s in
        let s := set_testRunning false s in
        let s := setStatus buildStatus completed s in
        setStatus testStatus pending s
      else
        let s := set_buildComplete false s in
        setStatus buildStatus error s in
    let s := set_operationRunning false s in
    k (updateUI s).

Definition runBuild_start (k : Rest) : Rest :=
  fun s =>
    let s := set_operationRunning true s in
    let s := setStatus buildStatus in_progress s in
    let s := updateUI s in
    let s := logMessage "info" "=== Starting Build ===" s in
    match projectInfo s with
    | None => (s, Died)
    | Some _ => (s, AwaitIpc CallBuildProject (runBuild_done k))
    end.

Definition runBuildK (k : Rest) : Rest :=
  fun s =>
    match projectInfo s with
    | None => k s
    | Some _ =>
        if negb (setupComplete s) then k s
        else stopIfRunning (runBuild_start k) s
    end.

(** *** [runRebuild] *)

Definition runRebuild_cleaned (k : Rest) (cleanResult : IpcResult) : Rest :=
  fun s =>
    if negb (ok cleanResult) then
      let s := logMessage "error" "Failed to clean build directory" s in
      let s := set_buildComplete false s in
      let s := setStatus buildStatus error s in
      let s := set_operationRunning false s in
      k (updateUI s)
    else runBuildK k s.

Definition runRebuild_start (k : Rest) : Rest :=
  fun s =>
    let s := set_operationRunning true s in
    let s := setStatus buildStatus in_progress s in
    let s := updateUI s in
    let s := logMessage "info" "=== Starting Rebuild ===" s in
    let s := logMessage "info" "Cleaning build directory..." s in
    match projectInfo s with
    | None => (s, Died)
    | Some _ => (s, AwaitIpc CallCleanBuild (runRebuild_cleaned k))
    end.

Definition runRebuildK (k : Rest) : Rest :=
  fun s =>
    match projectInfo s with
    | None => k s
    | Some _ =>
        if negb (setupComplete s) then k s
        else stopIfRunning (runRebuild_start k) s
    end.

(** *** [runAll]; [elapsed] is the duration it prints at its end. *)

Definition runAll_served (elapsed : string) (k : Rest) (serverResult : IpcResult) : Rest :=
  fun s =>
    if negb (ok serverResult) then
      let s := logMessage "error" "Server start failed - aborting Run All" s in
      let s := setStatus testStatus error s in
      let s := set_operationRunning false s in
      k (updateUI s)
    else
      let s := set_testUrl (res_url serverResult) s in
      let s := set_testRunning true s in
      let s := setStatus testStatus running s in
      let s := logMessage "success"
                 ("=== Run All completed successfully in " ++ elapsed ++ "s! ===") s in
      let s := set_operationRunning false s in
      k (updateUI s).

Definition runAll_extracted (elapsed : string) (k : Rest) (extractResult : IpcResult) : Rest :=
  fun s =>
    if negb (ok extractResult) then
      let s := logMessage "error" "Extract failed - aborting Run All" s in
      let s := setStatus testStatus error s in
      let s := set_operationRunning false s in
      k (updateUI s)
    else
      let s := set_outputPath (res_outputPath extractResult) s in
      let s := setStatus testStatus in_progress s in
      (s, AwaitIpc CallStartTestServer (runAll_served elapsed k)).

Definition runAll_built (elapsed : string) (k : Rest) (buildResult : IpcResult) : Rest :=
  fun s =>
    if negb (ok buildResult) then
      let s := logMessage "error" "Build failed - aborting Run All" s in
      let s := set_buildComplete false s in
      let s := setStatus buildStatus error s in
      let s := set_operationRunning false s in
      k (updateUI s)
    else
      let s := set_buildComplete true s in
      let s := setStatus buildStatus completed s in
      let s := logMessage "info" "Step 3/3: Starting Test..." s in
      let s := setStatus testStatus in_progress s in
      match projectInfo s with
      | None => (s, Died)
      | Some _ => (s, AwaitIpc CallExtractBuild (runAll_extracted elapsed k))
      end.

Definition runAll_set_up (elapsed : string) (k : Rest) (setupResult : IpcResult) : Rest :=
  fun s =>
    if negb (ok setupResult) then
      let s := logMessage "error" "Setup failed - aborting Run All" s in
      let s := set_setupComplete false s in
      let s := setStatus setupStatus error s in
      let s := set_operationRunning false s in
      k (updateUI s)
    else
      let s := set_setupComplete true s in
      let s := set_fileChangedSinceSetup false s in
      let s := hideNotification s in
      let s := setStatus setupStatus completed s in
      let s := logMessage "info" "Step 2/3: Running Build..." s in
      let s := setStatus buildStatus in_progress s in
      match projectInfo s with
      | None => (s, Died)
      | Some _ => (s, AwaitIpc CallBuildProject (runAll_built elapsed k))
      end.

(** [setupProject] is passed [state.projectInfo] whole. *)
Definition runAll_start (elapsed : string) (k : Rest) : Rest :=
  fun s =>
    let s := set_operationRunning true s in
    let s := updateUI s in
    let s := logMessage "info" "=== Starting Run All (Setup -> Build -> Test) ===" s in
    let s := logMessage "info" "Step 1/3: Running Setup..." s in
    let s := setStatus setupStatus in_progress s in
    (s, AwaitIpc CallSetupProject (runAll_set_up elapsed k)).

Definition runAllK (elapsed : string) (k : Rest) : Rest :=
  fun s =>
    match projectInfo s with
    | None => k s
    | Some _ => stopIfRunning (runAll_start elapsed k) s
    end.

(** *** [runTest] *)

Definition runTest_served (k : Rest) (serverResult : IpcResult) : Rest :=
  fun s =>
    let s :=
      if ok serverResult then
        let s := set_testRunning true s in
        let s := set_testUrl (res_url serverResult) s in
        setStatus testStatus completed s
      else setStatus testStatus error s in
    let s := set_operationRunning false s in
    k (updateUI s).

Definition runTest_extracted (k : Rest) (extractResult : IpcResult) : Rest :=
  fun s =>
    if negb (ok extractResult) then
      let s := setStatus testStatus error s in
      let s := set_operationRunning false s in
      k (updateUI s)
    else
      let s := set_outputPath (res_outputPath extractResult) s in
      let s := setStatus testStatus in_progress s in
      (s, AwaitIpc CallStartTestServer (runTest_served k)).

Definition runTestK (k : Rest) : Rest :=
  fun s =>
    match projectInfo s with
    | None => k s
    | Some _ =>
        if negb (buildComplete s) then k s
        else
          let s := set_operationRunning true s in
          let s := setStatus testStatus in_progress s in
          let s := updateUI s in
          let s := logMessage "info" "=== Starting Test ===" s in
          (s, AwaitIpc CallExtractBuild (runTest_extracted k))
    end.

(** *** The listeners of the notification and of the file watcher *)

Definition rebuild_stopped (elapsed : string) : Rest :=
  fun s =>
    let s := hideNotification s in
    let s := set_fileChangedSinceSetup false s in
    runAllK elapsed finished s.

(** The click listener of [btnRebuild]. *)
Definition rebuildK (elapsed : string) : Rest :=
  stopIfRunning (rebuild_stopped elapsed).

(** The listener registered with [electronAPI.onFileChanged]. For the
    project file it calls [loadProject] without awaiting it: the call
    runs up to its first [await], the listener goes on and returns, and
    the rest of [loadProject] runs when [readProjectFile] answers. *)
Definition onFileChangedK (path : string) : Rest :=
  fun s =>
    if match projectPath s with Some p => String.eqb path p | None => false end then
      let s := logMessage "info" "Project file changed, reloading..." s in
      let wasSetupComplete := setupComplete s in
      let '(s, reload) := loadProjectK path finished s in
      let s :=
        if wasSetupComplete then
          showNotification (set_fileChangedSinceSetup true s)
        else s in
      (s, reload)
    else if setupComplete s && negb (fileChangedSinceSetup s) then
      let s := set_fileChangedSinceSetup true s in
      let s := showNotification s in
      finished (logMessage "info" ("File changed: " ++ path) s)
    else finished s.

(** *** The page *)

(** What can happen to the page: [loadProject] is called with a path
    (picked, pasted, typed, taken from the recent list or remembered
    from the last session), a button is pressed, the watcher reports a
    file, or the main process answers the [i]-th of the handlers that
    wait. *)
Inductive Input :=
| Open (path : string)
| PressSetup
| PressBuild
| PressRunRebuild
| PressRunAll (elapsed : string)
| PressTest
| PressStopTest
| PressRebuild (elapsed : string)
| PressDismiss
| Watch (path : string)
| ReadAnswered (i : nat) (result : ReadResult)
| IpcAnswered (i : nat) (result : IpcResult)
| VoidAnswered (i : nat).

(** The state and the handlers that wait, oldest first. *)
Record Page := { state : State; waiting : list Proc }.

(** The page as [init] leaves it when no project is remembered: its
    last call is [updateUI()]. The line about Docker that [init] logs
    is left out. With a remembered project [init] calls [loadProject]
    once its listeners are set up, which is the input [Open]. *)
Definition opened : Page := {| state := updateUI initial; waiting := [] |}.

(** A handler that has reached an [await] joins those that wait. *)
Definition park (turn : State * Proc) (others : list Proc) : Page :=
  match snd turn with
  | Done | Died => {| state := fst turn; waiting := others |}
  | p => {| state := fst turn; waiting := others ++ [p] |}
  end.

Definition without (i : nat) (ps : list Proc) : list Proc :=
  firstn i ps ++ skipn (S i) ps.

(** The handler an input starts; none for an answer. *)
Definition handler (x : Input) : option Rest :=
  match x with
  | Open path => Some (loadProjectK path finished)
  | PressSetup => Some (runSetupK finished)
  | PressBuild => Some (runBuildK finished)
  | PressRunRebuild => Some (runRebuildK finished)
  | PressRunAll elapsed => Some (runAllK elapsed finished)
  | PressTest => Some (runTestK finished)
  | PressStopTest => Some (stopTestK finished)
  | PressRebuild elapsed => Some (rebuildK elapsed)
  | PressDismiss => Some (fun s => finished (dismiss s))
  | Watch path => Some (onFileChangedK path)
  | ReadAnswered _ _ | IpcAnswered _ _ | VoidAnswered _ => None
  end.

(** One turn of the page. An input is taken whether or not the page
    offers it at that moment (the [disabled] attribute of the buttons
    and the visibility of the notification are not kept), so that every
    run of the page is a run of [step]; an answer is taken only by a
    handler that waits for one of its kind. *)
Definition step (x : Input) (p : Page) : option Page :=
  match x with
  | ReadAnswered i result =>
      match nth_error (waiting p) i with
      | Some (AwaitRead _ k) => Some (park (k result (state p)) (without i (waiting p)))
      | _ => None
      end
  | IpcAnswered i result =>
      match nth_error (waiting p) i with
      | Some (AwaitIpc _ k) => Some (park (k result (state p)) (without i (waiting p)))
      | _ => None
      end
  | VoidAnswered i =>
      match nth_error (waiting p) i with
      | Some (AwaitVoid _ k) => Some (park (k (state p)) (without i (waiting p)))
      | _ => None
      end
  | _ =>
      match handler x with
      | Some h => Some (park (h (state p)) (waiting p))
      | None => None
      end
  end.

Fixpoint play (xs : list Input) (p : Page) : option Page :=
  match xs with
  | [] => Some p
  | x :: rest =>
      match step x p with
      | Some p' => play rest p'
      | None => None
      end
  end.

(** The pages the turns lead to. *)
Inductive reachable : Page -> Prop :=
| reach_opened : reachable opened
| reach_step x p p' : reachable p -> step x p = Some p' -> reachable p'.

Definition answers (x : Input) : bool :=
  match x with
  | ReadAnswered _ _ | IpcAnswered _ _ | VoidAnswered _ => true
  | _ => false
  end.

(** The pages reached when the handlers run one at a time: nothing
    but its answers comes in while a handler waits. *)
Inductive reachable_in_turn : Page -> Prop :=
| in_turn_opened : reachable_in_turn opened
| in_turn_step x p p' :
    reachable_in_turn p -> waiting p = [] \/ answers x = true ->
    step x p = Some p' -> reachable_in_turn p'.

End Turns.

(** ** Vocabulary of the statements *)

Module Spec.
Import Lib.

(** A replacement template without a dollar sign. *)
Fixpoint noDollar (t : string) : bool :=
  match t with
  | EmptyString => true
  | String c t' => negb (Ascii.eqb c "$") && noDollar t'
  end.

(** The headers set by the first layer of the test server. *)
Definition noCacheHeaders : gmap string string :=
  <["Expires" := "0"]>
    (<["Pragma" := "no-cache"]>
      (<["Cache-Control" := "no-store, no-cache, must-revalidate, private"]> ∅)).

(** [full] is [base] followed by elements that all satisfy [P]. *)
Definition extends {A} (P : A -> Prop) (base full : list A) : Prop :=
  exists more, full = (base ++ more)%list /\ Forall P more.

(** An event of [updateBuildFiles]; any log line. *)
Definition fileOp (ev : Event) : Prop := isFileOp (fst ev) = true.

Definition anyLog (e : LogEntry) : Prop := True.

(** The line logged when the pull fails. *)
Definition pullWarning : LogEntry :=
  {| message := "Git pull failed, continuing with existing code...";
     logType := Some warning |}.

(** The line logged when [index.data] cannot be copied. *)
Definition dataSkipped : LogEntry :=
  {| message := "index.data" ++ " not found (optional file, skipping)";
     logType := None |}.

(** The files [extractBuild] cannot do without. *)
Definition required : list string := ["index.html"; "index.js"; "index.wasm"].

(** A successful copy out of the container [cid]. *)
Definition copied (cid : string) (ev : Event) : Prop :=
  success (snd ev) = true /\ exists f dest, fst ev = CopyOut cid f dest.


(** A [setStatus] call respects the order of the stages: Build is set
    in progress only while Setup is complete, and Test is set in
    progress or running only while Build is complete. *)
Definition gated (t : Renderer.Transition) : Prop :=
  match Renderer.badge t, Renderer.class t with
  | Renderer.buildStatus, Renderer.in_progress =>
      Renderer.at_setupComplete t = true
      /\ Renderer.at_setupBadge t = Renderer.completed
  | Renderer.testStatus,
    (Renderer.in_progress | Renderer.running | Renderer.completed) =>
      Renderer.at_buildComplete t = true
      /\ Renderer.at_buildBadge t = Renderer.completed
  | _, _ => True
  end.

(** What holds between two handlers: the recorded calls are gated, and
    with a project loaded a raised completion flag shows on its badge. *)
Definition consistent (s : Renderer.State) : Prop :=
  Forall gated (Renderer.history s)
  /\ (Renderer.projectInfo s <> None -> Renderer.setupComplete s = true ->
      Renderer.setupBadge s = Renderer.completed)
  /\ (Renderer.projectInfo s <> None -> Renderer.buildComplete s = true ->
      Renderer.buildBadge s = Renderer.completed).

(** The number of [File changed: ...] lines in the log. *)
Definition notices (s : Renderer.State) : nat :=
  List.length
    (List.filter (fun m => String.prefix "File changed: " (snd m))
       (Renderer.messages s)).

End Spec.

(** ** Concrete environments used to exercise the properties *)

Module Fixtures.

Definition page : string :=
  "<html><head><title>t</title></head><body><p></head></p></body></html>".

Definition pageWithoutHead : string := "<html><body>no head</body></html>".

Definition serverEnv (html : string) : Main.ServerEnv :=
  {| Main.readFile := fun p =>
       if String.eqb p "output/index.html" then Some html else None;
     Main.path_join := fun a b => a ++ "/" ++ b;
     Main.static_file := fun root req =>
       if String.eqb (Main.path req) "/index.js" then Some "var Module;" else None |}.

Definition done : Lib.CommandResult :=
  {| Lib.success := true; Lib.output := Some ""; Lib.error := Some "" |}.

Definition failed : Lib.CommandResult :=
  {| Lib.success := false; Lib.output := Some ""; Lib.error := Some "exit 1" |}.

Definition detached : Lib.CommandResult :=
  {| Lib.success := true; Lib.output := Some ("3f9a21c0" ++ Lib.nl);
     Lib.error := Some "" |}.

(** Docker answers every command with success, except those picked by
    [fails]. *)
Definition libEnv (fails : Lib.Command -> bool) : Lib.Env :=
  {| Lib.respond := fun _ c =>
       if fails c then failed
       else match c with Lib.RunDetached => detached | _ => done end;
     Lib.existsSync := fun _ => true;
     Lib.rmSync := fun _ => None;
     Lib.mkdirSync := fun _ => None;
     Lib.statSync := fun _ => inr 1024%Z;
     Lib.path_resolve := fun p => p;
     Lib.path_join := fun a b => a ++ "/" ++ b;
     Lib.posix_dirname := fun _ => "/fonts";
     Lib.posix_basename := fun _ => "font.ttf";
     Lib.base64 := fun s => s;
     Lib.duration := "1.0" |}.

Definition nothingFails (c : Lib.Command) : bool := false.

Definition pullFails (c : Lib.Command) : bool :=
  match c with Lib.GitPull => true | _ => false end.

Definition firstTimeCloneFails (c : Lib.Command) : bool :=
  match c with Lib.ProbeBuildSh | Lib.GitClone _ _ => true | _ => false end.

Definition firstTimeCopyFails (c : Lib.Command) : bool :=
  match c with Lib.ProbeBuildSh | Lib.CopyUiDir _ _ => true | _ => false end.

Definition dataMissing (c : Lib.Command) : bool :=
  match c with Lib.CopyOut _ f _ => String.eqb f "index.data" | _ => false end.

Definition wasmMissing (c : Lib.Command) : bool :=
  match c with Lib.CopyOut _ f _ => String.eqb f "index.wasm" | _ => false end.

Definition project : Lib.ProjectInfo :=
  {| Lib.lvglVersion := "9.2.2"; Lib.flowSupport := true;
     Lib.projectDir := "/home/dev/demo"; Lib.uiDir := "/home/dev/demo/src/ui";
     Lib.destinationFolder := "src/ui";
     Lib.displayWidth := 480; Lib.displayHeight := 272; Lib.fonts := [] |}.

Definition config : Lib.BuildConfig :=
  {| Lib.repositoryName := "lvgl-simulator-for-studio-docker-build";
     Lib.dockerVolumeName := "lvgl-simulator";
     Lib.dockerBuildPath := "docker-build" |}.

(** No command was run yet; then the child [p] is started. *)
Definition idle : Main.Supervisor :=
  {| Main.currentDockerProcess := None; Main.children := ∅;
     Main.timers := []; Main.resolved := ∅ |}.

Definition running (p : nat) : Main.Supervisor := Main.runDockerCommand p idle.

(** Ports 3000 and 3001 are taken. *)
Definition busyNet : Main.Net :=
  {| Main.occupied := {[3000%Z; 3001%Z]}; Main.ephemeral := 49152%Z;
     Main.probes := ∅ |}.

Definition demoRead : Renderer.ReadResult :=
  {| Renderer.rr_success := true; Renderer.rr_projectName := "demo";
     Renderer.rr_lvglVersion := "9.2.2"; Renderer.rr_setupComplete := None;
     Renderer.rr_buildComplete := None; Renderer.rr_error := "" |}.

Definition succeeded : Renderer.IpcResult :=
  {| Renderer.ok := true; Renderer.res_outputPath := Some "output";
     Renderer.res_url := Some "http://localhost:3000" |}.

Definition failure : Renderer.IpcResult :=
  {| Renderer.ok := false; Renderer.res_outputPath := None;
     Renderer.res_url := None |}.

(** A project was loaded and Setup has succeeded. *)
Definition afterSetup : Renderer.State :=
  Renderer.handle (Renderer.RunSetup demoRead succeeded)
    (Renderer.handle (Renderer.LoadProject "demo.eez-project" demoRead)
       Renderer.initial).

End Fixtures.
(** ** readProjectFile of scripts/docker-build-lib.ts *)

Module Project.

(** An entry of [project.fonts], with the fields EEZ Studio writes. *)
Record FontJson := {
  lvglUseFreeType : bool;
  source_filePath : string;
  lvglFreeTypeFilePath : string
}.

(** What [readProjectFile] reads of the parsed project file, for a
    file of the shape EEZ Studio writes: the version and the
    destination folder are strings, the display sizes integers, the flow
    flag a boolean, and every font that uses FreeType has its
    [source.filePath]. An absent field (or an absent [settings],
    [general] or [build] object above it) is [None], and [fonts] is
    [None] unless it is an array. A file of another shape (the text
    [null], a destination folder that is not a string, a FreeType font
    without [source]) makes the source throw a [TypeError] or return
    values of other types; such files have no counterpart here. *)
Record ProjectJson := {
  general_lvglVersion : option string;
  general_flowSupport : option bool;
  general_displayWidth : option Z;
  general_displayHeight : option Z;
  build_destinationFolder : option string;
  fonts : option (list FontJson)
}.

(** The file system and the [path] module. [parse] is
    [JSON.parse(fs.readFileSync(p, 'utf8'))]; [inl msg] when it throws.
    [memberText name] is what the engine prints, in a template literal,
    for the member [name] of [Object.prototype]. *)
Record Files := {
  existsSync : string -> bool;
  parse : string -> string + ProjectJson;
  path_dirname : string -> string;
  path_join : string -> string -> string;
  path_basename : string -> string;
  memberText : string -> string
}.

(** [versionMap[key]] for the object literal of the source: an own
    property, a member inherited from [Object.prototype], or nothing. *)
Inductive Lookup := Own (v : string) | Inherited | Absent.

Definition objectPrototypeKeys : list string :=
  ["constructor"; "hasOwnProperty"; "isPrototypeOf"; "propertyIsEnumerable";
   "toLocaleString"; "toString"; "valueOf"; "__proto__"; "__defineGetter__";
   "__defineSetter__"; "__lookupGetter__"; "__lookupSetter__"].

Definition versionMap (key : string) : Lookup :=
  if String.eqb key "8.3" then Own "8.4.0"
  else if String.eqb key "8.3.0" then Own "8.4.0"
  else if String.eqb key "9.0" then Own "9.2.2"
  else if String.eqb key "9.0.0" then Own "9.2.2"
  else if existsb (String.eqb key) objectPrototypeKeys then Inherited
  else Absent.

(** [s.replace(/\\/g, '/')] *)
Fixpoint slashes (s : string) : string :=
  match s with
  | EmptyString => EmptyString
  | String c s' =>
      String (if Ascii.eqb c (ascii_of_nat 92) then "/"%char else c) (slashes s')
  end.

(** [x || d] for an optional number and for an optional string. *)
Definition orZ (x : option Z) (d : Z) : Z :=
  match x with
  | Some z => if (z =? 0)%Z then d else z
  | None => d
  end.

Definition orString (x : option string) (d : string) : string :=
  match x with
  | Some s => if JsString.falsy s then d else s
  | None => d
  end.

Definition orNo (x : option bool) : bool :=
  match x with Some b => b | None => false end.

Definition entry (msg : string) (t : option Lib.LogType) : Lib.LogEntry :=
  {| Lib.message := msg; Lib.logType := t |}.

Section WithEnv.

Variable E : Files.

(** The loop over [project.fonts]: the fonts kept and the lines logged. *)
Fixpoint parseFonts (projectDir : string) (fs : list FontJson)
  : list Lib.FontInfo * list Lib.LogEntry :=
  match fs with
  | [] => ([], [])
  | font :: rest =>
      let '(fonts, logs) := parseFonts projectDir rest in
      if lvglUseFreeType font then
        let localFontPath := path_join E projectDir (slashes (source_filePath font)) in
        let targetFontPath := lvglFreeTypeFilePath font in
        let fontFileName := path_basename E localFontPath in
        if negb (existsSync E localFontPath) then
          (fonts,
           entry ("Warning: Font file not found: " ++ localFontPath) (Some Lib.warning)
             :: logs)
        else
          ({| Lib.localPath := localFontPath; Lib.targetPath := targetFontPath;
              Lib.fileName := fontFileName |} :: fonts,
           entry ("Found FreeType font: " ++ fontFileName ++ " -> " ++ targetFontPath) None
             :: logs)
      else (fonts, logs)
  end.

(** How [readProjectFile] ends: it throws, it returns, or it returns
    with, as [lvglVersion], the member of [Object.prototype] that the
    version of the project file names (the table of versions is an
    object literal, and looking up [toString] in it finds the inherited
    function). In that last case [info] holds, for [lvglVersion], the
    text that member prints as. *)
Inductive Reading :=
| Threw (msg : string)
| Returned (info : Lib.ProjectInfo)
| ReturnedMember (name : string) (info : Lib.ProjectInfo).

(** [readProjectFile], with the lines it logged. *)
Definition readProjectFile (projectPath : string) : Reading * list Lib.LogEntry :=
  let log0 := [entry ("Reading project file: " ++ projectPath) None] in
  if negb (existsSync E projectPath) then
    (Threw ("Project file not found: " ++ projectPath), log0)
  else
    match parse E projectPath with
    | inl msg => (Threw msg, log0)
    | inr project =>
        let flowSupport := orNo (general_flowSupport project) in
        let displayWidth := orZ (general_displayWidth project) 800 in
        let displayHeight := orZ (general_displayHeight project) 480 in
        let destinationFolder := orString (build_destinationFolder project) "src/ui" in
        match general_lvglVersion project with
        | None => (Threw "LVGL version not specified in project settings", log0)
        | Some version =>
            if JsString.falsy version then
              (Threw "LVGL version not specified in project settings", log0)
            else
              let '(lvglVersion, log1) :=
                match versionMap version with
                | Own v =>
                    (v, [entry ("LVGL version " ++ version ++ " mapped to " ++ v)
                           (Some Lib.info)])
                | Inherited =>
                    (memberText E version,
                     [entry ("LVGL version " ++ version ++ " mapped to "
                               ++ memberText E version) (Some Lib.info)])
                | Absent => (version, [])
                end in
              let projectDir := path_dirname E projectPath in
              let normalizedDestination := slashes destinationFolder in
              let uiDir := path_join E projectDir normalizedDestination in
              if negb (existsSync E uiDir) then
                (Threw ("Build destination directory not found at: " ++ uiDir),
                 (log0 ++ log1)%list)
              else
                let '(fonts, log2) :=
                  match fonts project with
                  | Some fs => parseFonts projectDir fs
                  | None => ([], [])
                  end in
                let log3 :=
                  match fonts with
                  | [] => []
                  | _ :: _ =>
                      [entry ("Total FreeType fonts to include: "
                                ++ Lib.showZ (Z.of_nat (List.length fonts)))
                         (Some Lib.successT)]
                  end in
                let log4 :=
                  [entry ("Detected project: LVGL " ++ lvglVersion ++ " ("
                            ++ (if flowSupport then "with" else "no")
                            ++ " flow support)") (Some Lib.successT);
                   entry ("Display: " ++ Lib.showZ displayWidth ++ "x"
                            ++ Lib.showZ displayHeight) None;
                   entry ("UI directory: " ++ uiDir) None] in
                let info :=
                  {| Lib.lvglVersion := lvglVersion;
                     Lib.flowSupport := flowSupport;
                     Lib.projectDir := projectDir;
                     Lib.uiDir := uiDir;
                     Lib.destinationFolder := normalizedDestination;
                     Lib.displayWidth := displayWidth;
                     Lib.displayHeight := displayHeight;
                     Lib.fonts := fonts |} in
                (match versionMap version with
                 | Inherited => ReturnedMember version info
                 | _ => Returned info
                 end,
                 (log0 ++ log1 ++ log2 ++ log3 ++ log4)%list)
        end
    end.

End WithEnv.

End Project.

(** ** buildProject, cleanBuild, cleanAll, checkDocker and
    shouldFilterDockerMessage of scripts/docker-build-lib.ts *)

Module Build.

(** The commands these functions spawn. *)
Inductive Spawned :=
| RunBuildSh (buildCommand : string)
| RemoveBuildDir
| RemoveAll.

Definition commandLine (c : Spawned) : string * list string :=
  match c with
  | RunBuildSh buildCommand =>
      ("docker-compose", ["run"; "--rm"; "emscripten-build"; "sh"; "-c"; buildCommand])
  | RemoveBuildDir =>
      ("docker-compose", ["run"; "--rm"; "emscripten-build"; "rm"; "-rf"; "/project/build"])
  | RemoveAll =>
      ("docker-compose",
       ["run"; "--rm"; "emscripten-build"; "sh"; "-c";
        Lib.dq ++ "rm -rf /project/* /project/.*[!.]*" ++ Lib.dq])
  end.

Definition Spawn : Type := Spawned * Lib.CommandResult.

(** The outcome of a spawned command, the exit status of the two
    [spawnSync] calls of [checkDocker] ([None] for a [null] status) and
    the formatted elapsed time. *)
Record Docker := {
  respond : list Spawn -> Spawned -> Lib.CommandResult;
  dockerVersionStatus : option Z;
  dockerPsStatus : option Z;
  duration : string
}.

Record Session := { trace : list Spawn; logs : list Lib.LogEntry }.

Definition log (msg : string) (type : option Lib.LogType) (st : Session) : Session :=
  {| trace := trace st;
     logs := logs st ++ [ {| Lib.message := msg; Lib.logType := type |} ] |}.

(** The option [buildProject] appends for a project with fonts. *)
Definition fontsOption : string := " --fonts=/project/fonts.txt".

(** The [buildCommand] string of [buildProject]. *)
Definition buildCommand (projectInfo : Lib.ProjectInfo) : string :=
  let buildCommand :=
    Lib.dq ++ "./build.sh --lvgl=" ++ Lib.lvglVersion projectInfo
      ++ " --display-width=" ++ Lib.showZ (Lib.displayWidth projectInfo)
      ++ " --display-height=" ++ Lib.showZ (Lib.displayHeight projectInfo) in
  let buildCommand :=
    match Lib.fonts projectInfo with
    | [] => buildCommand
    | _ :: _ => buildCommand ++ fontsOption
    end in
  buildCommand ++ Lib.dq.

(** The 64-character identifier test [/^[a-f0-9]{64}$/]. *)
Definition isHexDigit (c : ascii) : bool :=
  let n := nat_of_ascii c in
  ((48 <=? n) && (n <=? 57) || (97 <=? n) && (n <=? 102))%nat.

Definition isContainerId (s : string) : bool :=
  (String.length s =? 64)%nat && forallb isHexDigit (list_ascii_of_string s).

Definition filters : list string :=
  ["Found orphan containers";
   "Container docker-build-emscripten-build-run-";
   "Container ID:";
   "--remove-orphans flag";
   "cache:INFO"].

(** [shouldFilterDockerMessage] *)
Definition shouldFilterDockerMessage (text : string) : bool :=
  if existsb (fun filter => JsString.includes text filter) filters then true
  else isContainerId (JsString.trim text).

Section WithEnv.

Variable E : Docker.

(** [runCommand] *)
Definition runCommand (c : Spawned) (st : Session) : Lib.CommandResult * Session :=
  let st :=
    log ("Running: " ++ fst (commandLine c) ++ " " ++ String.concat " " (snd (commandLine c))) None st in
  let r := respond E (trace st) c in
  (r, {| trace := trace st ++ [(c, r)]; logs := logs st |}).

(** [checkDocker] *)
Definition checkDocker (st : Session) : bool * Session :=
  let st := log "Checking Docker status..." None st in
  match dockerVersionStatus E with
  | Some 0%Z =>
      match dockerPsStatus E with
      | Some 0%Z => (true, log "Docker is ready." (Some Lib.successT) st)
      | _ =>
          (false,
           log "Docker is not running. Please start Docker Desktop." (Some Lib.errorT) st)
      end
  | _ =>
      (false,
       log "Docker is not installed. Please install Docker Desktop." (Some Lib.errorT) st)
  end.

(** [buildProject] *)
Definition buildProject (projectInfo : Lib.ProjectInfo) (config : Lib.BuildConfig)
    (st : Session) : (string + unit) * Session :=
  let st := log "=== Step 2/3: Build ===" None st in
  let st :=
    log ("Starting build (LVGL " ++ Lib.lvglVersion projectInfo ++ ", "
           ++ Lib.showZ (Lib.displayWidth projectInfo) ++ "x"
           ++ Lib.showZ (Lib.displayHeight projectInfo) ++ ")...") None st in
  let '(result, st) := runCommand (RunBuildSh (buildCommand projectInfo)) st in
  if negb (Lib.success result) then (inl "Build failed", st)
  else
    (inr tt,
     log ("Build completed successfully in " ++ duration E ++ "s!") (Some Lib.successT) st).

(** [cleanBuild] *)
Definition cleanBuild (config : Lib.BuildConfig) (st : Session) : (string + unit) * Session :=
  let st := log "=== Clean Build Directory ===" None st in
  let st := log "Removing build directory..." None st in
  let '(result, st) := runCommand RemoveBuildDir st in
  if negb (Lib.success result) then (inl "Clean build failed", st)
  else
    (inr tt,
     log ("Build directory cleaned in " ++ duration E ++ "s!") (Some Lib.successT) st).

(** [cleanAll] *)
Definition cleanAll (config : Lib.BuildConfig) (st : Session) : (string + unit) * Session :=
  let st := log "=== Clean All ===" None st in
  let st := log "Removing all contents from /project directory..." None st in
  let '(result, st) := runCommand RemoveAll st in
  if negb (Lib.success result) then (inl "Clean all failed", st)
  else
    (inr tt,
     log ("Project directory cleaned in " ++ duration E
            ++ "s. Next build will start from scratch.") (Some Lib.successT) st).

End WithEnv.

End Build.

(** ** scripts/docker-build.ts *)

Module Cli.

Definition REPOSITORY_NAME : string := "lvgl-simulator-for-studio-docker-build".
Definition DOCKER_VOLUME_NAME : string := "lvgl-simulator".

(** The library functions [main] calls. *)
Inductive Stage :=
| CheckDocker | CleanAll | CleanBuild
| ReadProjectFile | SetupProject | BuildProject | ExtractBuild.

(** How [main] ends: a call of [process.exit], or its normal end. *)
Inductive Ending := ProcessExit (code : Z) | Return.

(** What the process sees of the outside. *)
Record World := {
  project : Project.Files;
  lib : Lib.Env;
  build : Build.Docker;
  DOCKER_BUILD_PATH : string;
  totalDuration : string
}.

(** A run of [main]: how it ended, the library functions it called,
    in order, the lines written with [console.error], the lines
    handed to [log], and the commands spawned. *)
Record Result := {
  ending : Ending;
  called : list Stage;
  usage : list string;
  console : list Lib.LogEntry;
  libTrace : list Lib.Event;
  buildTrace : list Build.Spawn
}.

(** The loop over [args]: the two flags and [filteredArgs]. *)
Fixpoint parseOptions (args : list string) : bool * bool * list string :=
  match args with
  | [] => (false, false, [])
  | arg :: rest =>
      let '(cleanBuildFlag, cleanAllFlag, filteredArgs) := parseOptions rest in
      if String.eqb arg "--clean-build" then (true, cleanAllFlag, filteredArgs)
      else if String.eqb arg "--clean-all" then (cleanBuildFlag, true, filteredArgs)
      else (cleanBuildFlag, cleanAllFlag, arg :: filteredArgs)
  end.

Definition cleanUsage : list string :=
  ["Usage: ts-node scripts/docker-build.ts --clean-build|--clean-all";
   "";
   "Clean operations do not require project file or output folder arguments."].

Definition buildUsage : list string :=
  ["Usage: ts-node scripts/docker-build.ts <path-to-eez-project-file> <output-folder>";
   "   or: ts-node scripts/docker-build.ts --clean-build";
   "   or: ts-node scripts/docker-build.ts --clean-all";
   "";
   "Options:";
   "  --clean-build    Remove only the build directory";
   "  --clean-all      Remove entire project directory (fresh start)";
   "";
   "Example:";
   "  ts-node scripts/docker-build.ts ./my-project.eez-project ./output";
   "  ts-node scripts/docker-build.ts --clean-build";
   "  ts-node scripts/docker-build.ts --clean-all"].

(** A call [log(msg)] or [log(msg, type)]. *)
Definition line (msg : string) (t : option Lib.LogType) : Lib.LogEntry :=
  {| Lib.message := msg; Lib.logType := t |}.

(** The [catch] block of [main]. *)
Definition caught (msg : string) (called : list Stage) (console : list Lib.LogEntry)
    (libTrace : list Lib.Event) (buildTrace : list Build.Spawn) : Result :=
  {| ending := ProcessExit 1; called := called; usage := [];
     console := (console ++ [line "" (Some Lib.errorT);
                             line ("Build failed: " ++ msg) (Some Lib.errorT)])%list;
     libTrace := libTrace; buildTrace := buildTrace |}.

Section WithWorld.

Variable W : World.

Definition cliConfig : Lib.BuildConfig :=
  {| Lib.repositoryName := REPOSITORY_NAME;
     Lib.dockerVolumeName := DOCKER_VOLUME_NAME;
     Lib.dockerBuildPath := DOCKER_BUILD_PATH W |}.

(** The normal build flow of [main], from the first [log] after the
    clean operations.  [None]: the project file named a member of
    [Object.prototype] as its version; that run is not followed. *)
Definition buildFlow (projectFilePath outputFolder : string)
    (console : list Lib.LogEntry) : option Result :=
  let console :=
    (console ++ [line ("Project: " ++ projectFilePath) None;
                 line ("Output: " ++ outputFolder) None;
                 line "" None])%list in
  let called := [CheckDocker; ReadProjectFile] in
  match Project.readProjectFile (project W) projectFilePath with
  | (Project.ReturnedMember _ _, _) => None
  | (Project.Threw msg, lines) =>
      Some (caught msg called (console ++ lines)%list [] [])
  | (Project.Returned projectInfo, lines) =>
      let console := (console ++ lines)%list in
      let called := (called ++ [SetupProject])%list in
      match Lib.setupProject (lib W) projectInfo cliConfig
              {| Lib.trace := []; Lib.logs := console |} with
      | (inl msg, st) => Some (caught msg called (Lib.logs st) (Lib.trace st) [])
      | (inr _, st) =>
          let called := (called ++ [BuildProject])%list in
          match Build.buildProject (build W) projectInfo cliConfig
                  {| Build.trace := []; Build.logs := Lib.logs st |} with
          | (inl msg, bst) =>
              Some (caught msg called (Build.logs bst) (Lib.trace st) (Build.trace bst))
          | (inr _, bst) =>
              let called := (called ++ [ExtractBuild])%list in
              let resolvedOutputPath := Lib.path_resolve (lib W) outputFolder in
              match Lib.extractBuild (lib W) resolvedOutputPath cliConfig
                      {| Lib.trace := Lib.trace st; Lib.logs := Build.logs bst |} with
              | (inl msg, st') =>
                  Some (caught msg called (Lib.logs st') (Lib.trace st') (Build.trace bst))
              | (inr _, st') =>
                  Some {| ending := Return; called := called; usage := [];
                          console :=
                            (Lib.logs st'
                               ++ [line "" None;
                                   line ("=== Build completed successfully in "
                                            ++ totalDuration W ++ "s! ===")
                                     (Some Lib.successT);
                                   line ("Output files are in: " ++ resolvedOutputPath)
                                     None])%list;
                          libTrace := Lib.trace st'; buildTrace := Build.trace bst |}
              end
          end
      end
  end.

(** [main]; [args] is [process.argv.slice(2)]. *)
Definition main (args : list string) : option Result :=
  let '(cleanBuildFlag, cleanAllFlag, filteredArgs) := parseOptions args in
  let usageError (lines : list string) :=
    Some {| ending := ProcessExit 1; called := []; usage := lines; console := [];
            libTrace := []; buildTrace := [] |} in
  if (cleanBuildFlag || cleanAllFlag) && negb (List.length filteredArgs =? 0)%nat then
    usageError cleanUsage
  else if negb (cleanBuildFlag || cleanAllFlag)
          && negb (List.length filteredArgs =? 2)%nat then
    usageError buildUsage
  else
    let console := [line "=== EEZ Studio Docker Build Tool ===" (Some Lib.info)] in
    let '(dockerReady, bst) :=
      Build.checkDocker (build W) {| Build.trace := []; Build.logs := console |} in
    let console := Build.logs bst in
    if negb dockerReady then
      Some {| ending := ProcessExit 1; called := [CheckDocker]; usage := [];
              console := console; libTrace := []; buildTrace := [] |}
    else if cleanAllFlag then
      match Build.cleanAll (build W) cliConfig {| Build.trace := []; Build.logs := console |} with
      | (inl msg, bst) =>
          Some (caught msg [CheckDocker; CleanAll] (Build.logs bst) [] (Build.trace bst))
      | (inr _, bst) =>
          Some {| ending := Return; called := [CheckDocker; CleanAll]; usage := [];
                  console :=
                    (Build.logs bst
                       ++ [line "" None;
                           line "=== Clean all completed successfully! ==="
                             (Some Lib.successT)])%list;
                  libTrace := []; buildTrace := Build.trace bst |}
      end
    else if cleanBuildFlag then
      match Build.cleanBuild (build W) cliConfig {| Build.trace := []; Build.logs := console |} with
      | (inl msg, bst) =>
          Some (caught msg [CheckDocker; CleanBuild] (Build.logs bst) [] (Build.trace bst))
      | (inr _, bst) =>
          Some {| ending := Return; called := [CheckDocker; CleanBuild]; usage := [];
                  console :=
                    (Build.logs bst
                       ++ [line "" None;
                           line "=== Clean build completed successfully! ==="
                             (Some Lib.successT)])%list;
                  libTrace := []; buildTrace := Build.trace bst |}
      end
    else
      let projectFilePath := nth 0 filteredArgs "" in
      let outputFolder := nth 1 filteredArgs "" in
      buildFlow projectFilePath outputFolder console.

End WithWorld.

End Cli.

(** ** The list of recent projects of src/main/main.ts *)

Module RecentProjects.

(** [addToRecentProjects], on the module-level [recentProjects]. *)
Definition addToRecentProjects (projectPath : string) (recentProjects : list string)
  : list string :=
  let recentProjects :=
    List.filter (fun p => negb (String.eqb p projectPath)) recentProjects in
  let recentProjects := projectPath :: recentProjects in
  firstn 10 recentProjects.

(** [removeFromRecentProjects] *)
Definition removeFromRecentProjects (projectPath : string) (recentProjects : list string)
  : list string :=
  List.filter (fun p => negb (String.eqb p projectPath)) recentProjects.

End RecentProjects.

(** ** The argument loop of scripts/build.sh *)

Module BuildSh.

Record Options := {
  LVGL_VERSION : string;
  DISPLAY_WIDTH : string;
  DISPLAY_HEIGHT : string
}.

(** How the script ends its argument handling: [exit 1] after the
    lines it printed, or the variables it goes on with. *)
Inductive Parsed := Exit1 (printed : list string) | Go (o : Options).

(** The expansion [${1#*=}]: the argument without its shortest prefix
    that ends in [=]. *)
Fixpoint afterEquals (s : string) : string :=
  match s with
  | EmptyString => EmptyString
  | String c s' => if Ascii.eqb c "="%char then s' else afterEquals s'
  end.

(** The [while [[ $# -gt 0 ]]] loop. *)
Fixpoint parse (args : list string) (o : Options) : Parsed :=
  match args with
  | [] => Go o
  | arg :: rest =>
      if String.prefix "--lvgl=" arg then
        parse rest {| LVGL_VERSION := afterEquals arg;
                      DISPLAY_WIDTH := DISPLAY_WIDTH o;
                      DISPLAY_HEIGHT := DISPLAY_HEIGHT o |}
      else if String.prefix "--display-width=" arg then
        parse rest {| LVGL_VERSION := LVGL_VERSION o;
                      DISPLAY_WIDTH := afterEquals arg;
                      DISPLAY_HEIGHT := DISPLAY_HEIGHT o |}
      else if String.prefix "--display-height=" arg then
        parse rest {| LVGL_VERSION := LVGL_VERSION o;
                      DISPLAY_WIDTH := DISPLAY_WIDTH o;
                      DISPLAY_HEIGHT := afterEquals arg |}
      else Exit1 ["Unknown option: " ++ arg]
  end.

(** The script up to the check of the mandatory argument. *)
Definition arguments (args : list string) : Parsed :=
  match parse args {| LVGL_VERSION := ""; DISPLAY_WIDTH := ""; DISPLAY_HEIGHT := "" |} with
  | Exit1 printed => Exit1 printed
  | Go o =>
      if String.eqb (LVGL_VERSION o) "" then
        Exit1 ["Error: --lvgl argument is mandatory";
               "Usage: ./build.sh --lvgl=<version> [--display-width=<width>] [--display-height=<height>]"]
      else Go o
  end.

End BuildSh.

(** ** Notions used to state the further properties *)

Module Props.

(** A string of white space only. *)
Definition blank (s : string) : bool :=
  forallb JsString.isWhiteSpace (list_ascii_of_string s).

(** The LVGL versions [readProjectFile] replaces. *)
Definition unsupported : list string := ["8.3"; "8.3.0"; "9.0"; "9.0.0"].

(** The record a call of [readProjectFile] returned, if it returned. *)
Definition returned (r : Project.Reading) : option Lib.ProjectInfo :=
  match r with
  | Project.Returned info | Project.ReturnedMember _ info => Some info
  | Project.Threw _ => None
  end.

(** The entry [readProjectFile] makes of a font of the project file. *)
Definition fontInfo (E : Project.Files) (projectDir : string) (font : Project.FontJson)
  : Lib.FontInfo :=
  let localFontPath :=
    Project.path_join E projectDir (Project.slashes (Project.source_filePath font)) in
  {| Lib.localPath := localFontPath;
     Lib.targetPath := Project.lvglFreeTypeFilePath font;
     Lib.fileName := Project.path_basename E localFontPath |}.

(** A FreeType font of the project file whose file is on disk, and one
    whose file is not. *)
Definition present (E : Project.Files) (projectDir : string) (font : Project.FontJson) : bool :=
  Project.lvglUseFreeType font
  && Project.existsSync E (Lib.localPath (fontInfo E projectDir font)).

Definition missing (E : Project.Files) (projectDir : string) (font : Project.FontJson) : bool :=
  Project.lvglUseFreeType font
  && negb (Project.existsSync E (Lib.localPath (fontInfo E projectDir font))).

Definition isWarning (e : Lib.LogEntry) : bool :=
  match Lib.logType e with Some Lib.warning => true | _ => false end.

Definition declaredFonts (project : Project.ProjectJson) : list Project.FontJson :=
  match Project.fonts project with Some fs => fs | None => [] end.

(** A copy out of the helper container [cid]. *)
Definition copyOut (cid : string) (ev : Lib.Event) : Prop :=
  exists file dest, fst ev = Lib.CopyOut cid file dest.

(** A command that handles fonts. *)
Definition isFontCommand (c : Lib.Command) : bool :=
  match c with
  | Lib.MkdirFonts _ | Lib.MkdirFontTarget _ _ | Lib.CopyFont _ _ _ _
  | Lib.WriteManifest _ _ => true
  | _ => false
  end.

Definition fontEvent (ev : Lib.Event) : Prop := isFontCommand (fst ev) = true.

(** The copy of one font into the container [cid], as [setupProject]
    runs it. *)
Definition copyFont (E : Lib.Env) (cid : string) (font : Lib.FontInfo) : Lib.Command :=
  Lib.CopyFont cid (Lib.localPath font)
    (Lib.posix_dirname E (Lib.targetPath font))
    (Lib.posix_basename E (Lib.targetPath font)).

(** The manifest [setupProject] writes to /project/fonts.txt. *)
Definition manifest (E : Lib.Env) (fonts : list Lib.FontInfo) : string :=
  Lib.base64 E (String.concat Lib.nl (map Lib.targetPath fonts)).

(** Docker answers both probes of [checkDocker] with status 0. *)
Definition dockerReady (E : Build.Docker) : bool :=
  match Build.dockerVersionStatus E, Build.dockerPsStatus E with
  | Some 0%Z, Some 0%Z => true
  | _, _ => false
  end.

Definition isDigit (c : ascii) : Prop :=
  In c ["0"; "1"; "2"; "3"; "4"; "5"; "6"; "7"; "8"; "9"]%char.

(** The arguments of the command line other than the two options. *)
Definition positional (args : list string) : list string :=
  List.filter
    (fun arg => negb (String.eqb arg "--clean-build" || String.eqb arg "--clean-all"))
    args.

Definition given (option : string) (args : list string) : bool :=
  existsb (String.eqb option) args.

(** The stages of the build flow, in the order of [main]. *)
Definition buildStages : list Cli.Stage :=
  [Cli.CheckDocker; Cli.ReadProjectFile; Cli.SetupProject; Cli.BuildProject;
   Cli.ExtractBuild].

(** Between two handlers of the page no operation is marked as
    running, and a test is running only on a finished build. *)
Definition settled (s : Renderer.State) : Prop :=
  Renderer.operationRunning s = false
  /\ (Renderer.testRunning s = true -> Renderer.buildComplete s = true).

(** An argument scripts/build.sh knows. *)
Definition known (arg : string) : bool :=
  String.prefix "--lvgl=" arg || String.prefix "--display-width=" arg
  || String.prefix "--display-height=" arg.

(** [s] ends with [t]. *)
Definition endsWith (s t : string) : Prop := exists front, s = front ++ t.

End Props.

(** ** Sample inputs for the further properties *)

Module Samples.

(** What is left of a path after its last slash. *)
Fixpoint basename (s : string) : string :=
  match s with
  | EmptyString => EmptyString
  | String c s' =>
      if JsString.includes s' "/" then basename s'
      else if Ascii.eqb c "/"%char then s' else s
  end.

Definition projectFile : string := "/home/dev/demo/demo.eez-project".

(** A project for LVGL 8.3 that gives no display height, a width of 0,
    a destination folder written with a backslash, and three fonts: a
    FreeType font that is on disk, one that is not, and a bitmap font. *)
Definition demoJson : Project.ProjectJson :=
  {| Project.general_lvglVersion := Some "8.3";
     Project.general_flowSupport := None;
     Project.general_displayWidth := Some 0%Z;
     Project.general_displayHeight := None;
     Project.build_destinationFolder := Some "src\ui";
     Project.fonts :=
       Some [ {| Project.lvglUseFreeType := true;
                 Project.source_filePath := "fonts\roboto.ttf";
                 Project.lvglFreeTypeFilePath := "/fonts/roboto.ttf" |};
              {| Project.lvglUseFreeType := true;
                 Project.source_filePath := "fonts/missing.ttf";
                 Project.lvglFreeTypeFilePath := "/fonts/missing.ttf" |};
              {| Project.lvglUseFreeType := false;
                 Project.source_filePath := "fonts/bitmap.ttf";
                 Project.lvglFreeTypeFilePath := "" |} ] |}.

(** A project file that asks for a version outside the table, and one
    whose version is the name of a method of every object. *)
Definition nextFile : string := "/home/dev/demo/next.eez-project".

Definition oddFile : string := "/home/dev/demo/odd.eez-project".

Definition withVersion (version : string) : Project.ProjectJson :=
  {| Project.general_lvglVersion := Some version;
     Project.general_flowSupport := Some true;
     Project.general_displayWidth := Some 480%Z;
     Project.general_displayHeight := Some 272%Z;
     Project.build_destinationFolder := None;
     Project.fonts := None |}.

Definition projectEnv : Project.Files :=
  {| Project.existsSync := fun p => negb (String.eqb p "/home/dev/demo/fonts/missing.ttf");
     Project.parse := fun p =>
       if String.eqb p projectFile then inr demoJson
       else if String.eqb p nextFile then inr (withVersion "9.3.0")
       else if String.eqb p oddFile then inr (withVersion "toString")
       else inl "Unexpected end of JSON input";
     Project.path_dirname := fun _ => "/home/dev/demo";
     Project.path_join := fun a b => a ++ "/" ++ b;
     Project.path_basename := basename;
     Project.memberText := fun name => "function " ++ name ++ "() { [native code] }" |}.

(** What [readProjectFile] makes of it. *)
Definition demoInfo : Lib.ProjectInfo :=
  {| Lib.lvglVersion := "8.4.0"; Lib.flowSupport := false;
     Lib.projectDir := "/home/dev/demo"; Lib.uiDir := "/home/dev/demo/src/ui";
     Lib.destinationFolder := "src/ui";
     Lib.displayWidth := 800; Lib.displayHeight := 480;
     Lib.fonts :=
       [ {| Lib.localPath := "/home/dev/demo/fonts/roboto.ttf";
            Lib.targetPath := "/fonts/roboto.ttf";
            Lib.fileName := "roboto.ttf" |} ] |}.

Definition nextInfo : Lib.ProjectInfo :=
  {| Lib.lvglVersion := "9.3.0"; Lib.flowSupport := true;
     Lib.projectDir := "/home/dev/demo"; Lib.uiDir := "/home/dev/demo/src/ui";
     Lib.destinationFolder := "src/ui";
     Lib.displayWidth := 480; Lib.displayHeight := 272; Lib.fonts := [] |}.

(** Docker is ready and every command of the build succeeds. *)
Definition buildEnv : Build.Docker :=
  {| Build.respond := fun _ _ => Fixtures.done;
     Build.dockerVersionStatus := Some 0%Z;
     Build.dockerPsStatus := Some 0%Z;
     Build.duration := "30.0" |}.

Definition world : Cli.World :=
  {| Cli.project := projectEnv;
     Cli.lib := Fixtures.libEnv Fixtures.nothingFails;
     Cli.build := buildEnv;
     Cli.DOCKER_BUILD_PATH := "docker-build";
     Cli.totalDuration := "42.0" |}.

Definition noRun : Cli.Result :=
  {| Cli.ending := Cli.Return; Cli.called := []; Cli.usage := []; Cli.console := [];
     Cli.libTrace := []; Cli.buildTrace := [] |}.

Definition run (args : list string) : Cli.Result :=
  match Cli.main world args with Some r => r | None => noRun end.

(** [docker-compose run -d] succeeds and prints an empty line. *)
Definition silentDocker : Lib.Env :=
  {| Lib.respond := fun _ c =>
       match c with
       | Lib.RunDetached =>
           {| Lib.success := true; Lib.output := Some Lib.nl; Lib.error := Some "" |}
       | _ => Fixtures.done
       end;
     Lib.existsSync := fun _ => true;
     Lib.rmSync := fun _ => None;
     Lib.mkdirSync := fun _ => None;
     Lib.statSync := fun _ => inr 1024%Z;
     Lib.path_resolve := fun p => p;
     Lib.path_join := fun a b => a ++ "/" ++ b;
     Lib.posix_dirname := fun _ => "/fonts";
     Lib.posix_basename := fun _ => "font.ttf";
     Lib.base64 := fun s => s;
     Lib.duration := "1.0" |}.

(** The output directory exists and cannot be emptied. *)
Definition lockedOutput : Lib.Env :=
  {| Lib.respond := Lib.respond (Fixtures.libEnv Fixtures.nothingFails);
     Lib.existsSync := fun _ => true;
     Lib.rmSync := fun _ => Some "EBUSY: resource busy or locked";
     Lib.mkdirSync := fun _ => None;
     Lib.statSync := fun _ => inr 1024%Z;
     Lib.path_resolve := fun p => p;
     Lib.path_join := fun a b => a ++ "/" ++ b;
     Lib.posix_dirname := fun _ => "/fonts";
     Lib.posix_basename := fun _ => "font.ttf";
     Lib.base64 := fun s => s;
     Lib.duration := "1.0" |}.

End Samples.

(** ** Vocabulary for the page taken turn by turn *)

Module TurnsSpec.
Import Renderer Turns Spec Props.

(** Every [setStatus] call the page has made respects the order of the
    stages. *)
Definition stage_gated (p : Page) : Prop := Forall gated (history (state p)).

(** Run by itself from this state, what is left of a handler keeps the
    recorded calls gated from turn to turn and, whatever it is
    answered, returns with the state consistent and settled. *)
Inductive settles : State * Proc -> Prop :=
| settles_done s : consistent s -> settled s -> settles (s, Done)
| settles_read s path k :
    Forall gated (history s) -> (forall result, settles (k result s)) ->
    settles (s, AwaitRead path k)
| settles_ipc s call k :
    Forall gated (history s) -> (forall result, settles (k result s)) ->
    settles (s, AwaitIpc call k)
| settles_void s call k :
    Forall gated (history s) -> settles (k s) ->
    settles (s, AwaitVoid call k).

(** Between two handlers the state is consistent and settled; the one
    handler that waits settles. *)
Definition orderly (p : Page) : Prop :=
  match waiting p with
  | [] => consistent (state p) /\ settled (state p)
  | [w] => settles (state p, w)
  | _ => False
  end.

(** The inputs come one handler at a time: while one waits, only its
    answers. *)
Fixpoint in_turn (xs : list Input) (p : Page) : bool :=
  match xs with
  | [] => true
  | x :: rest =>
      match waiting p with [] => true | _ => answers x end
      && match step x p with
         | Some p' => in_turn rest p'
         | None => false
         end
  end.

(** The inputs that run Build from a page where nothing waits, up to
    the answer of [buildProject]. *)
Definition buildRun (p : Page) (result : IpcResult) : list Input :=
  PressBuild
    :: (if testRunning (state p) then [VoidAnswered 0] else [])
    ++ [IpcAnswered 0 result].

(** A handler is started with [x]; while it waits for its first
    answer the project file changes, and the reload is answered to its
    end; then come the answers [rest] to the handler. *)
Definition reloadDuring (x : Input) (path : string) (reloaded : ReadResult)
    (rest : list Input) : list Input :=
  x :: Watch path :: ReadAnswered 1 reloaded :: VoidAnswered 1 :: VoidAnswered 1
    :: rest.

End TurnsSpec.

(** ** Runs of the page used to exercise the properties *)

Module Scenes.
Import Renderer Turns.

Definition watchedFile : string := "demo.eez-project".

(** The answer of [readProjectFile] when the volume holds a finished
    setup, and when it holds a finished build as well. *)
Definition setUpRead : ReadResult :=
  {| rr_success := true; rr_projectName := "demo"; rr_lvglVersion := "9.2.2";
     rr_setupComplete := Some true; rr_buildComplete := Some false;
     rr_error := "" |}.

Definition builtRead : ReadResult :=
  {| rr_success := true; rr_projectName := "demo"; rr_lvglVersion := "9.2.2";
     rr_setupComplete := Some true; rr_buildComplete := Some true;
     rr_error := "" |}.

(** The page after the inputs, from the page [init] leaves. *)
Definition after (xs : list Input) : Page :=
  match play xs opened with Some p => p | None => opened end.

(** A project with a finished build is opened. *)
Definition openBuilt : list Input :=
  [Open watchedFile; ReadAnswered 0 builtRead; VoidAnswered 0; VoidAnswered 0].

(** Test is pressed; while it waits for the extraction the project
    file changes, and the reload finds no finished build; then the
    extraction and the server start succeed. *)
Definition reloadInsideTest : list Input :=
  [PressTest; Watch watchedFile; ReadAnswered 1 setUpRead;
   VoidAnswered 1; VoidAnswered 1;
   IpcAnswered 0 Fixtures.succeeded; IpcAnswered 0 Fixtures.succeeded].

Definition built : Page := after openBuilt.

Definition raced : Page := after (openBuilt ++ reloadInsideTest).

(** A project is opened and set up. *)
Definition openSetUp : list Input :=
  [Open watchedFile; ReadAnswered 0 Fixtures.demoRead; VoidAnswered 0; VoidAnswered 0;
   PressSetup; ReadAnswered 0 Fixtures.demoRead; IpcAnswered 0 Fixtures.succeeded].

Definition setUp : Page := after openSetUp.

(** The project file changes, and the reload is answered to its end. *)
Definition projectFileReloaded : list Input :=
  [Watch watchedFile; ReadAnswered 0 setUpRead; VoidAnswered 0; VoidAnswered 0].

End Scenes.

(** * Properties *)

(** ** Strings *)

Module JsStringFacts.
Import JsString Spec.

Lemma append_nil (b : string) : "" ++ b = b.
Proof. reflexivity. Qed.

Lemma append_cons (c : ascii) (a b : string) :
  String c a ++ b = String c (a ++ b).
Proof. reflexivity. Qed.

Ltac sapp := rewrite ?append_cons, ?append_nil in *.

Lemma prefix_app (p r : string) : String.prefix p (p ++ r) = true.
Proof.
  induction p as [|c p IH]; sapp; simpl.
  - now destruct r.
  - destruct (ascii_dec c c) as [_|Hne]; [exact IH | now elim Hne].
Qed.

Lemma prefix_drop (p s : string) :
  String.prefix p s = true -> s = p ++ drop (String.length p) s.
Proof.
  revert s; induction p as [|c p IH]; intros [|d s] H; simpl in *; sapp;
    try reflexivity; try discriminate.
  destruct (ascii_dec c d) as [->|]; [|discriminate].
  f_equal. now apply IH.
Qed.

Lemma take_app_length (pre rest : string) :
  take (String.length pre) (pre ++ rest) = pre.
Proof.
  induction pre as [|c pre IH]; sapp; simpl.
  - now destruct rest.
  - now rewrite IH.
Qed.

Lemma drop_app_length (pre rest : string) (n : nat) :
  drop (String.length pre + n) (pre ++ rest) = drop n rest.
Proof. induction pre as [|c pre IH]; sapp; simpl; [reflexivity | exact IH]. Qed.

Lemma length_take (k : nat) (s : string) : (String.length (take k s) <= k)%nat.
Proof.
  revert s; induction k as [|k IH]; intros [|c s]; simpl; try lia.
  specialize (IH s). lia.
Qed.

(** [indexOf] returns a position at which the pattern occurs. *)
Lemma indexOf_occurs (search s : string) (k : nat) :
  indexOf search s = Some k ->
  s = take k s ++ search ++ drop (k + String.length search) s.
Proof.
  revert k; induction s as [|c s IH]; intros k; cbn [indexOf].
  - destruct (String.prefix search "") eqn:Hp; [|discriminate].
    intros [= <-]. simpl take. sapp. now apply prefix_drop in Hp.
  - destruct (String.prefix search (String c s)) eqn:Hp.
    + intros [= <-]. simpl take. sapp. now apply prefix_drop in Hp.
    + destruct (indexOf search s) as [j|] eqn:Hj; [|discriminate].
      intros [= <-]. simpl take. simpl drop. sapp. f_equal. now apply IH.
Qed.

(** [indexOf] finds every occurrence, and none lies before its answer. *)
Lemma indexOf_least (search pre post : string) :
  exists k, indexOf search (pre ++ search ++ post) = Some k
            /\ (k <= String.length pre)%nat.
Proof.
  induction pre as [|c pre (k & Hk & Hle)].
  - exists 0%nat. split; [|simpl; lia].
    sapp. destruct (search ++ post) eqn:Heq; cbn [indexOf];
      rewrite <- ?Heq, prefix_app; reflexivity.
  - sapp. cbn [indexOf].
    destruct (String.prefix search (String c (pre ++ search ++ post))).
    + exists 0%nat. split; [reflexivity | lia].
    + exists (S k). rewrite Hk. split; [reflexivity | simpl; lia].
Qed.

Lemma indexOf_none (search s : string) :
  indexOf search s = None -> forall pre post, s <> pre ++ search ++ post.
Proof.
  intros Hnone pre post ->.
  destruct (indexOf_least search pre post) as (k & Hk & _). congruence.
Qed.

Lemma indexOf_first (search pre post : string) :
  (forall pre' post',
      pre ++ search ++ post = pre' ++ search ++ post' ->
      (String.length pre <= String.length pre')%nat) ->
  indexOf search (pre ++ search ++ post) = Some (String.length pre).
Proof.
  intros Hmin.
  destruct (indexOf_least search pre post) as (k & Hk & Hle).
  pose proof (indexOf_occurs _ _ _ Hk) as Hocc.
  apply Hmin in Hocc. pose proof (length_take k (pre ++ search ++ post)).
  rewrite Hk. f_equal. lia.
Qed.

(** Templates without a dollar sign are inserted as they are. *)
Lemma getSubstitution_plain (matched str : string) (position : nat) (t : string) :
  noDollar t = true -> getSubstitution matched str position t = t.
Proof.
  induction t as [|c t IH]; [reflexivity|].
  simpl noDollar. intros H. apply andb_prop in H as [Hc Ht].
  specialize (IH Ht).
  destruct c as [[] [] [] [] [] [] [] []]; try discriminate Hc;
    simpl; now rewrite IH.
Qed.

Lemma replace_first (pre post search value : string) :
  noDollar value = true ->
  (forall pre' post',
      pre ++ search ++ post = pre' ++ search ++ post' ->
      (String.length pre <= String.length pre')%nat) ->
  replace (pre ++ search ++ post) search value = pre ++ value ++ post.
Proof.
  intros Hplain Hmin. unfold replace.
  rewrite (indexOf_first _ _ _ Hmin), getSubstitution_plain by assumption.
  rewrite take_app_length, drop_app_length.
  replace (String.length search) with (String.length search + 0)%nat by lia.
  now rewrite drop_app_length.
Qed.

Lemma replace_absent (s search value : string) :
  (forall pre post, s <> pre ++ search ++ post) ->
  replace s search value = s.
Proof.
  intros Habs. unfold replace.
  destruct (indexOf search s) as [k|] eqn:Hk; [|reflexivity].
  apply indexOf_occurs in Hk. now apply Habs in Hk.
Qed.

Lemma string_app_assoc (a b c : string) : (a ++ b) ++ c = a ++ b ++ c.
Proof. induction a as [|x a IH]; sapp; [reflexivity | now rewrite IH]. Qed.

End JsStringFacts.

(** ** The test server *)

Module TestServerFacts.
Import Main Spec JsStringFacts.

(** Whatever layer answers, the headers are those of the first layer. *)
Lemma respondTo_headers (E : ServerEnv) (outputPath : string) (req : Request) :
  headers (respondTo E outputPath req) = noCacheHeaders.
Proof.
  unfold respondTo, app, dispatch, noCache, rootHandler, static, send, notFound.
  fold noCacheHeaders.
  destruct (method req); try destruct (String.eqb (path req) "/");
    try destruct (readFile E _); try destruct (static_file E outputPath req);
    reflexivity.
Qed.

Lemma respondTo_root (E : ServerEnv) (outputPath html : string) :
  readFile E (path_join E outputPath "index.html") = Some html ->
  respondTo E outputPath {| method := GET; path := "/" |}
  = {| statusCode := 200; headers := noCacheHeaders;
       body := injectCaptureScript html |}.
Proof.
  intros Hread.
  unfold respondTo, app, dispatch, noCache, rootHandler, send. simpl.
  now rewrite Hread.
Qed.

Lemma captureScript_plain : noDollar (captureScript ++ "</head>") = true.
Proof. vm_compute. reflexivity. Qed.

(** C8: every response carries the three cache-defeating headers; a GET
    of the root path answers with index.html in which the capture
    script stands immediately before the first head-closing tag; any
    other path is answered by the static layer from the output
    directory (404 when it has no such file). *)
Theorem test_server_contract (E : ServerEnv) (outputPath : string) (req : Request) :
  let res := respondTo E outputPath req in
  (headers res !! "Cache-Control"
     = Some "no-store, no-cache, must-revalidate, private"
   /\ headers res !! "Pragma" = Some "no-cache"
   /\ headers res !! "Expires" = Some "0")
  /\ (forall pre post,
        req = {| method := GET; path := "/" |} ->
        readFile E (path_join E outputPath "index.html")
          = Some (pre ++ "</head>" ++ post) ->
        (forall pre' post',
            pre ++ "</head>" ++ post = pre' ++ "</head>" ++ post' ->
            (String.length pre <= String.length pre')%nat) ->
        statusCode res = 200%Z
        /\ body res = pre ++ captureScript ++ "</head>" ++ post)
  /\ (path req <> "/" -> method req = GET ->
        match static_file E outputPath req with
        | Some content => statusCode res = 200%Z /\ body res = content
        | None => statusCode res = 404%Z
        end).
Proof.
  intros res. subst res. split; [|split].
  - rewrite respondTo_headers. repeat split; reflexivity.
  - intros pre post -> Hread Hfirst.
    rewrite (respondTo_root _ _ _ Hread). split; [reflexivity|].
    cbn [body]. unfold injectCaptureScript.
    rewrite (replace_first pre post "</head>" _ captureScript_plain Hfirst).
    now rewrite string_app_assoc.
  - intros Hpath Hget.
    unfold respondTo, app, dispatch, noCache, rootHandler, static, send.
    rewrite Hget.
    destruct (String.eqb_spec (path req) "/") as [Heq|_]; [contradiction|].
    destruct (static_file E outputPath req); simpl; rewrite ?Hget; auto.
Qed.

Lemma page_first_head :
  forall pre' post',
    "<html><head><title>t</title>" ++ "</head>" ++ "<body><p></head></p></body></html>"
      = pre' ++ "</head>" ++ post' ->
    (String.length "<html><head><title>t</title>" <= String.length pre')%nat.
Proof.
  intros pre' post' Heq.
  destruct (indexOf_least "</head>" pre' post') as (k & Hk & Hle).
  rewrite <- Heq in Hk. vm_compute in Hk. injection Hk as <-. exact Hle.
Qed.

Lemma test_server_contract_witness :
  body (respondTo (Fixtures.serverEnv Fixtures.page) "output"
          {| method := GET; path := "/" |})
  = "<html><head><title>t</title>" ++ captureScript ++ "</head>"
      ++ "<body><p></head></p></body></html>".
Proof.
  apply (test_server_contract (Fixtures.serverEnv Fixtures.page) "output"
           {| method := GET; path := "/" |}).
  - reflexivity.
  - reflexivity.
  - exact page_first_head.
Defined.

(** C10: the root handler rewrites only the first occurrence of the
    literal head-closing tag, and a page without that literal is
    answered unchanged, with status 200 and no snippet. *)
Theorem root_rewrites_first_head_only (E : ServerEnv) (outputPath html : string) :
  readFile E (path_join E outputPath "index.html") = Some html ->
  let res := respondTo E outputPath {| method := GET; path := "/" |} in
  (forall pre post,
      html = pre ++ "</head>" ++ post ->
      (forall pre' post',
          html = pre' ++ "</head>" ++ post' ->
          (String.length pre <= String.length pre')%nat) ->
      body res = pre ++ captureScript ++ "</head>" ++ post)
  /\ ((forall pre post, html <> pre ++ "</head>" ++ post) ->
      statusCode res = 200%Z /\ body res = html).
Proof.
  intros Hread res. subst res. rewrite (respondTo_root _ _ _ Hread).
  cbn [body statusCode]. unfold injectCaptureScript. split.
  - intros pre post -> Hfirst.
    rewrite (replace_first pre post "</head>" _ captureScript_plain Hfirst).
    now rewrite string_app_assoc.
  - intros Habs. split; [reflexivity|]. now apply replace_absent.
Qed.

Lemma root_rewrites_first_head_only_witness :
  body (respondTo (Fixtures.serverEnv Fixtures.pageWithoutHead) "output"
          {| method := GET; path := "/" |})
  = Fixtures.pageWithoutHead
  /\ body (respondTo (Fixtures.serverEnv Fixtures.page) "output"
          {| method := GET; path := "/" |})
     = "<html><head><title>t</title>" ++ captureScript ++ "</head>"
         ++ "<body><p></head></p></body></html>".
Proof.
  split.
  - apply (root_rewrites_first_head_only
             (Fixtures.serverEnv Fixtures.pageWithoutHead) "output"
             Fixtures.pageWithoutHead eq_refl).
    apply indexOf_none. reflexivity.
  - apply (root_rewrites_first_head_only
             (Fixtures.serverEnv Fixtures.page) "output" Fixtures.page eq_refl).
    + reflexivity.
    + exact page_first_head.
Defined.

End TestServerFacts.

(** ** The build library *)

Module LibFacts.
Import Lib Spec.



Lemma extends_refl {A} (P : A -> Prop) (l : list A) : extends P l l.
Proof. exists []. split; [now rewrite app_nil_r | constructor]. Qed.

Lemma extends_snoc {A} (P : A -> Prop) (base full : list A) (a : A) :
  extends P base full -> P a -> extends P base (full ++ [a])%list.
Proof.
  intros (more & -> & Hm) Ha. exists (more ++ [a])%list.
  split; [now rewrite app_assoc | apply Forall_app_2; auto].
Qed.

Lemma extends_trans {A} (P : A -> Prop) (l1 l2 l3 : list A) :
  extends P l1 l2 -> extends P l2 l3 -> extends P l1 l3.
Proof.
  intros (m1 & -> & H1) (m2 & -> & H2). exists (m1 ++ m2)%list.
  split; [now rewrite app_assoc | apply Forall_app_2; auto].
Qed.

Lemma extends_In {A} (P : A -> Prop) (base full : list A) (a : A) :
  extends P base full -> In a full -> In a base \/ P a.
Proof.
  intros (more & -> & Hm) Hin. apply in_app_or in Hin as [Hin|Hin].
  - left. assumption.
  - right. rewrite List.Forall_forall in Hm. apply Hm. assumption.
Qed.

Lemma extends_incl {A} (P : A -> Prop) (base full : list A) (a : A) :
  extends P base full -> In a base -> In a full.
Proof. intros (more & -> & _) Hin. apply in_or_app. now left. Qed.


Ltac exec :=
  unfold runCommand, runCommandSilent, spawn, log, bind, ret, throw in *;
  cbn [trace logs fst snd app] in *.

(** Closes goals [extends P base (((base ++ [a]) ++ [b]) ...)]. *)
Ltac peel := repeat (apply extends_snoc; [|first [exact I | reflexivity]]).
Ltac grow := peel; first [apply extends_refl | eassumption].
Ltac grow_from H := peel; (eapply extends_trans; [|exact H]); grow.

Lemma copyFontFiles_shape (E : Env) (cid : string) (fs : list FontInfo) :
  forall st res st',
    copyFontFiles E cid fs st = (res, st') ->
    extends fileOp (trace st) (trace st')
    /\ extends anyLog (logs st) (logs st')
    /\ (forall msg, res = inl msg ->
        exists pre r, trace st' = (pre ++ [(Stop cid, r)])%list
                      /\ extends fileOp (trace st) pre).
Proof.
  induction fs as [|font rest IH]; intros st res st'; cbn [copyFontFiles]; exec.
  - intros [= <- <-]. repeat split; try grow. discriminate.
  - match goal with |- context [success ?r] => destruct (success r) eqn:Hs end;
      cbn [negb].
    + intros H. apply IH in H as (Ht & Hl & Hres). cbn [trace logs] in *.
      repeat split.
      * grow_from Ht.
      * grow_from Hl.
      * intros msg Hmsg. destruct (Hres msg Hmsg) as (pre & r & Hpre & Hext).
        exists pre, r. split; [exact Hpre|]. grow_from Hext.
    + intros [= <- <-]. cbn [trace logs]. repeat split; try grow.
      intros msg _. eexists _, _. split; [reflexivity|]. grow.
Qed.

Lemma updateBuildFiles_shape (E : Env) (pi : ProjectInfo) (cid : string) :
  forall st res st',
    updateBuildFiles E pi cid st = (res, st') ->
    extends anyLog (logs st) (logs st')
    /\ exists pre r, trace st' = (pre ++ [(Stop cid, r)])%list
                     /\ extends fileOp (trace st) pre.
Proof.
  intros st res st'. unfold updateBuildFiles. exec.
  destruct (JsString.falsy (uiDir pi)).
  { intros [= <- <-]. cbn [trace logs]. split; [grow|].
    eexists _, _. split; [reflexivity|]. grow. }
  destruct (existsSync E (uiDir pi)); cbn [negb].
  2:{ intros [= <- <-]. cbn [trace logs]. split; [grow|].
      eexists _, _. split; [reflexivity|]. grow. }
  match goal with |- context [if negb (success ?r) then _ else _] =>
    destruct (success r) end; cbn [negb].
  2:{ intros [= <- <-]. cbn [trace logs]. split; [grow|].
      eexists _, _. split; [reflexivity|]. grow. }
  destruct (fonts pi) as [|f fs].
  { intros [= <- <-]. cbn [trace logs]. split; [grow|].
    eexists _, _. split; [reflexivity|]. grow. }
  match goal with |- context [copyFontFiles ?E ?c ?l ?s] =>
    destruct (copyFontFiles E c l s) as [[msg|[]] st1] eqn:Hcf end;
    apply copyFontFiles_shape in Hcf as (Ht & Hl & Hres); cbn [trace logs] in *.
  - intros [= <- <-]. destruct (Hres msg eq_refl) as (pre & r & Hpre & Hext).
    split; [grow_from Hl|].
    exists pre, r. split; [exact Hpre|]. grow_from Hext.
  - intros [= <- <-]. cbn [trace logs].
    split; [grow_from Hl|].
    eexists _, _. split; [reflexivity|]. grow_from Ht.
Qed.


Lemma createdContainers_app (l1 l2 : list Event) :
  createdContainers (l1 ++ l2) = (createdContainers l1 ++ createdContainers l2)%list.
Proof. apply flat_map_app. Qed.

Lemma createdContainers_fileOps (l : list Event) :
  Forall fileOp l -> createdContainers l = [].
Proof.
  induction 1 as [|[c r] l Hc _ IH]; [reflexivity|].
  unfold fileOp in Hc. cbn [createdContainers flat_map fst] in *.
  fold (createdContainers l). rewrite IH. now destruct c.
Qed.

Lemma createdContainers_extends (base full : list Event) :
  extends fileOp base full -> createdContainers full = createdContainers base.
Proof.
  intros (more & -> & Hm).
  now rewrite createdContainers_app, (createdContainers_fileOps _ Hm), app_nil_r.
Qed.

Lemma falsy_true (s : string) : JsString.falsy s = true -> s = "".
Proof. now destruct s. Qed.

(** One case distinction of the symbolic execution of [setupProject]. *)
Ltac branch :=
  match goal with
  | |- context [negb (success ?r) || _] =>
      destruct (success r) eqn:?; cbn [negb orb]
  | |- context [if negb (success ?r) then _ else _] =>
      destruct (success r) eqn:?; cbn [negb]
  | |- context [match output ?r with _ => _ end] =>
      destruct (output r) eqn:?
  | |- context [if JsString.falsy ?x then _ else _] =>
      destruct (JsString.falsy x) eqn:?
  end.

Ltac use_facts :=
  repeat match goal with
         | H : success _ = _ |- _ => rewrite H
         | H : output _ = _ |- _ => rewrite H
         | H : JsString.falsy _ = _ |- _ => rewrite H
         end.

(** Splits a list given by its elements into its front and last element. *)
Ltac split_last :=
  first [ eexists [], _; reflexivity
        | eexists [_], _; reflexivity
        | eexists [_; _], _; reflexivity
        | eexists [_; _; _], _; reflexivity
        | eexists [_; _; _; _], _; reflexivity
        | eexists [_; _; _; _; _], _; reflexivity
        | eexists [_; _; _; _; _; _], _; reflexivity ].

(** C5: whenever a run of [setupProject] obtained a helper container
    (with a non-blank identifier), the last command of the run, on
    success and on every error path alike, is [docker stop] of that
    container. *)
Theorem helper_container_always_stopped (E : Env) (pi : ProjectInfo)
    (cfg : BuildConfig) (res : string + unit) (st : Run) (cid : string) :
  setupProject E pi cfg start = (res, st) ->
  In cid (createdContainers (trace st)) ->
  cid <> "" ->
  exists pre r, trace st = (pre ++ [(Stop cid, r)])%list.
Proof.
  unfold setupProject, createTempContainer, start. exec.
  repeat (branch; exec).
  all: try (intros [= <- <-]; cbn [trace logs app createdContainers flat_map]).
  all: try (intros H; apply updateBuildFiles_shape in H as (_ & pre & r & Hpre & Hext);
            cbn [trace logs app] in *; rewrite Hpre, createdContainers_app,   
            (createdContainers_extends _ _ Hext);
            cbn [trace logs app createdContainers flat_map]).
  all: use_facts; cbn [andb negb app In].
  all: try (intros []; fail).
  all: try (intros [<-|[]] _; first [split_last | eauto]; fail).
  all: match goal with
       | H : JsString.falsy (JsString.trim _) = true |- _ => apply falsy_true in H
       end.
  all: intros Hin Hne; repeat destruct Hin as [<-|Hin]; try contradiction;
    first [split_last | eauto].
Qed.


(** Case analysis of a membership fact over a trace or a log. *)
Ltac mem H :=
  lazymatch type of H with
  | In _ (_ ++ _)%list => apply in_app_or in H as [H|H]; [mem H | mem H]
  | In _ (_ :: _) => destruct H as [H|H]; [mem H | mem H]
  | In _ [] => destruct H
  | In _ ?pre =>
      try match goal with
          | Hext : extends fileOp _ pre |- _ =>
              apply (extends_In _ _ _ _ Hext) in H as [H|H];
              [mem H | try discriminate H]
          end
  | _ = _ => first [discriminate H | injection H as ?; subst | idtac]
  | _ => idtac
  end.

(** Exhibits an element of a list given by its first elements. *)
Ltac pick := cbn [In]; repeat first [left; reflexivity | right].

(** Runs [setupProject] symbolically: afterwards the trace is either
    listed element by element or ends in the events of
    [updateBuildFiles], described by [Hpre], [Hext] and [Hlogs]. *)
Ltac run_setup :=
  unfold setupProject, createTempContainer, start; exec;
  repeat (branch; exec);
  first
    [ intros [= <- <-]; cbn [trace logs app] in *
    | let H := fresh "H" in
      intros H; pose proof H as Hrun;
      apply updateBuildFiles_shape in H as (Hlogs & pre & rstop & Hpre & Hext);
      cbn [trace logs app] in *; rewrite Hpre in * ].


(** C2: if the probe for [/project/build.sh] succeeds, the run pulls
    and never clones; a clone is only ever run after a failed probe. *)
Theorem setup_branch_follows_marker (E : Env) (pi : ProjectInfo)
    (cfg : BuildConfig) (res : string + unit) (st : Run) :
  setupProject E pi cfg start = (res, st) ->
  (forall r, In (ProbeBuildSh, r) (trace st) -> success r = true ->
     (exists r', In (GitPull, r') (trace st))
     /\ forall c repo r', ~ In (GitClone c repo, r') (trace st))
  /\ (forall c repo r', In (GitClone c repo, r') (trace st) ->
        exists r, In (ProbeBuildSh, r) (trace st) /\ success r = false).
Proof.
  run_setup.
  all: split;
    [ intros r Hin Hr; mem Hin; try congruence;
      (split;
       [ eexists; try (apply in_or_app; left; apply (extends_incl _ _ _ _ Hext)); pick
       | intros c repo r' Hc; mem Hc ])
    | intros c repo r' Hc; mem Hc; eexists;
      (split;
       [ try (apply in_or_app; left; apply (extends_incl _ _ _ _ Hext)); pick
       | assumption ]) ].
Qed.



Lemma copyFontFiles_ok (E : Env) (cid : string) (fs : list FontInfo) :
  (forall h c a b d, success (respond E h (CopyFont c a b d)) = true) ->
  forall st, fst (copyFontFiles E cid fs st) = inr tt.
Proof.
  intros Hfont. induction fs as [|font rest IH]; intros st; [reflexivity|].
  cbn [copyFontFiles]. exec. rewrite Hfont. cbn [negb]. apply IH.
Qed.

Lemma updateBuildFiles_ok (E : Env) (pi : ProjectInfo) (cid : string) :
  JsString.falsy (uiDir pi) = false ->
  existsSync E (uiDir pi) = true ->
  (forall h c d, success (respond E h (CopyUiDir c d)) = true) ->
  (forall h c a b d, success (respond E h (CopyFont c a b d)) = true) ->
  forall st, fst (updateBuildFiles E pi cid st) = inr tt.
Proof.
  intros Hui Hex Hcopy Hfont st. unfold updateBuildFiles. exec.
  rewrite Hui, Hex. cbn [negb]. exec. rewrite Hcopy. cbn [negb].
  destruct (fonts pi) as [|f fs]; [reflexivity|].
  match goal with |- context [copyFontFiles ?E ?c ?l ?s] =>
    pose proof (copyFontFiles_ok E c l Hfont s) as Hok;
    destruct (copyFontFiles E c l s) as [[msg|[]] st1] end;
    [discriminate Hok | reflexivity].
Qed.


(** C4: a failed pull is logged as a warning and the run goes on to
    the update of the build files, ending in success when the later
    steps succeed; a failed clone ends the run with the error
    "Git clone failed". *)
Theorem pull_failure_tolerated_clone_failure_fatal (E : Env) (pi : ProjectInfo)
    (cfg : BuildConfig) (res : string + unit) (st : Run) :
  setupProject E pi cfg start = (res, st) ->
  (forall r, In (GitPull, r) (trace st) -> success r = false ->
     In pullWarning (logs st) /\ level pullWarning = warning
     /\ exists r', In (RunDetached, r') (trace st))
  /\ ((forall h, success (respond E h RunDetached) = true
                 /\ exists out, output (respond E h RunDetached) = Some out
                                /\ JsString.falsy out = false) ->
      JsString.falsy (uiDir pi) = false ->
      existsSync E (uiDir pi) = true ->
      (forall h c d, success (respond E h (CopyUiDir c d)) = true) ->
      (forall h c a b d, success (respond E h (CopyFont c a b d)) = true) ->
      forall r, In (GitPull, r) (trace st) -> res = inr tt)
  /\ (forall c repo r, In (GitClone c repo, r) (trace st) -> success r = false ->
        res = inl "Git clone failed").
Proof.
  run_setup.
  all: split; [|split].
  all: lazymatch goal with
       | |- forall r, In (GitPull, r) _ -> success r = false -> _ =>
           intros r Hin Hr; mem Hin; try congruence;
           (split;
            [ try (apply (extends_incl _ _ _ _ Hlogs)); unfold pullWarning; pick
            | split;
              [ reflexivity
              | eexists;
                try (apply in_or_app; left; apply (extends_incl _ _ _ _ Hext));
                pick ] ])
       | |- forall c repo r, In (GitClone c repo, r) _ -> _ =>
           intros c repo r Hc Hr; mem Hc; first [reflexivity | congruence]
       | |- _ =>
           intros Hrd Hui Hex Hcopy Hfont r Hin; mem Hin;
           try match goal with
               | Hq : context [respond _ ?h RunDetached] |- _ =>
                   destruct (Hrd h) as (? & ? & ? & ?); congruence
               end;
           match type of Hrun with
           | updateBuildFiles ?env ?p ?c ?s = _ =>
               pose proof (updateBuildFiles_ok env p c Hui Hex Hcopy Hfont s) as Hok;
               rewrite Hrun in Hok; exact Hok
           end
       end.
Qed.








(** The loop over a list that starts with required files: either one of
    them fails, which ends the run after stopping the container, or all
    are copied and the loop goes on with the remaining files. *)
Lemma extractFiles_required (E : Env) (cid out : string) (rest : list string)
    (l : list string) :
  Forall (fun f => f <> "index.data") l ->
  forall st res st',
    extractFiles E cid out (l ++ rest) st = (res, st') ->
    (exists f pre r r',
        In f l
        /\ res = inl ("Failed to extract " ++ f)
        /\ trace st' = (pre ++ [(CopyOut cid f (path_join E out f), r); (Stop cid, r')])%list
        /\ r = respond E pre (CopyOut cid f (path_join E out f))
        /\ success r = false
        /\ extends (copied cid) (trace st) pre
        /\ extends anyLog (logs st) (logs st'))
    \/ (exists st1,
          extractFiles E cid out rest st1 = (res, st')
          /\ extends (copied cid) (trace st) (trace st1)
          /\ extends anyLog (logs st) (logs st1)
          /\ forall f, In f l ->
               exists r, In (CopyOut cid f (path_join E out f), r) (trace st1)
                         /\ success r = true).
Proof.
  induction 1 as [|f l Hf Hl IH]; intros st res st'.
  - intros Hrun. right. exists st. repeat split; try grow. intros f [].
  - cbn [app extractFiles]. exec.
    destruct (success (respond E (trace st) (CopyOut cid f (path_join E out f))))
      eqn:Hs; cbn [negb].
    + intros Hrun.
      assert (Hgo : exists st0,
                 extractFiles E cid out (l ++ rest) st0 = (res, st')
                 /\ trace st0 = (trace st ++ [(CopyOut cid f (path_join E out f),
                        respond E (trace st) (CopyOut cid f (path_join E out f)))])%list
                 /\ extends anyLog (logs st) (logs st0)).
      { destruct (statSync E (path_join E out f)); exec;
          eexists; (split; [exact Hrun|]); cbn [trace logs]; split;
          try reflexivity; grow. }
      clear Hrun. destruct Hgo as (st0 & Hrun & Ht0 & Hl0).
      assert (Hcopied : extends (copied cid) (trace st) (trace st0)).
      { rewrite Ht0. apply extends_snoc; [apply extends_refl|].
        split; [exact Hs | eauto]. }
      apply IH in Hrun as [(g & pre & r & r' & Hg & Hres & Htr & Hreq & Hr & Hpre & Hlg)
                          |(st1 & Hrun & Htr & Hlg & Hall)].
      * left. exists g, pre, r, r'. repeat split; auto.
        -- now right.
        -- eapply extends_trans; eassumption.
        -- eapply extends_trans; eassumption.
      * right. exists st1. repeat split; auto.
        -- eapply extends_trans; eassumption.
        -- eapply extends_trans; eassumption.
        -- intros g [<-|Hg]; [|now apply Hall].
           eexists. split; [|exact Hs].
           destruct Htr as (more & -> & _). apply in_or_app. left.
           rewrite Ht0. apply in_or_app. right. now left.
    + destruct (String.eqb_spec f "index.data") as [->|_]; [now elim Hf|].
      exec. intros [= <- <-]. left. cbn [trace logs].
      eexists f, _, _, _. split; [now left|]. split; [reflexivity|].
      split; [rewrite <- app_assoc; reflexivity|]. split; [reflexivity|].
      split; [exact Hs|]. split; grow.
Qed.


Lemma copied_In (cid : string) (base full : list Event) (ev : Event) :
  extends (copied cid) base full -> In ev full ->
  In ev base \/ success (snd ev) = true.
Proof.
  intros Hext Hin. destruct (extends_In _ _ _ _ Hext Hin) as [H|[H _]]; auto.
Qed.

(** Finds an element in a list built by appending to a known list. *)
Ltac locate :=
  first [ eassumption
        | left; reflexivity
        | apply in_or_app; right; locate
        | apply in_or_app; left; locate ].

Ltac branch_extract :=
  match goal with
  | |- context [if existsSync ?E ?p then _ else _] =>
      destruct (existsSync E p) eqn:?
  | |- context [match rmSync ?E ?p with _ => _ end] =>
      destruct (rmSync E p) eqn:?
  | |- context [match mkdirSync ?E ?p with _ => _ end] =>
      destruct (mkdirSync E p) eqn:?
  | |- context [match statSync ?E ?p with _ => _ end] =>
      destruct (statSync E p)
  | _ => branch
  end.

Lemma required_not_data : Forall (fun f => f <> "index.data") required.
Proof. repeat constructor; discriminate. Qed.

(** [extractBuild] from the loop over [files] to its end. *)
Lemma extract_loop (E : Env) (cid out : string) (st : Run)
    (res : string + unit) (st' : Run) :
  (forall c f dest r, ~ In (CopyOut c f dest, r) (trace st)) ->
  (extractFiles E cid out files ;;;
   _ <- runCommand E (Stop cid) ;;
   log ("Build files extracted successfully in " ++ duration E ++ "s!")
     (Some successT)) st = (res, st') ->
  (forall c f dest r,
      In (CopyOut c f dest, r) (trace st') -> success r = false ->
      f <> "index.data" -> res = inl ("Failed to extract " ++ f))
  /\ (forall c dest r,
        In (CopyOut c "index.data" dest, r) (trace st') -> success r = false ->
        In dataSkipped (logs st') /\ res = inr tt)
  /\ (res = inr tt ->
      forall f, In f required ->
        exists r, In (CopyOut cid f (path_join E out f), r) (trace st')
                  /\ success r = true)
  /\ ((forall h c f dest, f <> "index.data" ->
          success (respond E h (CopyOut c f dest)) = true) ->
      res = inr tt).
Proof.
  intros Hfresh.
  change files with (required ++ ["index.data"])%list.
  unfold bind at 1.
  destruct (extractFiles E cid out (required ++ ["index.data"]) st)
    as [r1 st1] eqn:Hx.
  apply (extractFiles_required E cid out ["index.data"] required required_not_data)
    in Hx as [(f & pre & r & r' & Hf & -> & Htr & Hreq & Hr & Hpre & Hlg)
             |(st0 & Hx & Htr & Hlg & Hall)].
  - intros [= <- <-]. rewrite Htr. repeat split.
    + intros c g dest r0 Hin Hr0 Hg.
      apply in_app_or in Hin as [Hin|Hin].
      * destruct (copied_In _ _ _ _ Hpre Hin) as [H|H];
          [now apply Hfresh in H | cbn in H; congruence].
      * mem Hin. reflexivity.
    + exfalso. apply in_app_or in H as [Hin|Hin].
      * destruct (copied_In _ _ _ _ Hpre Hin) as [H|H];
          [now apply Hfresh in H | cbn in H; congruence].
      * mem Hin. unfold required in Hf. mem Hf.
    + exfalso. apply in_app_or in H as [Hin|Hin].
      * destruct (copied_In _ _ _ _ Hpre Hin) as [H|H];
          [now apply Hfresh in H | cbn in H; congruence].
      * mem Hin. unfold required in Hf. mem Hf.
    + discriminate.
    + intros Hcp. rewrite Hreq, Hcp in Hr; [discriminate|].
      intros ->. unfold required in Hf. mem Hf.
  - revert Hx. cbn [extractFiles]. exec.
    simpl (String.eqb "index.data" "index.data"). cbv iota.
    assert (Hdata : forall c dest r,
               In (CopyOut c "index.data" dest, r) (trace st0) ->
               success r = false -> False).
    { intros c dest r Hin Hr.
      destruct (copied_In _ _ _ _ Htr Hin) as [H|H];
        [now apply Hfresh in H | cbn in H; congruence]. }
    assert (Hreq : forall c f dest r,
               In (CopyOut c f dest, r) (trace st0) ->
               success r = false -> False).
    { intros c f dest r Hin Hr.
      destruct (copied_In _ _ _ _ Htr Hin) as [H|H];
        [now apply Hfresh in H | cbn in H; congruence]. }
    match goal with |- context [if negb (success ?r) then _ else _] =>
      destruct (success r) eqn:Hs end; cbn [negb];
      [destruct (statSync E (path_join E out "index.data"))|];
      exec; intros [= <- <-]; exec; intros [= <- <-]; cbn [trace logs].
    all: repeat split.
    all: lazymatch goal with
         | |- forall c f dest r, In (CopyOut c f dest, r) _ -> _ =>
             intros c f dest r Hin Hr Hf; mem Hin;
             first [congruence | now apply Hreq in Hin]
         | |- In dataSkipped _ =>
             first [ unfold dataSkipped; locate
                   | exfalso; mem H; first [congruence | now apply Hreq in H] ]
         | |- _ -> forall f, In f required -> _ =>
             intros _ f Hf; destruct (Hall f Hf) as (r & Hin & Hr);
             exists r; (split; [locate | exact Hr])
         end.
Qed.

(** C6: a failed copy of index.html, index.js or index.wasm ends
    [extractBuild] with an error; a failed copy of index.data is only
    logged (at the default level, info) and the run succeeds; a run
    that succeeds has copied the three required files, and it does
    succeed whenever they can be copied. *)
Theorem extract_requires_three_files (E : Env) (outputPath : string)
    (cfg : BuildConfig) (res : string + unit) (st : Run) :
  extractBuild E outputPath cfg start = (res, st) ->
  (forall c f dest r,
      In (CopyOut c f dest, r) (trace st) -> success r = false ->
      f <> "index.data" -> res = inl ("Failed to extract " ++ f))
  /\ (forall c dest r,
        In (CopyOut c "index.data" dest, r) (trace st) -> success r = false ->
        In dataSkipped (logs st) /\ level dataSkipped = info /\ res = inr tt)
  /\ (res = inr tt ->
      forall f, In f required ->
        exists c r, In (CopyOut c f (path_join E outputPath f), r) (trace st)
                    /\ success r = true)
  /\ ((existsSync E outputPath = true -> rmSync E outputPath = None) ->
      mkdirSync E outputPath = None ->
      (forall h, success (respond E h RunDetached) = true
                 /\ exists out, output (respond E h RunDetached) = Some out
                                /\ JsString.falsy out = false) ->
      (forall h c f dest, f <> "index.data" ->
          success (respond E h (CopyOut c f dest)) = true) ->
      res = inr tt).
Proof.
  unfold extractBuild, createTempContainer, start. exec.
  repeat (branch_extract; exec).
  all: try (intros Hrun; apply extract_loop in Hrun as (H1 & H2 & H3 & H4);
            [|cbn [trace]; intros c f dest r Hin; mem Hin];
            repeat split;
            [ exact H1
            | now apply (H2 c dest r)
            | now apply (H2 c dest r)
            | intros Hres f Hf; destruct (H3 Hres f Hf) as (r & Hr); eauto
            | intros _ _ _ Hcp; now apply H4 ]).
  all: intros [= <- <-]; cbn [trace logs].
  all: repeat split; try discriminate.
  all: try (intros c f dest r Hin; mem Hin; fail).
  all: try (exfalso; mem H; fail).
  all: intros Hrm Hmk Hrd Hcp; exfalso.
  all: try (specialize (Hrm eq_refl)); try congruence.
  all: destruct (Hrd []) as (? & ? & ? & ?); congruence.
Qed.



Lemma helper_container_always_stopped_witness :
  exists pre r,
    trace (snd (setupProject (Fixtures.libEnv Fixtures.firstTimeCopyFails)
                  Fixtures.project Fixtures.config start))
    = (pre ++ [(Stop "3f9a21c0", r)])%list.
Proof.
  apply (helper_container_always_stopped
           (Fixtures.libEnv Fixtures.firstTimeCopyFails)
           Fixtures.project Fixtures.config
           (fst (setupProject (Fixtures.libEnv Fixtures.firstTimeCopyFails)
                   Fixtures.project Fixtures.config start))).
  - apply surjective_pairing.
  - vm_compute. left. reflexivity.
  - discriminate.
Defined.

Lemma setup_branch_follows_marker_witness :
  (exists r',
      In (GitPull, r')
        (trace (snd (setupProject (Fixtures.libEnv Fixtures.nothingFails)
                       Fixtures.project Fixtures.config start))))
  /\ forall c repo r',
       ~ In (GitClone c repo, r')
           (trace (snd (setupProject (Fixtures.libEnv Fixtures.nothingFails)
                          Fixtures.project Fixtures.config start))).
Proof.
  apply (proj1 (setup_branch_follows_marker
                  (Fixtures.libEnv Fixtures.nothingFails)
                  Fixtures.project Fixtures.config _ _
                  (surjective_pairing _)) Fixtures.done).
  - vm_compute. right. left. reflexivity.
  - reflexivity.
Defined.

Lemma pull_failure_tolerated_clone_failure_fatal_witness :
  fst (setupProject (Fixtures.libEnv Fixtures.pullFails)
         Fixtures.project Fixtures.config start) = inr tt
  /\ In pullWarning
       (logs (snd (setupProject (Fixtures.libEnv Fixtures.pullFails)
                     Fixtures.project Fixtures.config start)))
  /\ fst (setupProject (Fixtures.libEnv Fixtures.firstTimeCloneFails)
            Fixtures.project Fixtures.config start) = inl "Git clone failed".
Proof.
  split; [|split].
  - apply (proj1 (proj2 (pull_failure_tolerated_clone_failure_fatal
                           (Fixtures.libEnv Fixtures.pullFails)
                           Fixtures.project Fixtures.config _ _
                           (surjective_pairing _)))) with (r := Fixtures.failed).
    + intros h. split; [reflexivity|]. eexists. split; reflexivity.
    + reflexivity.
    + reflexivity.
    + reflexivity.
    + reflexivity.
    + vm_compute. right. right. left. reflexivity.
  - apply (proj1 (pull_failure_tolerated_clone_failure_fatal
                    (Fixtures.libEnv Fixtures.pullFails)
                    Fixtures.project Fixtures.config _ _
                    (surjective_pairing _)) Fixtures.failed).
    + vm_compute. right. right. left. reflexivity.
    + reflexivity.
  - apply (proj2 (proj2 (pull_failure_tolerated_clone_failure_fatal
                           (Fixtures.libEnv Fixtures.firstTimeCloneFails)
                           Fixtures.project Fixtures.config _ _
                           (surjective_pairing _)))
             "3f9a21c0" "lvgl-simulator-for-studio-docker-build" Fixtures.failed).
    + vm_compute. right. right. right. left. reflexivity.
    + reflexivity.
Defined.

Lemma extract_requires_three_files_witness :
  fst (extractBuild (Fixtures.libEnv Fixtures.dataMissing) "output"
         Fixtures.config start) = inr tt
  /\ fst (extractBuild (Fixtures.libEnv Fixtures.wasmMissing) "output"
            Fixtures.config start) = inl ("Failed to extract " ++ "index.wasm").
Proof.
  split.
  - apply (extract_requires_three_files
             (Fixtures.libEnv Fixtures.dataMissing) "output" Fixtures.config
             _ _ (surjective_pairing _)).
    + reflexivity.
    + reflexivity.
    + intros h. split; [reflexivity|]. eexists. split; reflexivity.
    + intros h c f dest Hf. simpl.
      destruct (String.eqb_spec f "index.data"); [contradiction | reflexivity].
  - apply (proj1 (extract_requires_three_files
                    (Fixtures.libEnv Fixtures.wasmMissing) "output" Fixtures.config
                    _ _ (surjective_pairing _))
             "3f9a21c0" "index.wasm" "output/index.wasm" Fixtures.failed).
    + vm_compute. do 3 right. left. reflexivity.
    + reflexivity.
    + discriminate.
Defined.

End LibFacts.

(** ** The main process: abort and port probing *)

Module MainFacts.
Import Main Spec.

#[local] Set Warnings "-clear-no-such-hyp".





Lemma listen_free (n : Net) (p : Z) :
  (1 <= p <= 65535)%Z -> p ∉ occupied n -> p ∉ probes n ->
  exists n', listen p n = Listening p n' /\ close p n' = n.
Proof.
  intros Hp Hocc Hpr. unfold listen.
  destruct (Z.ltb_spec p 0); [lia|]. destruct (Z.ltb_spec 65535 p); [lia|].
  cbn [orb]. destruct (Z.eqb_spec p 0); [lia|].
  destruct (decide (p ∈ occupied n ∪ probes n)) as [Hin|_]; [set_solver|].
  eexists. split; [reflexivity|]. unfold close. cbn [occupied ephemeral probes].
  destruct n as [o e pr]. cbn in *. f_equal. set_solver.
Qed.

Lemma listen_occupied (n : Net) (p : Z) :
  (1 <= p <= 65535)%Z -> p ∈ occupied n -> listen p n = ErrorEvent.
Proof.
  intros Hp Hocc. unfold listen.
  destruct (Z.ltb_spec p 0); [lia|]. destruct (Z.ltb_spec 65535 p); [lia|].
  cbn [orb]. destruct (Z.eqb_spec p 0); [lia|].
  destruct (decide (p ∈ occupied n ∪ probes n)) as [_|Hn]; [reflexivity|set_solver].
Qed.

Lemma findAvailablePort_fuel_first_free (n : Net) (p : Z) :
  (p <= 65535)%Z -> p ∉ occupied n -> p ∉ probes n ->
  forall (k fuel : nat) (startPort : Z),
    (1 <= startPort)%Z -> Z.of_nat k = (p - startPort)%Z -> (k <= fuel)%nat ->
    (forall q, (startPort <= q < p)%Z -> q ∈ occupied n) ->
    findAvailablePort_fuel fuel startPort n = Some (Resolved p, n).
Proof.
  intros Hp Hocc Hpr. induction k as [|k IH]; intros fuel startPort Hs Hk Hf Hbusy.
  - assert (startPort = p) as -> by lia.
    destruct (listen_free n p) as (n' & Hl & Hc); [lia|assumption..|].
    destruct fuel; cbn [findAvailablePort_fuel]; now rewrite Hl, Hc.
  - destruct fuel as [|fuel]; [lia|]. cbn [findAvailablePort_fuel].
    rewrite listen_occupied by (try apply Hbusy; lia).
    apply IH; try lia. intros q Hq. apply Hbusy. lia.
Qed.

(** C7: [findAvailablePort] resolves with the first port at or above
    [startPort] on which a listener can bind, and the probing listener
    is closed again: the ports are left as they were. *)
Theorem findAvailablePort_first_free (n : Net) (startPort p : Z) :
  (1 <= startPort <= p)%Z -> (p <= 65535)%Z ->
  p ∉ occupied n -> p ∉ probes n ->
  (forall q, (startPort <= q < p)%Z -> q ∈ occupied n) ->
  findAvailablePort startPort n = Some (Resolved p, n).
Proof.
  intros Hs Hp Hocc Hpr Hbusy. unfold findAvailablePort.
  apply (findAvailablePort_fuel_first_free n p Hp Hocc Hpr
           (Z.to_nat (p - startPort))); try lia. assumption.
Qed.

Lemma findAvailablePort_first_free_witness :
  findAvailablePort 3000 Fixtures.busyNet = Some (Resolved 3002, Fixtures.busyNet).
Proof.
  apply (findAvailablePort_first_free Fixtures.busyNet 3000 3002).
  - lia.
  - lia.
  - vm_compute. set_solver.
  - set_solver.
  - intros q Hq. assert (q = 3000 \/ q = 3001)%Z as [->| ->] by lia; set_solver.
Defined.

(** The promise always settles: the retries end at the latest when
    [listen] refuses a port above 65535. *)
Lemma findAvailablePort_settles (startPort : Z) (n : Net) :
  exists r, findAvailablePort startPort n = Some r.
Proof.
  unfold findAvailablePort.
  assert (H : forall fuel s, (65536 - s <= Z.of_nat fuel)%Z ->
            exists r, findAvailablePort_fuel fuel s n = Some r).
  { induction fuel as [|fuel IH]; intros s Hs; cbn [findAvailablePort_fuel];
      unfold listen;
      destruct (Z.ltb_spec s 0); cbn [orb]; eauto;
      destruct (Z.ltb_spec 65535 s); eauto;
      destruct (decide _); eauto; [lia|].
    apply IH. lia. }
  apply H. lia.
Qed.

Example findAvailablePort_example :
  findAvailablePort 3000 Fixtures.busyNet = Some (Resolved 3002, Fixtures.busyNet).
Proof. vm_compute. reflexivity. Qed.




Example abort_then_timer :
  let s := fire_timer (fst (abort_operation (Fixtures.running 1))) in
  children s !! 1%nat
  = Some {| killed := true; exited := false; signals := [SIGTERM] |}
  /\ resolved s !! 1%nat = None /\ timers s = [].
Proof. vm_compute. repeat split. Qed.

(** X29: aborting a tracked, live child sends it SIGTERM, arms
    a timer of 1000 ms, clears [currentDockerProcess] and replies
    success; when the child then closes with a code other than 0, the
    run resolves with [success = false]. *)
Theorem abort_sends_sigterm (s : Supervisor) (p : nat) (c : ChildProcess) :
  currentDockerProcess s = Some p ->
  children s !! p = Some c ->
  exited c = false ->
  let s' := fst (abort_operation s) in
  snd (abort_operation s) = {| r_success := true; r_error := None |}
  /\ children s' !! p
     = Some {| killed := true; exited := false; signals := signals c ++ [SIGTERM] |}
  /\ currentDockerProcess s' = None
  /\ timers s' = (timers s ++ [1000%Z])%list
  /\ resolved s' = resolved s
  /\ forall exitCode, exitCode <> Some 0%Z ->
       resolved (on_close p exitCode s') !! p
       = Some {| success := false; code := exitCode; error := None |}.
Proof.
  intros Hcur Hc Hex. unfold abort_operation. rewrite Hcur. cbn [fst snd].
  unfold kill. rewrite Hc, Hex.
  cbn [set_current setTimeout currentDockerProcess children timers resolved].
  repeat split.
  - rewrite lookup_insert_eq, <- Hex. reflexivity.
  - intros code Hcode. unfold on_close. cbn [resolved].
    rewrite lookup_insert_eq. destruct code as [[| |]|]; congruence.
Qed.

Lemma abort_sends_sigterm_witness :
  children (fst (abort_operation (Fixtures.running 1))) !! 1%nat
  = Some {| killed := true; exited := false; signals := [] ++ [SIGTERM] |}.
Proof.
  apply (abort_sends_sigterm (Fixtures.running 1) 1
           {| killed := false; exited := false; signals := [] |}).
  - reflexivity.
  - vm_compute. reflexivity.
  - reflexivity.
Defined.

Lemma abort_without_child (s : Supervisor) :
  currentDockerProcess s = None ->
  abort_operation s
  = (s, {| r_success := false; r_error := Some "No operation running" |}).
Proof. intros H. unfold abort_operation. now rewrite H. Qed.


End MainFacts.

(** ** The renderer: stage gating and the stale flag *)

Module RendererFacts.
Import Renderer Spec JsStringFacts.

Ltac eval_state :=
  cbv [loadProject_resume runSetup runBuild
       runRebuild runAll runTest stopTest dismiss rebuild
       updateUI setStatus logMessage hideNotification showNotification orFalse
       set_projectPath set_projectInfo set_setupComplete set_buildComplete
       set_testRunning set_operationRunning set_outputPath set_testUrl
       set_fileChangedSinceSetup set_setupBadge set_buildBadge set_testBadge
       set_notificationShown set_messages set_history set_pendingReloads
       projectPath projectInfo setupComplete buildComplete testRunning
       operationRunning outputPath testUrl fileChangedSinceSetup setupBadge
       buildBadge testBadge notificationShown messages history pendingReloads
       ok rr_success rr_setupComplete rr_buildComplete negb andb orb JsString.falsy
       badge class at_setupComplete at_buildComplete at_setupBadge at_buildBadge]
    in *.

(** Names the fields of the state and settles the flags the handlers
    branch on. *)
Ltac open_state s :=
  let pinfo := fresh "pinfo" in
  let tr := fresh "tr" in
  let opr := fresh "opr" in
  let sc := fresh "sc" in
  let bc := fresh "bc" in
  destruct s as [? pinfo sc bc tr opr ? ? ? ? ? ? ? ? ? ?];
  destruct pinfo, tr, opr, sc, bc.

Lemma onFileChanged_raised (path : string) (s : State) :
  setupComplete s = true -> fileChangedSinceSetup s = true ->
  let s' := onFileChanged path s in
  setupComplete s' = true /\ fileChangedSinceSetup s' = true
  /\ (notificationShown s = true -> notificationShown s' = true)
  /\ notices s' = notices s.
Proof.
  intros Hsc Hfc. unfold onFileChanged, loadProject_begin, notices.
  destruct s as [pp ? sc ? ? ? ? ? fc ? ? ? ? ms ? ?]. eval_state. subst sc fc.
  destruct (match pp with Some p => String.eqb path p | None => false end).
  - cbn. repeat split. now rewrite !List.filter_app, !length_app, !Nat.add_0_r.
  - cbn. auto.
Qed.

Lemma deliver_raised (later : list string) :
  forall s,
    setupComplete s = true -> fileChangedSinceSetup s = true ->
    notificationShown s = true ->
    let s' := deliver later s in
    setupComplete s' = true /\ fileChangedSinceSetup s' = true
    /\ notificationShown s' = true
    /\ raised later s = 0%nat /\ notices s' = notices s.
Proof.
  induction later as [|p later IH]; intros s Hsc Hfc Hn.
  - cbn. auto.
  - destruct (onFileChanged_raised p s Hsc Hfc) as (Hsc' & Hfc' & Hn' & Hno).
    destruct (IH (onFileChanged p s) Hsc' Hfc' (Hn' Hn)) as (? & ? & ? & Hr & Hno').
    cbn [deliver fold_left raised]. fold (deliver later (onFileChanged p s)).
    rewrite Hfc. cbn. repeat split; auto. congruence.
Qed.

Lemma runAll_keeps_flag_down (r1 r2 r3 r4 : IpcResult) (d : string) (s : State) :
  fileChangedSinceSetup s = false ->
  fileChangedSinceSetup (runAll r1 r2 r3 r4 d s) = false.
Proof.
  destruct r1 as [[] ? ?], r2 as [[] ? ?], r3 as [[] ? ?], r4 as [[] ? ?].
  all: destruct s as [? pinfo ? ? tr opr ? ? ? ? ? ? ? ? ? ?];
    destruct pinfo, tr, opr; eval_state; intros H; first [exact H | reflexivity].
Qed.

(** X28: with Setup complete and the flag down, a watch event for a
    file other than the project file raises the flag, shows the
    notification and logs one notice; the watch events that follow it
    in a row, whatever their paths, raise nothing more, as long as no
    reload is answered between them; dismissing or rebuilding lowers
    the flag. *)
Theorem stale_flag_raised_once (s : State) (path : string) (later : list string) :
  setupComplete s = true ->
  fileChangedSinceSetup s = false ->
  projectPath s <> Some path ->
  let s' := deliver (path :: later) s in
  fileChangedSinceSetup s' = true
  /\ notificationShown s' = true
  /\ raised (path :: later) s = 1%nat
  /\ notices s' = S (notices s)
  /\ fileChangedSinceSetup (dismiss s') = false
  /\ notificationShown (dismiss s') = false
  /\ forall r1 r2 r3 r4 d,
       fileChangedSinceSetup (rebuild r1 r2 r3 r4 d s') = false.
Proof.
  intros Hsc Hfc Hpath.
  assert (Hfirst : onFileChanged path s
                   = logMessage "info" ("File changed: " ++ path)
                       (showNotification (set_fileChangedSinceSetup true s))).
  { unfold onFileChanged. destruct (projectPath s) as [p|] eqn:Hp.
    - destruct (String.eqb_spec path p) as [->|_]; [congruence|].
      now rewrite Hsc, Hfc.
    - now rewrite Hsc, Hfc. }
  cbn [deliver fold_left raised]. fold (deliver later (onFileChanged path s)).
  rewrite Hfirst.
  match goal with |- context [deliver later ?s1] =>
    destruct (deliver_raised later s1) as (Hsc' & Hfc' & Hn' & Hr & Hno);
    [exact Hsc | reflexivity | reflexivity |] end.
  rewrite Hfc, Hr, Hfc', Hn', Hno. cbn [negb andb].
  repeat split.
  - unfold notices, logMessage. cbn [messages set_messages snd].
    rewrite List.filter_app, length_app. cbn [List.filter snd].
    replace (String.prefix "File changed: " ("File changed: " ++ path)) with true
      by (symmetry; apply (prefix_app "File changed: " path)).
    cbn [List.length messages showNotification set_notificationShown
         set_fileChangedSinceSetup]. lia.
  - intros r1 r2 r3 r4 d. unfold rebuild. now apply runAll_keeps_flag_down.
Qed.


Lemma stale_flag_raised_once_witness :
  raised ["src/ui/screens.c"; "src/ui/screens.h"; "demo.eez-project"; "src/ui/styles.c"]
    Fixtures.afterSetup = 1%nat
  /\ fileChangedSinceSetup
       (deliver ["src/ui/screens.c"; "src/ui/screens.h"; "demo.eez-project";
                 "src/ui/styles.c"] Fixtures.afterSetup) = true.
Proof.
  pose proof (stale_flag_raised_once Fixtures.afterSetup "src/ui/screens.c"
                ["src/ui/screens.h"; "demo.eez-project"; "src/ui/styles.c"]
                eq_refl eq_refl) as H.
  cbv zeta in H. split; apply H; discriminate.
Defined.

End RendererFacts.

(** * Further properties of the code *)

Module RecentProjectsFacts.
Import RecentProjects.

Lemma differs_iff (p q : string) : negb (String.eqb q p) = true <-> q <> p.
Proof.
  destruct (String.eqb_spec q p); cbn; split; intros; congruence.
Qed.

Lemma In_firstn {A} (n : nat) (l : list A) (a : A) : In a (firstn n l) -> In a l.
Proof.
  revert l. induction n as [|n IH]; intros [|b l]; cbn; try tauto.
  intros [->|H]; auto.
Qed.

Lemma NoDup_firstn {A} (n : nat) (l : list A) :
  List.NoDup l -> List.NoDup (firstn n l).
Proof.
  revert l. induction n as [|n IH]; intros [|b l] H; cbn; try constructor.
  - inversion H; subst. intros Hin. apply In_firstn in Hin. contradiction.
  - inversion H; subst. auto.
Qed.

Lemma count_firstn_absent (n : nat) (l : list string) (p : string) :
  ~ In p l -> count_occ string_dec (firstn n l) p = 0%nat.
Proof.
  intros H. apply count_occ_not_In. intros Hin. apply H. eapply In_firstn, Hin.
Qed.

(** X1: after [addToRecentProjects] the list starts with the added
    path, holds it exactly once, has at most ten entries, and its
    other entries are the first nine of the old entries other than the
    path, in their old order; a list without repetitions stays so. *)
Theorem addToRecentProjects_front_once_capped (p : string) (l : list string) :
  exists others,
    addToRecentProjects p l = p :: others
    /\ others = firstn 9 (removeFromRecentProjects p l)
    /\ (List.length (addToRecentProjects p l) <= 10)%nat
    /\ count_occ string_dec (addToRecentProjects p l) p = 1%nat
    /\ (forall q, In q others -> q <> p /\ In q l)
    /\ (List.NoDup l -> List.NoDup (addToRecentProjects p l)).
Proof.
  unfold addToRecentProjects, removeFromRecentProjects.
  set (rest := List.filter (fun q => negb (String.eqb q p)) l).
  assert (Hrest : forall q, In q rest -> q <> p /\ In q l).
  { intros q Hq. apply List.filter_In in Hq as [Hin Hne].
    now apply differs_iff in Hne. }
  exists (firstn 9 rest). change (firstn 10 (p :: rest)) with (p :: firstn 9 rest).
  repeat split.
  - cbn [List.length]. pose proof (firstn_le_length 9 rest). lia.
  - cbn [count_occ]. destruct (string_dec p p) as [_|Hn]; [|congruence].
    f_equal. apply count_firstn_absent. intros Hin.
    apply Hrest in Hin as [Hne _]. congruence.
  - apply In_firstn, Hrest in H. tauto.
  - apply In_firstn, Hrest in H. tauto.
  - intros Hnd. constructor.
    + intros Hin. apply In_firstn, Hrest in Hin as [Hne _]. congruence.
    + apply NoDup_firstn. now apply List.NoDup_filter.
Qed.

(** X2: [removeFromRecentProjects] takes every occurrence of the path
    out and keeps the other entries, each as often as before and in
    the same order (it works part by part on a list cut in two);
    removing a path that is not on the list changes nothing, and
    adding a path gives the same list whether or not the path was
    removed first. *)
Theorem removeFromRecentProjects_only_that_path (p : string) (l : list string) :
  ~ In p (removeFromRecentProjects p l)
  /\ (forall q, q <> p ->
        List.filter (String.eqb q) (removeFromRecentProjects p l)
        = List.filter (String.eqb q) l)
  /\ (forall q, In q (removeFromRecentProjects p l) <-> In q l /\ q <> p)
  /\ (~ In p l -> removeFromRecentProjects p l = l)
  /\ addToRecentProjects p (removeFromRecentProjects p l) = addToRecentProjects p l
  /\ (forall a b, l = (a ++ b)%list ->
        removeFromRecentProjects p l
        = (removeFromRecentProjects p a ++ removeFromRecentProjects p b)%list).
Proof.
  unfold removeFromRecentProjects. repeat split.
  - intros Hin. apply List.filter_In in Hin as [_ Hne].
    apply differs_iff in Hne. congruence.
  - intros q Hq. induction l as [|a l IH]; [reflexivity|].
    cbn [List.filter]. destruct (String.eqb_spec a p) as [->|Hap]; cbn [negb].
    + destruct (String.eqb_spec q p); [congruence|]. exact IH.
    + cbn [List.filter]. now rewrite IH.
  - apply List.filter_In in H. tauto.
  - apply List.filter_In in H as [_ H]. now apply differs_iff in H.
  - intros [Hin Hne]. apply List.filter_In. split; [assumption|].
    now apply differs_iff.
  - intros Hnot. induction l as [|a l IH]; [reflexivity|].
    cbn [List.filter]. destruct (String.eqb_spec a p) as [->|Hap]; cbn [negb].
    + exfalso. apply Hnot. now left.
    + f_equal. apply IH. intros Hin. apply Hnot. now right.
  - unfold addToRecentProjects. do 2 f_equal.
    induction l as [|a l IH]; [reflexivity|].
    cbn [List.filter]. destruct (negb (String.eqb a p)) eqn:Ha; cbn [List.filter].
    + rewrite Ha. now rewrite IH.
    + exact IH.
  - intros a b ->. apply List.filter_app.
Qed.

End RecentProjectsFacts.

Module NoiseFacts.
Import Build Props JsStringFacts.

Lemma includes_iff (text search : string) :
  JsString.includes text search = true <->
  exists pre post, text = pre ++ search ++ post.
Proof.
  unfold JsString.includes. split.
  - destruct (JsString.indexOf search text) as [k|] eqn:Hk; [|discriminate].
    intros _. apply indexOf_occurs in Hk. eauto.
  - intros (pre & post & ->).
    destruct (indexOf_least search pre post) as (k & -> & _). reflexivity.
Qed.

Lemma trimStart_split (s : string) :
  exists ws, s = ws ++ JsString.trimStart s /\ blank ws = true.
Proof.
  induction s as [|c s (ws & Hs & Hws)].
  - exists "". split; reflexivity.
  - cbn [JsString.trimStart]. destruct (JsString.isWhiteSpace c) eqn:Hc.
    + exists (String c ws). split.
      * rewrite append_cons. now f_equal.
      * unfold blank in *. cbn [list_ascii_of_string forallb]. now rewrite Hc.
    + exists "". split; reflexivity.
Qed.

Lemma trimEnd_split (s : string) :
  exists ws, s = JsString.trimEnd s ++ ws /\ blank ws = true.
Proof.
  induction s as [|c s (ws & Hs & Hws)].
  - exists "". split; reflexivity.
  - cbn [JsString.trimEnd]. destruct (JsString.trimEnd s) as [|a t] eqn:Ht.
    + destruct (JsString.isWhiteSpace c) eqn:Hc.
      * exists (String c ws). split.
        -- rewrite append_nil in *. now f_equal.
        -- unfold blank in *. cbn [list_ascii_of_string forallb]. now rewrite Hc.
      * exists ws. split; [|assumption].
        rewrite append_cons. now f_equal.
    + exists ws. split; [|assumption].
      rewrite append_cons. now f_equal.
Qed.

Lemma trimStart_blank (ws s : string) :
  blank ws = true -> JsString.trimStart (ws ++ s) = JsString.trimStart s.
Proof.
  unfold blank. induction ws as [|c ws IH]; cbn [list_ascii_of_string forallb].
  - now rewrite append_nil.
  - intros H. apply andb_prop in H as [Hc Hws].
    rewrite append_cons. cbn [JsString.trimStart]. rewrite Hc. auto.
Qed.

Lemma trimEnd_all_blank (ws : string) : blank ws = true -> JsString.trimEnd ws = "".
Proof.
  unfold blank. induction ws as [|c ws IH]; cbn [list_ascii_of_string forallb].
  - reflexivity.
  - intros H. apply andb_prop in H as [Hc Hws].
    cbn [JsString.trimEnd]. rewrite (IH Hws), Hc. reflexivity.
Qed.

Lemma hex_not_blank (c : ascii) : isHexDigit c = true -> JsString.isWhiteSpace c = false.
Proof.
  unfold isHexDigit, JsString.isWhiteSpace. cbv zeta.
  generalize (nat_of_ascii c). intros n H.
  destruct (Nat.leb_spec 48 n), (Nat.leb_spec n 57), (Nat.leb_spec 97 n),
    (Nat.leb_spec n 102), (Nat.leb_spec 9 n), (Nat.leb_spec n 13),
    (Nat.eqb_spec n 32), (Nat.eqb_spec n 160); cbn in *; try reflexivity;
    try discriminate; lia.
Qed.

Lemma trimStart_hex (id s : string) :
  forallb isHexDigit (list_ascii_of_string id) = true ->
  id <> "" -> JsString.trimStart (id ++ s) = id ++ s.
Proof.
  destruct id as [|c id]; [congruence|]. cbn [list_ascii_of_string forallb].
  intros H _. apply andb_prop in H as [Hc _].
  rewrite append_cons. cbn [JsString.trimStart]. now rewrite (hex_not_blank _ Hc).
Qed.

Lemma trimEnd_hex (id ws : string) :
  forallb isHexDigit (list_ascii_of_string id) = true ->
  blank ws = true -> JsString.trimEnd (id ++ ws) = id.
Proof.
  intros Hid Hws. induction id as [|c id IH].
  - rewrite append_nil. now apply trimEnd_all_blank.
  - cbn [list_ascii_of_string forallb] in Hid. apply andb_prop in Hid as [Hc Hid].
    rewrite append_cons. cbn [JsString.trimEnd]. rewrite (IH Hid).
    destruct id; [|reflexivity]. now rewrite (hex_not_blank _ Hc).
Qed.

(** X3: [shouldFilterDockerMessage] drops a chunk of output exactly
    when one of the five marker texts occurs somewhere in it, whatever
    else the chunk carries, or when the chunk is 64 characters of
    [0-9a-f] with nothing but white space around them. *)
Theorem shouldFilterDockerMessage_iff (text : string) :
  shouldFilterDockerMessage text = true <->
  (exists marker pre post, In marker filters /\ text = pre ++ marker ++ post)
  \/ (exists ws1 id ws2,
        text = ws1 ++ id ++ ws2 /\ blank ws1 = true /\ blank ws2 = true
        /\ String.length id = 64%nat
        /\ forallb isHexDigit (list_ascii_of_string id) = true).
Proof.
  unfold shouldFilterDockerMessage.
  destruct (existsb (fun f => JsString.includes text f) filters) eqn:Hex.
  - split; [intros _|reflexivity]. left.
    apply existsb_exists in Hex as (f & Hf & Hinc).
    apply includes_iff in Hinc as (pre & post & ->). eauto.
  - split.
    + intros Hid. right. unfold isContainerId in Hid.
      apply andb_prop in Hid as [Hlen Hhex]. apply Nat.eqb_eq in Hlen.
      destruct (trimStart_split text) as (ws1 & H1 & Hb1).
      destruct (trimEnd_split (JsString.trimStart text)) as (ws2 & H2 & Hb2).
      exists ws1, (JsString.trim text), ws2. unfold JsString.trim in *.
      repeat split; try assumption. now rewrite <- H2.
    + intros [(f & pre & post & Hf & ->)|(ws1 & id & ws2 & -> & Hb1 & Hb2 & Hlen & Hhex)].
      * exfalso. assert (Hin : existsb (fun f => JsString.includes (pre ++ f ++ post) f)
                                  [f] = true).
        { cbn [existsb]. rewrite orb_false_r. apply includes_iff. eauto. }
        cbn [existsb] in Hin. rewrite orb_false_r in Hin.
        assert (Habs : existsb (fun g => JsString.includes (pre ++ f ++ post) g) filters
                       = true).
        { apply existsb_exists. eauto. }
        congruence.
      * unfold isContainerId, JsString.trim.
        rewrite trimStart_blank by assumption.
        assert (Hne : id <> "") by (intros ->; discriminate).
        rewrite trimStart_hex by assumption.
        rewrite trimEnd_hex by assumption.
        rewrite Hlen, Hhex. reflexivity.
Qed.

End NoiseFacts.

Module ProjectFacts.
Import Project Props.

Lemma orZ_nonzero (x : option Z) (d : Z) : d <> 0%Z -> orZ x d <> 0%Z.
Proof.
  intros Hd. unfold orZ. destruct x as [z|]; [|assumption].
  destruct (Z.eqb_spec z 0); assumption.
Qed.

Lemma slashes_clean (s : string) :
  JsString.includes (slashes s) (String (ascii_of_nat 92) "") = false.
Proof.
  unfold JsString.includes.
  enough (H : JsString.indexOf (String (ascii_of_nat 92) "") (slashes s) = None)
    by now rewrite H.
  induction s as [|c s IH]; [reflexivity|].
  cbn [slashes JsString.indexOf String.prefix].
  destruct (Ascii.eqb_spec c (ascii_of_nat 92)) as [->|Hc].
  - cbn. fold (ascii_of_nat 92). rewrite IH. reflexivity.
  - destruct (ascii_dec (ascii_of_nat 92) c) as [Heq|_]; [congruence|].
    rewrite IH. reflexivity.
Qed.

Lemma parseFonts_fonts (E : Files) (dir : string) (fs : list FontJson) :
  fst (parseFonts E dir fs) = map (fontInfo E dir) (List.filter (present E dir) fs).
Proof.
  induction fs as [|f fs IH]; [reflexivity|].
  cbn [parseFonts List.filter]. destruct (parseFonts E dir fs) as [fonts logs].
  cbn [fst] in IH. unfold present at 1, fontInfo at 1. cbn [Lib.localPath].
  destruct (lvglUseFreeType f); cbn [andb]; [|exact IH].
  destruct (existsSync E _); cbn [negb fst map]; [|exact IH].
  now rewrite IH.
Qed.

Lemma parseFonts_warnings (E : Files) (dir : string) (fs : list FontJson) :
  List.length (List.filter isWarning (snd (parseFonts E dir fs)))
  = List.length (List.filter (missing E dir) fs).
Proof.
  induction fs as [|f fs IH]; [reflexivity|].
  cbn [parseFonts List.filter]. destruct (parseFonts E dir fs) as [fonts logs].
  cbn [snd] in IH. unfold missing at 1, fontInfo at 1. cbn [Lib.localPath].
  destruct (lvglUseFreeType f); cbn [andb]; [|exact IH].
  destruct (existsSync E _); cbn [negb snd List.filter isWarning entry Lib.logType];
    [exact IH|].
  cbn [List.length]. now rewrite IH.
Qed.

(** Symbolic execution of [readProjectFile] down to its outcomes. *)
Ltac run_read :=
  unfold readProjectFile;
  repeat match goal with
         | |- context [existsSync ?E ?p] =>
             lazymatch goal with
             | H : existsSync E p = _ |- _ => fail
             | _ => destruct (existsSync E p) eqn:?; cbn [negb]
             end
         | |- context [match parse ?E ?p with _ => _ end] =>
             destruct (parse E p) as [?msg|?project] eqn:?
         | |- context [match general_lvglVersion ?p with _ => _ end] =>
             destruct (general_lvglVersion p) as [?version|] eqn:?
         | |- context [if JsString.falsy ?v then _ else _] =>
             lazymatch v with
             | orString _ _ => fail
             | _ => destruct (JsString.falsy v) eqn:?
             end
         | |- context [match versionMap ?v with _ => _ end] =>
             destruct (versionMap v) as [?mapped| |] eqn:?
         | |- context [match fonts ?p with _ => _ end] =>
             destruct (fonts p) as [?fs|] eqn:?
         | |- context [parseFonts ?E ?d ?l] =>
             destruct (parseFonts E d l) as [?kept ?lines] eqn:?
         end.

Lemma versionMap_own (v m : string) :
  versionMap v = Own m ->
  In v unsupported /\ ~ In m unsupported /\ m <> ""
  /\ m = (if String.prefix "8" v then "8.4.0" else "9.2.2").
Proof.
  unfold versionMap, unsupported.
  repeat match goal with
         | |- context [String.eqb v ?k] => destruct (String.eqb_spec v k) as [->|?]
         end;
    try (destruct (existsb _ _); discriminate);
    intros [= <-]; (split; [cbn [In]; tauto|]);
    (split; [|split; [discriminate|reflexivity]]); cbn [In]; intros H;
    repeat destruct H as [H|H]; try discriminate; assumption.
Qed.

Lemma versionMap_absent (v : string) : versionMap v = Absent -> ~ In v unsupported.
Proof.
  unfold versionMap, unsupported.
  repeat match goal with
         | |- context [String.eqb v ?k] => destruct (String.eqb_spec v k) as [->|?]
         end;
    try discriminate; intros _; cbn [In]; intros H;
    repeat destruct H as [H|H]; congruence.
Qed.

Lemma versionMap_inherited (v : string) :
  versionMap v = Inherited -> In v objectPrototypeKeys /\ ~ In v unsupported.
Proof.
  unfold versionMap, unsupported.
  repeat match goal with
         | |- context [String.eqb v ?k] => destruct (String.eqb_spec v k) as [->|?]
         end;
    try discriminate.
  destruct (existsb (String.eqb v) objectPrototypeKeys) eqn:Hk; [|discriminate].
  intros _. split.
  - apply existsb_exists in Hk as (k & Hk & Heq).
    apply String.eqb_eq in Heq. now subst.
  - cbn [In]. intros H. repeat destruct H as [H|H]; congruence.
Qed.

Lemma versionMap_plain (v : string) :
  versionMap v = Absent -> ~ In v objectPrototypeKeys.
Proof.
  unfold versionMap.
  repeat match goal with
         | |- context [String.eqb v ?k] => destruct (String.eqb v k); try discriminate
         end.
  destruct (existsb (String.eqb v) objectPrototypeKeys) eqn:Hk; [discriminate|].
  intros _ Hin.
  assert (Ht : existsb (String.eqb v) objectPrototypeKeys = true).
  { apply existsb_exists. exists v. split; [exact Hin | apply String.eqb_refl]. }
  congruence.
Qed.

Lemma versionMap_listed (v : string) :
  In v unsupported -> exists m, versionMap v = Own m.
Proof.
  unfold unsupported. cbn [In]. intros H.
  repeat destruct H as [H|H]; try contradiction; subst v; eexists; reflexivity.
Qed.

(** X4: when [readProjectFile] returns, the project file gave a
    version that is not empty. One of the four versions of the table
    is replaced by its substitute (8.4.0 for 8.3 and 8.3.0, 9.2.2 for
    9.0 and 9.0.0), and this is logged. A version that is the name of a
    member of [Object.prototype] finds that member in the table: the
    version returned is the member, not a string. Every other version
    is returned as it is. A version returned as a string is never
    empty and never one of the four of the table. *)
Theorem readProjectFile_version_supported (E : Files) (projectPath : string)
    (out : Reading) (info : Lib.ProjectInfo) (lines : list Lib.LogEntry) :
  readProjectFile E projectPath = (out, lines) ->
  returned out = Some info ->
  exists project version,
    parse E projectPath = inr project
    /\ general_lvglVersion project = Some version
    /\ version <> ""
    /\ (In version unsupported ->
        out = Returned info
        /\ Lib.lvglVersion info = (if String.prefix "8" version then "8.4.0" else "9.2.2")
        /\ In (entry ("LVGL version " ++ version ++ " mapped to "
                        ++ Lib.lvglVersion info) (Some Lib.info)) lines)
    /\ (In version objectPrototypeKeys ->
        out = ReturnedMember version info
        /\ Lib.lvglVersion info = memberText E version)
    /\ (~ In version unsupported -> ~ In version objectPrototypeKeys ->
        out = Returned info /\ Lib.lvglVersion info = version)
    /\ (forall i, out = Returned i ->
          Lib.lvglVersion i <> "" /\ ~ In (Lib.lvglVersion i) unsupported).
Proof.
  run_read; intros [= <- <-]; cbn [returned]; intros [= <-];
    cbn [Lib.lvglVersion]; eexists _, _;
    (split; [reflexivity|]); (split; [eassumption|]);
    (split; [intros ->; discriminate|]).
  all: match goal with
       | H : versionMap _ = Own _ |- _ =>
           pose proof (versionMap_own _ _ H) as (Hin & Hout & Hne & Hm);
           assert (Hk : ~ In version objectPrototypeKeys)
             by (intros Hk; revert Hin; clear - Hk; unfold unsupported;
                 cbn [In] in *; intros Hin;
                 repeat destruct Hk as [Hk|Hk]; try contradiction; subst version;
                 repeat destruct Hin as [Hin|Hin]; try discriminate; contradiction)
       | H : versionMap _ = Absent |- _ =>
           pose proof (versionMap_absent _ H) as Hout;
           pose proof (versionMap_plain _ H) as Hk
       | H : versionMap _ = Inherited |- _ =>
           pose proof (versionMap_inherited _ H) as (Hk & Hout)
       end.
  all: repeat split; try tauto; try congruence.
  all: try (cbn [app In]; right; left; reflexivity).
  all: try match goal with
           | H : Returned _ = Returned _ |- _ => injection H as <-
           end; cbn [Lib.lvglVersion]; try assumption.
  all: intros ->; discriminate.
Qed.

(** X5: the display size [readProjectFile] returns is never 0: a
    width or height that the project file leaves out or gives as 0
    becomes 800 or 480, any other value is kept; a missing or empty
    destination folder becomes src/ui, the folder returned holds no
    backslash, and the UI directory returned is that folder below the
    directory of the project file and exists. *)
Theorem readProjectFile_defaults (E : Files) (projectPath : string)
    (info : Lib.ProjectInfo) (lines : list Lib.LogEntry) :
  readProjectFile E projectPath = (Returned info, lines) ->
  exists project,
    parse E projectPath = inr project
    /\ Lib.displayWidth info <> 0%Z /\ Lib.displayHeight info <> 0%Z
    /\ (forall w, general_displayWidth project = Some w -> w <> 0%Z ->
          Lib.displayWidth info = w)
    /\ (general_displayWidth project = None \/ general_displayWidth project = Some 0%Z ->
        Lib.displayWidth info = 800%Z)
    /\ (forall h, general_displayHeight project = Some h -> h <> 0%Z ->
          Lib.displayHeight info = h)
    /\ (general_displayHeight project = None \/ general_displayHeight project = Some 0%Z ->
        Lib.displayHeight info = 480%Z)
    /\ (build_destinationFolder project = None
        \/ build_destinationFolder project = Some "" ->
        Lib.destinationFolder info = "src/ui")
    /\ JsString.includes (Lib.destinationFolder info) (String (ascii_of_nat 92) "") = false
    /\ Lib.uiDir info
       = path_join E (path_dirname E projectPath) (Lib.destinationFolder info)
    /\ existsSync E (Lib.uiDir info) = true.
Proof.
  run_read; intros [= <- <-];
    cbn [Lib.displayWidth Lib.displayHeight Lib.destinationFolder Lib.uiDir];
    eexists; (split; [reflexivity|]).
  all: repeat split; try assumption; try reflexivity.
  all: try (apply orZ_nonzero; discriminate).
  all: try apply slashes_clean.
  all: try (intros z Hz Hne; rewrite Hz; unfold orZ;
            destruct (Z.eqb_spec z 0); congruence).
  all: try (intros [->| ->]; reflexivity).
  all: cbn [Lib.uiDir] in *; congruence.
Qed.

(** X6: when [readProjectFile] returns, the fonts it returns are the
    FreeType fonts of the project file whose file is on disk, in the
    order of the project file, and each of them exists; for every
    FreeType font whose file is missing one warning is logged, and no
    other warning. *)
Theorem readProjectFile_fonts (E : Files) (projectPath : string)
    (out : Reading) (info : Lib.ProjectInfo) (lines : list Lib.LogEntry) :
  readProjectFile E projectPath = (out, lines) ->
  returned out = Some info ->
  exists project,
    parse E projectPath = inr project
    /\ Lib.fonts info
       = map (fontInfo E (path_dirname E projectPath))
           (List.filter (present E (path_dirname E projectPath)) (declaredFonts project))
    /\ Forall (fun font => existsSync E (Lib.localPath font) = true) (Lib.fonts info)
    /\ List.length (List.filter isWarning lines)
       = List.length
           (List.filter (missing E (path_dirname E projectPath)) (declaredFonts project)).
Proof.
  assert (Hall : forall dir fs,
             Forall (fun font => existsSync E (Lib.localPath font) = true)
               (map (fontInfo E dir) (List.filter (present E dir) fs))).
  { intros dir fs. apply List.Forall_forall. intros font Hin.
    apply in_map_iff in Hin as (f & <- & Hf).
    apply List.filter_In in Hf as [_ Hf]. unfold present in Hf.
    now apply andb_prop in Hf as [_ Hf]. }
  run_read; intros [= <- <-]; cbn [returned]; intros [= <-];
    cbn [Lib.fonts]; eexists; (split; [reflexivity|]).
  all: unfold declaredFonts;
    repeat match goal with H : fonts _ = _ |- _ => rewrite H end.
  all: try match goal with
           | H : parseFonts ?E ?d ?l = (?k, ?ls) |- _ =>
               pose proof (parseFonts_fonts E d l) as Hk;
               pose proof (parseFonts_warnings E d l) as Hw;
               rewrite H in Hk, Hw; cbn [fst snd] in Hk, Hw; subst k
           end.
  all: split; [reflexivity|]; split; [first [apply Hall | constructor]|].
  all: try (rewrite <- Hw).
  all: try match goal with
           | |- context [match ?l with [] => [] | _ :: _ => [?e] end] => destruct l
           end.
  all: repeat first
         [ rewrite List.filter_app
         | rewrite List.length_app
         | progress cbn [List.filter List.length isWarning entry Lib.logType
                         Lib.message app] ];
    lia.
Qed.

Lemma readProjectFile_version_supported_witness :
  exists project version,
    parse Samples.projectEnv Samples.nextFile = inr project
    /\ general_lvglVersion project = Some version
    /\ fst (readProjectFile Samples.projectEnv Samples.nextFile)
       = Returned Samples.nextInfo
    /\ Lib.lvglVersion Samples.nextInfo = version.
Proof.
  destruct (readProjectFile_version_supported Samples.projectEnv Samples.nextFile
              (fst (readProjectFile Samples.projectEnv Samples.nextFile))
              Samples.nextInfo
              (snd (readProjectFile Samples.projectEnv Samples.nextFile)))
    as (project & version & Hp & Hv & _ & _ & _ & Hplain & _).
  - vm_compute. reflexivity.
  - vm_compute. reflexivity.
  - exists project, version. split; [exact Hp|]. split; [exact Hv|].
    assert (version = "9.3.0") as ->.
    { vm_compute in Hp. injection Hp as <-. vm_compute in Hv. now injection Hv as <-. }
    apply Hplain.
    + cbn. intros H. repeat destruct H as [H|H]; try discriminate; contradiction.
    + cbn. intros H. repeat destruct H as [H|H]; try discriminate; contradiction.
Defined.

Lemma readProjectFile_defaults_witness :
  Lib.displayWidth Samples.demoInfo = 800%Z
  /\ Lib.displayHeight Samples.demoInfo = 480%Z
  /\ JsString.includes (Lib.destinationFolder Samples.demoInfo)
       (String (ascii_of_nat 92) "") = false.
Proof.
  destruct (readProjectFile_defaults Samples.projectEnv Samples.projectFile
              Samples.demoInfo
              (snd (readProjectFile Samples.projectEnv Samples.projectFile)))
    as (project & Hparse & _ & _ & _ & Hw & _ & Hh & _ & Hclean & _).
  - vm_compute. reflexivity.
  - injection Hparse as <-. split; [|split].
    + apply Hw. right. reflexivity.
    + apply Hh. left. reflexivity.
    + exact Hclean.
Defined.

Lemma readProjectFile_fonts_witness :
  exists project,
    parse Samples.projectEnv Samples.projectFile = inr project
    /\ Lib.fonts Samples.demoInfo
       = map (fontInfo Samples.projectEnv (path_dirname Samples.projectEnv Samples.projectFile))
           (List.filter
              (present Samples.projectEnv
                 (path_dirname Samples.projectEnv Samples.projectFile))
              (declaredFonts project))
    /\ Forall (fun font => existsSync Samples.projectEnv (Lib.localPath font) = true)
         (Lib.fonts Samples.demoInfo)
    /\ List.length
         (List.filter isWarning
            (snd (readProjectFile Samples.projectEnv Samples.projectFile)))
       = List.length
           (List.filter
              (missing Samples.projectEnv
                 (path_dirname Samples.projectEnv Samples.projectFile))
              (declaredFonts project)).
Proof.
  apply (readProjectFile_fonts Samples.projectEnv Samples.projectFile
           (Returned Samples.demoInfo) Samples.demoInfo
           (snd (readProjectFile Samples.projectEnv Samples.projectFile))).
  - vm_compute. reflexivity.
  - reflexivity.
Defined.

End ProjectFacts.

Module LibMoreFacts.
Import Lib Spec Props LibFacts.

Lemma createdContainers_copyOut (cid : string) (l : list Event) :
  Forall (copyOut cid) l -> createdContainers l = [].
Proof.
  induction 1 as [|[c r] l (f & d & Hc) _ IH]; [reflexivity|].
  cbn [fst] in Hc. subst c. cbn [createdContainers flat_map] in *.
  fold (createdContainers l). now rewrite IH.
Qed.

(** The loop of [extractBuild] only copies out of its container, and
    stops the container before it throws. *)
Lemma extractFiles_shape (E : Env) (cid out : string) (fl : list string) :
  forall st res st',
    extractFiles E cid out fl st = (res, st') ->
    exists more,
      Forall (copyOut cid) more
      /\ ((res = inr tt /\ trace st' = (trace st ++ more)%list)
          \/ (exists msg r, res = inl msg
                /\ trace st' = (trace st ++ more ++ [(Stop cid, r)])%list)).
Proof.
  induction fl as [|f fl IH]; intros st res st'.
  - cbn [extractFiles]. exec. intros [= <- <-]. exists []. split; [constructor|].
    left. now rewrite app_nil_r.
  - cbn [extractFiles]. exec.
    set (ev := (CopyOut cid f (path_join E out f),
                respond E (trace st) (CopyOut cid f (path_join E out f)))).
    assert (Hev : copyOut cid ev) by (eexists _, _; reflexivity).
    assert (Hgo : forall lg,
               extractFiles E cid out fl {| trace := trace st ++ [ev]; logs := lg |}
               = (res, st') ->
               exists more,
                 Forall (copyOut cid) more
                 /\ ((res = inr tt /\ trace st' = (trace st ++ more)%list)
                     \/ (exists msg r, res = inl msg
                           /\ trace st' = (trace st ++ more ++ [(Stop cid, r)])%list))).
    { intros lg Hrun. apply IH in Hrun as (more & Hmore & Hcase). cbn [trace] in Hcase.
      exists (ev :: more). split; [now constructor|].
      destruct Hcase as [[-> ->]|(msg & r & -> & ->)].
      - left. split; [reflexivity|]. now rewrite <- app_assoc.
      - right. exists msg, r. split; [reflexivity|]. now rewrite <- app_assoc. }
    fold ev.
    destruct (success (respond E (trace st) (CopyOut cid f (path_join E out f))));
      cbn [negb].
    + destruct (statSync E (path_join E out f)); exec; apply Hgo.
    + destruct (String.eqb f "index.data"); exec; [apply Hgo|].
      intros [= <- <-]. cbn [trace]. eexists [_]. split.
      * constructor; [exact Hev|constructor].
      * right. eexists _, _. split; [reflexivity|]. now rewrite <- !app_assoc.
Qed.

(** X8: whenever [extractBuild] obtained a helper container, the last
    command it ran, on success and on every error path alike, is
    [docker stop] of that container. *)
Theorem extractBuild_container_always_stopped (E : Env) (outputPath : string)
    (cfg : BuildConfig) (res : string + unit) (st : Run) (cid : string) :
  extractBuild E outputPath cfg start = (res, st) ->
  In cid (createdContainers (trace st)) ->
  exists pre r, trace st = (pre ++ [(Stop cid, r)])%list.
Proof.
  unfold extractBuild, createTempContainer, start. exec.
  repeat (branch_extract; exec).
  all: try (intros [= <- <-]; cbn [trace createdContainers flat_map app];
            use_facts; cbn [andb negb orb app]; intros []; fail).
  all: match goal with
       | |- context [extractFiles ?E ?c ?o ?f ?s] =>
           destruct (extractFiles E c o f s) as [[msg|[]] st1] eqn:Hloop;
           apply extractFiles_shape in Hloop as (more & Hmore & Hcase);
           cbn [trace app] in Hcase
       end.
  all: intros [= <- <-]; cbn [trace].
  all: destruct Hcase as [[Hres Htr]|(msg' & r & Hres & Htr)]; try discriminate Hres;
    rewrite Htr.
  all: intros Hin; rewrite ?app_comm_cons in *; rewrite createdContainers_app in Hin;
    match type of Hin with
    | context [createdContainers (?x :: ?m)] =>
        change (x :: m) with ([x] ++ m)%list in Hin
    end;
    match goal with
    | Hm : Forall (copyOut _) _ |- _ =>
        rewrite createdContainers_app, (createdContainers_copyOut _ _ Hm) in Hin
    end;
    cbn [createdContainers flat_map app] in Hin;
    repeat match goal with
           | H : success _ = _ |- _ => rewrite H in Hin
           | H : output _ = _ |- _ => rewrite H in Hin
           | H : JsString.falsy _ = _ |- _ => rewrite H in Hin
           end;
    cbn [andb negb app In] in Hin; destruct Hin as [<-|[]];
    eexists _, _; reflexivity.
Qed.

Lemma app_cons_neq {A} (l m : list A) (a : A) : (l ++ a :: m)%list <> l.
Proof.
  intros H. apply (f_equal (@List.length A)) in H.
  rewrite List.length_app in H. cbn [List.length] in H. lia.
Qed.

(** X9: [extractBuild] runs no command at all exactly when the output
    directory cannot be emptied or cannot be created, and then it
    throws the error of the file system; in every other case its first
    command creates the helper container. *)
Theorem extractBuild_needs_output_directory (E : Env) (outputPath : string)
    (cfg : BuildConfig) (st : Run) (res : string + unit) (st' : Run) :
  extractBuild E outputPath cfg st = (res, st') ->
  (trace st' = trace st <->
   (existsSync E outputPath = true /\ rmSync E outputPath <> None)
   \/ mkdirSync E outputPath <> None)
  /\ (trace st' = trace st -> exists msg,
        res = inl msg
        /\ (rmSync E outputPath = Some msg \/ mkdirSync E outputPath = Some msg))
  /\ (trace st' <> trace st -> exists r more,
        trace st' = (trace st ++ (RunDetached, r) :: more)%list).
Proof.
  unfold extractBuild, createTempContainer. exec.
  repeat (branch_extract; exec).
  all: try match goal with
           | |- context [extractFiles ?E ?c ?o ?f ?s] =>
               destruct (extractFiles E c o f s) as [[msg|[]] st1] eqn:Hloop;
               apply extractFiles_shape in Hloop as (more & Hmore & Hcase);
               cbn [trace app] in Hcase;
               destruct Hcase as [[Hres Htr]|(msg' & r & Hres & Htr)];
               try discriminate Hres
           end.
  all: intros [= <- <-]; cbn [trace]; try rewrite Htr; rewrite <- ?app_assoc;
    cbn [app].
  all: repeat split.
  all: try (intros Habs; exfalso; exact (app_cons_neq _ _ _ Habs)).
  all: try (intros _; eexists _, _; reflexivity).
  all: try (intros [[? ?]|?]; congruence).
  all: try (intros _; first [left; split; congruence | right; congruence]).
  all: try (intros _; eexists; split; [reflexivity|]; auto).
  all: try (intros Habs; congruence).
Qed.

Lemma extractBuild_container_always_stopped_witness :
  exists pre r,
    trace (snd (extractBuild (Fixtures.libEnv Fixtures.wasmMissing) "out"
                  Fixtures.config start))
    = (pre ++ [(Stop "3f9a21c0", r)])%list.
Proof.
  apply (extractBuild_container_always_stopped
           (Fixtures.libEnv Fixtures.wasmMissing) "out" Fixtures.config
           (fst (extractBuild (Fixtures.libEnv Fixtures.wasmMissing) "out"
                   Fixtures.config start))).
  - apply surjective_pairing.
  - vm_compute. left. reflexivity.
Defined.

Lemma extractBuild_needs_output_directory_witness :
  exists msg,
    fst (extractBuild Samples.lockedOutput "out" Fixtures.config start) = inl msg
    /\ (rmSync Samples.lockedOutput "out" = Some msg
        \/ mkdirSync Samples.lockedOutput "out" = Some msg).
Proof.
  destruct (extractBuild_needs_output_directory Samples.lockedOutput "out"
              Fixtures.config start _ _ (surjective_pairing _)) as (Hiff & Hmsg & _).
  apply Hmsg. apply Hiff. left. split; [reflexivity|discriminate].
Defined.

End LibMoreFacts.

Module BuildFacts.
Import Lib Props JsStringFacts.

Lemma string_of_uint_last (d : Decimal.uint) :
  d <> Decimal.Nil ->
  exists front c, NilEmpty.string_of_uint d = front ++ String c "" /\ isDigit c.
Proof.
  assert (Hstep : forall k d',
             isDigit k ->
             (d' <> Decimal.Nil ->
              exists front c,
                NilEmpty.string_of_uint d' = front ++ String c "" /\ isDigit c) ->
             exists front c,
               String k (NilEmpty.string_of_uint d') = front ++ String c "" /\ isDigit c).
  { intros k d' Hk IH. destruct (Decimal.uint_eq_dec d' Decimal.Nil) as [->|Hne].
    - exists "", k. split; [reflexivity|exact Hk].
    - destruct (IH Hne) as (front & c & -> & Hc).
      exists (String k front), c. split; [now rewrite append_cons|exact Hc]. }
  induction d as [|d IH|d IH|d IH|d IH|d IH|d IH|d IH|d IH|d IH|d IH]; intros Hne;
    [congruence|..]; cbn [NilEmpty.string_of_uint]; apply Hstep; try exact IH;
    unfold isDigit; cbn [In]; tauto.
Qed.

Lemma showZ_last (z : Z) :
  exists front c, showZ z = front ++ String c "" /\ isDigit c.
Proof.
  unfold showZ, NilZero.string_of_int, NilZero.string_of_uint.
  destruct (Z.to_int z) as [d|d]; destruct d eqn:Hd;
    try (exists "", "0"%char; split; [reflexivity|unfold isDigit; cbn [In]; tauto]);
    try (exists "-", "0"%char; split; [reflexivity|unfold isDigit; cbn [In]; tauto]).
  all: rewrite <- Hd;
    destruct (string_of_uint_last d) as (front & c & Hs & Hc); [congruence|];
    rewrite Hs.
  all: first [ now (exists front, c)
             | exists (String "-" front), c; split; [now rewrite append_cons|exact Hc] ].
Qed.

Lemma list_ascii_app (s t : string) :
  list_ascii_of_string (s ++ t) = (list_ascii_of_string s ++ list_ascii_of_string t)%list.
Proof.
  induction s as [|c s IH]; [now rewrite append_nil|].
  rewrite append_cons. cbn [list_ascii_of_string app]. now rewrite IH.
Qed.

Lemma last_two (x y : string) (a b a' b' : ascii) :
  x ++ String a (String b "") = y ++ String a' (String b' "") -> a = a' /\ b = b'.
Proof.
  intros H. apply (f_equal list_ascii_of_string) in H.
  rewrite !list_ascii_app in H. cbn [list_ascii_of_string] in H.
  change [a; b] with ([a] ++ [b])%list in H.
  change [a'; b'] with ([a'] ++ [b'])%list in H.
  rewrite !app_assoc in H. apply app_inj_tail in H as [H ->].
  apply app_inj_tail in H as [_ ->]. split; reflexivity.
Qed.

Lemma ends_app (s t : string) (c : ascii) :
  (exists p, t = p ++ String c "") -> exists p, s ++ t = p ++ String c "".
Proof. intros (p & ->). exists (s ++ p). now rewrite string_app_assoc. Qed.

(** The command line of [buildProject] ends with the fonts option
    exactly for a project with fonts. *)
Lemma buildCommand_fontsOption (pi : ProjectInfo) :
  endsWith (Build.buildCommand pi) (Build.fontsOption ++ dq) <-> fonts pi <> [].
Proof.
  unfold Build.buildCommand, endsWith. destruct (fonts pi) as [|f fs].
  - split; [|congruence]. intros (front & H). exfalso.
    destruct (showZ_last (displayHeight pi)) as (h & c & Hh & Hc).
    match type of H with
    | ?base ++ dq = _ =>
        assert (Hbase : exists p, base = p ++ String c "")
          by (repeat apply ends_app; eauto);
        destruct Hbase as (p & Hp); rewrite Hp in H
    end.
    change (Build.fontsOption ++ dq)
      with (" --fonts=/project/fonts.tx" ++ String "t" (String (ascii_of_nat 34) "")) in H.
    unfold dq in H. rewrite !string_app_assoc in H.
    rewrite append_cons, append_nil in H. rewrite <- string_app_assoc in H.
    apply last_two in H as [-> _].
    unfold isDigit in Hc. cbn [In] in Hc.
    repeat destruct Hc as [Hc|Hc]; try discriminate Hc; exact Hc.
  - split; [discriminate|]. intros _. eexists. rewrite string_app_assoc. reflexivity.
Qed.

End BuildFacts.

Module SetupFacts.
Import Lib Spec Props LibFacts.

(** A successful run of the font loop copied every font. *)
Lemma copyFontFiles_done (E : Env) (cid : string) (fs : list FontInfo) :
  forall st st',
    copyFontFiles E cid fs st = (inr tt, st') ->
    exists evs,
      trace st' = (trace st ++ evs)%list
      /\ Forall fontEvent evs
      /\ forall font, In font fs ->
           exists r, In (copyFont E cid font, r) evs /\ success r = true.
Proof.
  induction fs as [|font rest IH]; intros st st'.
  - cbn [copyFontFiles]. exec. intros [= <-]. exists []. rewrite app_nil_r.
    repeat split; [constructor|]. intros font [].
  - cbn [copyFontFiles]. exec.
    match goal with |- context [if negb (success ?r) then _ else _] =>
      destruct (success r) eqn:Hs end; cbn [negb]; [|discriminate].
    intros Hrun. apply IH in Hrun as (evs & Htr & Hall & Hcopied).
    cbn [trace] in Htr. rewrite <- !app_assoc in Htr. cbn [app] in Htr.
    eexists. split; [exact Htr|]. split.
    + constructor; [reflexivity|]. constructor; [reflexivity|]. exact Hall.
    + intros g [<-|Hg].
      * eexists. split; [right; left; reflexivity|exact Hs].
      * destruct (Hcopied g Hg) as (r & Hin & Hr). exists r. split; [|exact Hr].
        right. right. exact Hin.
Qed.

(** What a successful [updateBuildFiles] has done. *)
Lemma updateBuildFiles_done (E : Env) (pi : ProjectInfo) (cid : string) (st st' : Run) :
  updateBuildFiles E pi cid st = (inr tt, st') ->
  uiDir pi <> "" /\ existsSync E (uiDir pi) = true
  /\ exists r1 r2 r3 evs rstop,
       trace st'
       = (trace st ++ [(PrepareSrc cid, r1);
                       (CopyUiDir cid (path_resolve E (uiDir pi)), r2);
                       (TouchSources cid, r3)] ++ evs ++ [(Stop cid, rstop)])%list
       /\ success r2 = true
       /\ Forall fontEvent evs
       /\ (fonts pi = [] -> evs = [])
       /\ (forall font, In font (fonts pi) ->
             exists r, In (copyFont E cid font, r) evs /\ success r = true)
       /\ (fonts pi <> [] ->
             exists r, In (WriteManifest cid (manifest E (fonts pi)), r) evs).
Proof.
  unfold updateBuildFiles. exec.
  destruct (JsString.falsy (uiDir pi)) eqn:Hui; [discriminate|].
  destruct (existsSync E (uiDir pi)) eqn:Hex; cbn [negb]; [|discriminate].
  match goal with |- context [if negb (success ?r) then _ else _] =>
    destruct (success r) eqn:Hcopy end; cbn [negb]; [|discriminate].
  assert (Hne : uiDir pi <> "") by (intros Heq; rewrite Heq in Hui; discriminate).
  destruct (fonts pi) as [|f fs] eqn:Hfonts.
  - intros [= <-]. cbn [trace]. split; [exact Hne|]. split; [reflexivity|].
    eexists _, _, _, [], _. rewrite <- !app_assoc. cbn [app].
    split; [reflexivity|]. split; [exact Hcopy|]. split; [constructor|].
    split; [reflexivity|]. split; [intros font []|congruence].
  - match goal with |- context [copyFontFiles ?E ?c ?l ?s] =>
      destruct (copyFontFiles E c l s) as [[msg|[]] st1] eqn:Hcf end;
      [discriminate|].
    apply copyFontFiles_done in Hcf as (evs & Htr & Hall & Hcopied).
    cbn [trace] in Htr. intros [= <-]. cbn [trace]. rewrite Htr.
    split; [exact Hne|]. split; [reflexivity|].
    eexists _, _, _, ((MkdirFonts cid, _) :: evs ++ [(WriteManifest cid _, _)])%list, _.
    rewrite <- !app_assoc. cbn [app]. rewrite <- !app_assoc. cbn [app].
    split; [reflexivity|]. split; [exact Hcopy|]. split.
    { constructor; [reflexivity|]. apply Forall_app_2; [exact Hall|].
      constructor; [reflexivity|constructor]. }
    split; [discriminate|]. split.
    + intros font Hin. destruct (Hcopied font Hin) as (r & Hr & Hs).
      exists r. split; [|exact Hs]. right. apply in_or_app. now left.
    + intros _. eexists. right. apply in_or_app. right. left. reflexivity.
Qed.

(** Runs [setupProject] symbolically down to a successful
    [updateBuildFiles], described by [Hdone]. *)
Ltac run_setup_ok :=
  unfold setupProject, createTempContainer, start; exec;
  repeat (branch; exec);
  try (intros [= ]; fail);
  let H := fresh "H" in
  intros H;
  apply updateBuildFiles_done in H
    as (Hne & Hex & r1 & r2 & r3 & evs & rstop & Htr & Hcopy & Hall & Hnone
        & Hcopied & Hmanifest);
  cbn [trace logs] in Htr; rewrite Htr.

(** X10: a run of [setupProject] that succeeds has built the image,
    emptied /project/src in a helper container it created and then
    copied the project's UI directory, which exists, into that same
    container, with success. *)
Theorem setupProject_copies_sources (E : Env) (pi : ProjectInfo)
    (cfg : BuildConfig) (st : Run) :
  setupProject E pi cfg start = (inr tt, st) ->
  uiDir pi <> "" /\ existsSync E (uiDir pi) = true
  /\ exists cid pre r1 r2 r3 post,
       trace st
       = (pre ++ [(PrepareSrc cid, r1);
                  (CopyUiDir cid (path_resolve E (uiDir pi)), r2);
                  (TouchSources cid, r3)] ++ post)%list
       /\ success r2 = true
       /\ In cid (createdContainers pre)
       /\ exists r0, In (ComposeBuild, r0) pre /\ success r0 = true.
Proof.
  run_setup_ok.
  all: split; [exact Hne|]; split; [exact Hex|].
  all: eexists _, _, r1, r2, r3, _; split; [reflexivity|]; split; [exact Hcopy|].
  all: cbn [createdContainers flat_map app]; use_facts; cbn [andb negb app In].
  all: split; [tauto|]; eexists; split; [left; reflexivity|assumption].
Qed.

(** X11: a run of [setupProject] that succeeds has copied every font
    of the project into the container, each with success, and, when
    there is at least one font, has written the manifest that lists
    their target paths in the order of the project. *)
Theorem setupProject_copies_fonts (E : Env) (pi : ProjectInfo)
    (cfg : BuildConfig) (st : Run) :
  setupProject E pi cfg start = (inr tt, st) ->
  (forall font, In font (fonts pi) ->
     exists cid r, In (copyFont E cid font, r) (trace st) /\ success r = true)
  /\ (fonts pi <> [] ->
      exists cid r, In (WriteManifest cid (manifest E (fonts pi)), r) (trace st)).
Proof.
  run_setup_ok.
  all: split;
    [ intros font Hin; destruct (Hcopied font Hin) as (r & Hr & Hs);
      eexists _, r; split; [|exact Hs]
    | intros Hfonts; destruct (Hmanifest Hfonts) as (r & Hr); eexists _, r ].
  all: apply in_or_app; right; cbn [app]; do 3 right; apply in_or_app; left; exact Hr.
Qed.

(** X12: the option [--fonts=/project/fonts.txt] closes the command
    line of [buildProject] exactly when a successful [setupProject] for
    the same project wrote /project/fonts.txt. *)
Theorem fonts_option_matches_manifest (E : Env) (pi : ProjectInfo)
    (cfg : BuildConfig) (st : Run) :
  setupProject E pi cfg start = (inr tt, st) ->
  (exists cid content r, In (WriteManifest cid content, r) (trace st))
  <-> endsWith (Build.buildCommand pi) (Build.fontsOption ++ dq).
Proof.
  intros Hrun. rewrite BuildFacts.buildCommand_fontsOption. revert Hrun.
  run_setup_ok.
  all: split;
    [ intros (c & content & r & Hin); intros Hfonts; specialize (Hnone Hfonts);
      subst evs; cbn [app] in Hin; mem Hin; discriminate
    | intros Hfonts; destruct (Hmanifest Hfonts) as (r & Hr); eexists _, _, r;
      apply in_or_app; right; cbn [app]; do 3 right; apply in_or_app; left; exact Hr ].
Qed.

Lemma setupProject_copies_sources_witness :
  uiDir Samples.demoInfo <> ""
  /\ existsSync (Fixtures.libEnv Fixtures.nothingFails) (uiDir Samples.demoInfo) = true
  /\ exists cid pre r1 r2 r3 post,
       trace (snd (setupProject (Fixtures.libEnv Fixtures.nothingFails)
                     Samples.demoInfo Fixtures.config start))
       = (pre ++ [(PrepareSrc cid, r1);
                  (CopyUiDir cid
                     (path_resolve (Fixtures.libEnv Fixtures.nothingFails)
                        (uiDir Samples.demoInfo)), r2);
                  (TouchSources cid, r3)] ++ post)%list
       /\ success r2 = true
       /\ In cid (createdContainers pre)
       /\ exists r0, In (ComposeBuild, r0) pre /\ success r0 = true.
Proof.
  apply (setupProject_copies_sources (Fixtures.libEnv Fixtures.nothingFails)
           Samples.demoInfo Fixtures.config).
  vm_compute. reflexivity.
Defined.

Lemma setupProject_copies_fonts_witness :
  exists cid r,
    In (WriteManifest cid (manifest (Fixtures.libEnv Fixtures.nothingFails)
                             (fonts Samples.demoInfo)), r)
      (trace (snd (setupProject (Fixtures.libEnv Fixtures.nothingFails)
                     Samples.demoInfo Fixtures.config start))).
Proof.
  apply (setupProject_copies_fonts (Fixtures.libEnv Fixtures.nothingFails)
           Samples.demoInfo Fixtures.config).
  - vm_compute. reflexivity.
  - discriminate.
Defined.

Lemma fonts_option_matches_manifest_witness :
  (exists cid content r,
      In (WriteManifest cid content, r)
        (trace (snd (setupProject (Fixtures.libEnv Fixtures.nothingFails)
                       Samples.demoInfo Fixtures.config start))))
  <-> endsWith (Build.buildCommand Samples.demoInfo) (Build.fontsOption ++ dq).
Proof.
  apply (fonts_option_matches_manifest (Fixtures.libEnv Fixtures.nothingFails)
           Samples.demoInfo Fixtures.config).
  vm_compute. reflexivity.
Defined.

End SetupFacts.

Module CliFacts.
Import Cli Props.

Lemma parseOptions_spec (args : list string) :
  parseOptions args
  = (given "--clean-build" args, given "--clean-all" args, positional args).
Proof.
  induction args as [|arg rest IH]; [reflexivity|].
  cbn [parseOptions]. rewrite IH. unfold given, positional.
  cbn [existsb List.filter].
  rewrite (String.eqb_sym "--clean-build" arg), (String.eqb_sym "--clean-all" arg).
  destruct (String.eqb_spec arg "--clean-build") as [->|Hb]; [reflexivity|].
  destruct (String.eqb arg "--clean-all"); reflexivity.
Qed.

(** Opens [main] at the outcome of each library call. *)
Ltac run_main W :=
  unfold main; rewrite parseOptions_spec;
  repeat match goal with
         | |- context [given ?o ?a] => destruct (given o a) eqn:?
         end;
  cbn [orb andb negb];
  repeat match goal with
         | |- context [(List.length ?l =? ?n)%nat] =>
             destruct (Nat.eqb_spec (List.length l) n); cbn [orb andb negb]
         end;
  try match goal with
      | |- context [Build.checkDocker ?E ?s] =>
          destruct (Build.checkDocker E s) as [[|] ?bst] eqn:?; cbn [negb]
      end;
  try match goal with
      | |- context [Build.cleanAll ?E ?c ?s] =>
          destruct (Build.cleanAll E c s) as [[?msg|[]] ?bst] eqn:?
      end;
  try match goal with
      | |- context [Build.cleanBuild ?E ?c ?s] =>
          destruct (Build.cleanBuild E c s) as [[?msg|[]] ?bst] eqn:?
      end;
  unfold buildFlow;
  try match goal with
      | |- context [Project.readProjectFile ?E ?p] =>
          destruct (Project.readProjectFile E p) as [[?msg|?info|?name ?info] ?lines] eqn:?
      end;
  try match goal with
      | |- context [Lib.setupProject ?E ?i ?c ?s] =>
          destruct (Lib.setupProject E i c s) as [[?msg|[]] ?st] eqn:?
      end;
  try match goal with
      | |- context [Build.buildProject ?E ?i ?c ?s] =>
          destruct (Build.buildProject E i c s) as [[?msg|[]] ?bst] eqn:?
      end;
  try match goal with
      | |- context [Lib.extractBuild ?E ?o ?c ?s] =>
          destruct (Lib.extractBuild E o c s) as [[?msg|[]] ?st] eqn:?
      end.

(** X13: [main] ends with a usage message and exit code 1, before it
    calls anything, exactly when a clean option comes with another
    argument or, without a clean option, the other arguments are not
    exactly two; the options are recognised at any position. *)
Theorem main_usage_errors (W : World) (args : list string) :
  let clean := given "--clean-build" args || given "--clean-all" args in
  let misuse :=
    (clean && negb (List.length (positional args) =? 0)%nat)
    || (negb clean && negb (List.length (positional args) =? 2)%nat) in
  (misuse = true ->
   exists lines,
     lines <> []
     /\ main W args
        = Some {| ending := ProcessExit 1; called := []; usage := lines; console := [];
                  libTrace := []; buildTrace := [] |})
  /\ (misuse = false ->
      forall r, main W args = Some r ->
        hd_error (called r) = Some CheckDocker /\ usage r = []).
Proof.
  cbv zeta. run_main W; cbn [orb andb negb].
  all: split; intros Hm; try discriminate Hm.
  all: try (eexists; split; [|reflexivity]; discriminate).
  all: intros r [= <-]; split; reflexivity.
Qed.

(** Each of [cleanAll], [cleanBuild] and [buildProject] spawns one
    command and throws exactly when it fails. *)
Ltac one_command :=
  unfold Build.cleanAll, Build.cleanBuild, Build.buildProject, Build.runCommand;
  cbn [Build.trace Build.log Build.logs];
  match goal with
  | |- context [negb (Lib.success ?r)] => exists r; destruct (Lib.success r)
  end;
  cbn [negb fst snd Build.trace Build.log];
  repeat split; first [reflexivity | discriminate].

Lemma cleanAll_one (E : Build.Docker) (cfg : Lib.BuildConfig) (st : Build.Session) :
  exists r,
    Build.trace (snd (Build.cleanAll E cfg st)) = (Build.trace st ++ [(Build.RemoveAll, r)])%list
    /\ (fst (Build.cleanAll E cfg st) = inr tt <-> Lib.success r = true)
    /\ (fst (Build.cleanAll E cfg st) = inl "Clean all failed" <-> Lib.success r = false).
Proof.
  one_command.
Qed.

Lemma cleanBuild_one (E : Build.Docker) (cfg : Lib.BuildConfig) (st : Build.Session) :
  exists r,
    Build.trace (snd (Build.cleanBuild E cfg st))
    = (Build.trace st ++ [(Build.RemoveBuildDir, r)])%list
    /\ (fst (Build.cleanBuild E cfg st) = inr tt <-> Lib.success r = true)
    /\ (fst (Build.cleanBuild E cfg st) = inl "Clean build failed"
        <-> Lib.success r = false).
Proof.
  one_command.
Qed.

Lemma buildProject_one (E : Build.Docker) (pi : Lib.ProjectInfo) (cfg : Lib.BuildConfig)
    (st : Build.Session) :
  exists r,
    Build.trace (snd (Build.buildProject E pi cfg st))
    = (Build.trace st ++ [(Build.RunBuildSh (Build.buildCommand pi), r)])%list
    /\ (fst (Build.buildProject E pi cfg st) = inr tt <-> Lib.success r = true)
    /\ (fst (Build.buildProject E pi cfg st) = inl "Build failed"
        <-> Lib.success r = false).
Proof.
  one_command.
Qed.

Lemma checkDocker_ready (E : Build.Docker) (st : Build.Session) :
  fst (Build.checkDocker E st) = dockerReady E
  /\ Build.trace (snd (Build.checkDocker E st)) = Build.trace st.
Proof.
  unfold Build.checkDocker, dockerReady.
  destruct (Build.dockerVersionStatus E) as [[| |]|];
    destruct (Build.dockerPsStatus E) as [[| |]|]; split; reflexivity.
Qed.

(** X14: with a clean option and no other argument [main] reads no
    project and runs neither setup, build nor extraction. When Docker
    is not ready it runs nothing and ends with exit code 1. When
    Docker is ready it runs exactly one command, the removal of
    [cleanAll] whenever [--clean-all] is given, also beside
    [--clean-build], and that of [cleanBuild] otherwise; it ends
    normally exactly when that command succeeded, and with exit code 1
    otherwise. *)
Theorem main_clean_runs_one_removal (W : World) (args : list string) :
  given "--clean-build" args || given "--clean-all" args = true ->
  positional args = [] ->
  let stage := if given "--clean-all" args then CleanAll else CleanBuild in
  let removal :=
    if given "--clean-all" args then Build.RemoveAll else Build.RemoveBuildDir in
  exists r,
    main W args = Some r
    /\ libTrace r = []
    /\ (dockerReady (build W) = false ->
        called r = [CheckDocker] /\ buildTrace r = []
        /\ ending r = ProcessExit 1)
    /\ (dockerReady (build W) = true ->
        called r = [CheckDocker; stage]
        /\ buildTrace r = [(removal, Build.respond (build W) [] removal)]
        /\ (ending r = Return
            <-> Lib.success (Build.respond (build W) [] removal) = true)
        /\ (ending r = ProcessExit 1
            <-> Lib.success (Build.respond (build W) [] removal) = false)).
Proof.
  intros Hflag Hpos. cbv zeta. unfold main.
  rewrite parseOptions_spec, Hpos, Hflag. cbn [andb negb List.length Nat.eqb].
  match goal with
  | |- context [Build.checkDocker ?E ?s] =>
      destruct (checkDocker_ready E s) as [Hr Ht];
      destruct (Build.checkDocker E s) as [ready bst]
  end.
  cbn [fst snd] in Hr, Ht. rewrite <- Hr. clear Hr.
  destruct ready; cbn [negb].
  2: { eexists. split; [reflexivity|]. cbn [libTrace called buildTrace ending].
       repeat split; discriminate. }
  destruct (given "--clean-all" args) eqn:Hall.
  - unfold Build.cleanAll, Build.runCommand.
    cbn [Build.trace Build.log Build.logs].
    destruct (Lib.success (Build.respond (build W) [] Build.RemoveAll)) eqn:Hs;
      cbn [negb]; eexists; (split; [reflexivity|]); unfold caught;
      cbn [libTrace called buildTrace ending Build.trace app];
      (split; [reflexivity|]); (split; [discriminate|]); intros _;
      repeat split; intros; first [reflexivity | discriminate | congruence].
  - cbn [orb] in Hflag. rewrite orb_false_r in Hflag. rewrite Hflag.
    unfold Build.cleanBuild, Build.runCommand.
    cbn [Build.trace Build.log Build.logs].
    destruct (Lib.success (Build.respond (build W) [] Build.RemoveBuildDir)) eqn:Hs;
      cbn [negb]; eexists; (split; [reflexivity|]); unfold caught;
      cbn [libTrace called buildTrace ending Build.trace app];
      (split; [reflexivity|]); (split; [discriminate|]); intros _;
      repeat split; intros; first [reflexivity | discriminate | congruence].
Qed.

(** X15: without a clean option [main] runs the stages in the order
    Docker check, project file, setup, build, extraction and stops at
    the first one that fails: the project is read only when Docker is
    ready, setup runs only on a project that was read, the build runs
    only after a setup that succeeded, extraction only after a build
    command that succeeded, and [main] ends normally only when all
    five stages ran; in every other case it ends with exit code 1. *)
Theorem main_stops_at_first_failure (W : World) (args : list string) (r : Result) :
  given "--clean-build" args || given "--clean-all" args = false ->
  main W args = Some r ->
  (exists k, called r = firstn k buildStages)
  /\ (ending r = Return \/ ending r = ProcessExit 1)
  /\ (ending r = Return -> called r = buildStages)
  /\ (In ReadProjectFile (called r) ->
      Build.dockerVersionStatus (build W) = Some 0%Z
      /\ Build.dockerPsStatus (build W) = Some 0%Z)
  /\ (In SetupProject (called r) ->
      exists info lines,
        Project.readProjectFile (project W) (nth 0 (positional args) "")
        = (Project.Returned info, lines))
  /\ (In BuildProject (called r) ->
      exists info logs0 st,
        Lib.setupProject (lib W) info (cliConfig W) {| Lib.trace := []; Lib.logs := logs0 |}
        = (inr tt, st))
  /\ (In ExtractBuild (called r) ->
      exists info result,
        buildTrace r = [(Build.RunBuildSh (Build.buildCommand info), result)]
        /\ Lib.success result = true)
  /\ (~ In SetupProject (called r) -> libTrace r = [])
  /\ (~ In BuildProject (called r) -> buildTrace r = []).
Proof.
  assert (Hdocker : forall st bst,
             Build.checkDocker (build W) st = (true, bst) ->
             Build.dockerVersionStatus (build W) = Some 0%Z
             /\ Build.dockerPsStatus (build W) = Some 0%Z).
  { intros st bst. unfold Build.checkDocker.
    destruct (Build.dockerVersionStatus (build W)) as [[| |]|]; try discriminate.
    destruct (Build.dockerPsStatus (build W)) as [[| |]|]; try discriminate.
    intros _. split; reflexivity. }
  run_main W; cbn [orb]; intros Hflag; try discriminate Hflag.
  all: intros [= <-]; unfold caught; cbn [libTrace called buildTrace ending app].
  all: try match goal with
           | H : Build.buildProject ?E ?i ?c ?s = _ |- _ =>
               destruct (buildProject_one E i c s) as (res & Htr & Hok & Hno);
               rewrite H in Htr, Hok, Hno; cbn [fst snd Build.trace app] in Htr, Hok, Hno;
               rewrite Htr
           end.
  all: split; [first [ exists 0%nat; reflexivity | exists 1%nat; reflexivity
                     | exists 2%nat; reflexivity | exists 3%nat; reflexivity
                     | exists 4%nat; reflexivity | exists 5%nat; reflexivity ]|].
  all: split; [first [left; reflexivity | right; reflexivity]|].
  all: split; [first [discriminate | reflexivity]|].
  all: repeat split.
  all: try (intros Hin; cbn [In] in Hin; exfalso;
            repeat destruct Hin as [Hin|Hin]; try discriminate Hin; exact Hin).
  all: try (intros _; eapply Hdocker; eassumption).
  all: try (intros _; eexists _, _; reflexivity).
  all: try (intros _; eexists _, _, _; eassumption).
  all: try (intros _; eexists _, _; split; [reflexivity|]; now apply Hok).
  all: try (intros Hnot; exfalso; apply Hnot; cbn [In]; tauto).
  all: try reflexivity.
  all: try (match goal with
            | H : In _ _ |- _ =>
                cbn [In] in H; exfalso;
                repeat destruct H as [H|H]; try discriminate H; exact H
            end).
  all: match goal with
       | H : Build.checkDocker _ _ = (true, _) |- _ =>
           destruct (Hdocker _ _ H) as [Hv Hp]
       end; first [exact Hv | exact Hp].
Qed.

Lemma main_clean_runs_one_removal_witness :
  libTrace (Samples.run ["--clean-build"; "--clean-all"]) = []
  /\ buildTrace (Samples.run ["--clean-build"; "--clean-all"])
     = [(Build.RemoveAll, Fixtures.done)]
  /\ ending (Samples.run ["--clean-build"; "--clean-all"]) = Return.
Proof.
  destruct (main_clean_runs_one_removal Samples.world ["--clean-build"; "--clean-all"]
              eq_refl eq_refl)
    as (r & Hr & Hlib & _ & Hready).
  assert (Samples.run ["--clean-build"; "--clean-all"] = r) as <-.
  { unfold Samples.run. now rewrite Hr. }
  destruct (Hready eq_refl) as (_ & Htrace & Hend & _).
  split; [exact Hlib|]. split; [exact Htrace|]. apply Hend. reflexivity.
Defined.

Lemma main_stops_at_first_failure_witness :
  called (Samples.run [Samples.projectFile; "out"]) = buildStages.
Proof.
  destruct (main_stops_at_first_failure Samples.world [Samples.projectFile; "out"]
              (Samples.run [Samples.projectFile; "out"]))
    as (_ & _ & Hall & _).
  - reflexivity.
  - vm_compute. reflexivity.
  - apply Hall. reflexivity.
Defined.

End CliFacts.

Module MainMoreFacts.
Import Main.

#[local] Set Warnings "-clear-no-such-hyp".

(** X16: the timer armed by ['abort-operation'] acts on whatever
    command is current when it fires: a command started after the
    abort, and before the timer fires, is sent SIGKILL although it was
    never aborted. *)
Theorem abort_timer_kills_next_command (s : Supervisor) (p q : nat) :
  currentDockerProcess s = Some p ->
  children (fire_timer (runDockerCommand q (fst (abort_operation s)))) !! q
  = Some {| killed := true; exited := false; signals := [SIGKILL] |}.
Proof.
  intros Hcur. unfold abort_operation. rewrite Hcur. cbn [fst].
  unfold fire_timer, runDockerCommand, set_current, setTimeout.
  cbn [timers currentDockerProcess children resolved].
  destruct (timers (kill p SIGTERM s) ++ [1000%Z])%list as [|t rest] eqn:Ht.
  { destruct (timers (kill p SIGTERM s)); discriminate Ht. }
  unfold abort_timeout. cbn [currentDockerProcess children].
  rewrite lookup_insert_eq. cbn [killed negb].
  unfold kill. cbn [children]. rewrite lookup_insert_eq. cbn [exited children signals].
  rewrite lookup_insert_eq. reflexivity.
Qed.

Lemma findAvailablePort_fuel_sound (n : Net) (fuel : nat) :
  forall startPort r n',
    (1 <= startPort)%Z ->
    findAvailablePort_fuel fuel startPort n = Some (r, n') ->
    n' = n
    /\ match r with
       | Resolved port =>
           (startPort <= port <= 65535)%Z
           /\ (port ∉ occupied n ∪ probes n)
           /\ forall q, (startPort <= q < port)%Z -> q ∈ (occupied n ∪ probes n)
       | Rejected =>
           forall q, (startPort <= q <= 65535)%Z -> q ∈ (occupied n ∪ probes n)
       end.
Proof.
  assert (Hlisten : forall s, (1 <= s)%Z ->
             match listen s n with
             | Listening port m =>
                 port = s /\ (s <= 65535)%Z /\ (s ∉ occupied n ∪ probes n)
                 /\ close port m = n
             | ErrorEvent => (s <= 65535)%Z /\ s ∈ (occupied n ∪ probes n)
             | RangeError => (65535 < s)%Z
             end).
  { intros s Hs. unfold listen.
    destruct (Z.ltb_spec s 0); [lia|]. destruct (Z.ltb_spec 65535 s); cbn [orb]; [lia|].
    destruct (Z.eqb_spec s 0); [lia|].
    destruct (decide (s ∈ (occupied n ∪ probes n))) as [Hin|Hout]; [split; [lia|exact Hin]|].
    split; [reflexivity|]. split; [lia|]. split; [exact Hout|].
    unfold close. cbn [occupied ephemeral probes].
    destruct n as [o e pr]. cbn in *. f_equal. set_solver. }
  induction fuel as [|fuel IH]; intros startPort r n' Hs;
    cbn [findAvailablePort_fuel]; specialize (Hlisten startPort Hs);
    destruct (listen startPort n) as [port m| |]; try discriminate.
  - intros [= <- <-]. destruct Hlisten as (-> & Hle & Hout & Hclose).
    split; [exact Hclose|]. split; [lia|]. split; [exact Hout|]. intros q Hq. lia.
  - intros [= <- <-]. split; [reflexivity|]. intros q Hq. lia.
  - intros [= <- <-]. destruct Hlisten as (-> & Hle & Hout & Hclose).
    split; [exact Hclose|]. split; [lia|]. split; [exact Hout|]. intros q Hq. lia.
  - intros Hrun. destruct Hlisten as (Hle & Hin).
    apply IH in Hrun as (-> & Hr); [|lia]. split; [reflexivity|].
    destruct r as [port|].
    + destruct Hr as (Hrange & Hout & Hbusy). split; [lia|]. split; [exact Hout|].
      intros q Hq. destruct (Z.eq_dec q startPort) as [->|Hne]; [exact Hin|].
      apply Hbusy. lia.
    + intros q Hq. destruct (Z.eq_dec q startPort) as [->|Hne]; [exact Hin|].
      apply Hr. lia.
  - intros [= <- <-]. split; [reflexivity|]. intros q Hq. lia.
Qed.

(** X17: a port [findAvailablePort] resolves with is free, lies
    between the start port and 65535, and every port from the start
    port up to it is taken; the promise is rejected only when no port
    from the start port to 65535 is free; in both cases the probing
    listener has been closed again, so that no port stays held. *)
Theorem findAvailablePort_sound (n : Net) (startPort : Z) (r : Settled) (n' : Net) :
  (1 <= startPort)%Z ->
  findAvailablePort startPort n = Some (r, n') ->
  n' = n
  /\ match r with
     | Resolved port =>
         (startPort <= port <= 65535)%Z
         /\ (port ∉ occupied n ∪ probes n)
         /\ forall q, (startPort <= q < port)%Z -> q ∈ (occupied n ∪ probes n)
     | Rejected =>
         forall q, (startPort <= q <= 65535)%Z -> q ∈ (occupied n ∪ probes n)
     end.
Proof. intros Hs. apply findAvailablePort_fuel_sound. exact Hs. Qed.

Lemma abort_timer_kills_next_command_witness :
  children (fire_timer (runDockerCommand 2 (fst (abort_operation (Fixtures.running 1)))))
    !! 2%nat
  = Some {| killed := true; exited := false; signals := [SIGKILL] |}.
Proof.
  apply (abort_timer_kills_next_command (Fixtures.running 1) 1 2). reflexivity.
Defined.

Lemma findAvailablePort_sound_witness :
  (3000 <= 3002 <= 65535)%Z
  /\ (3002%Z ∉ occupied Fixtures.busyNet ∪ probes Fixtures.busyNet)
  /\ forall q, (3000 <= q < 3002)%Z ->
       q ∈ (occupied Fixtures.busyNet ∪ probes Fixtures.busyNet).
Proof.
  apply (findAvailablePort_sound Fixtures.busyNet 3000 (Resolved 3002) Fixtures.busyNet).
  - lia.
  - unfold findAvailablePort.
    apply (MainFacts.findAvailablePort_fuel_first_free Fixtures.busyNet 3002)
      with (k := 2%nat).
    + lia.
    + vm_compute. set_solver.
    + set_solver.
    + lia.
    + reflexivity.
    + apply Nat.leb_le. vm_compute. reflexivity.
    + intros q Hq. assert (q = 3000 \/ q = 3001)%Z as [->| ->] by lia; set_solver.
Defined.

End MainMoreFacts.

Module RendererMoreFacts.
Import Renderer Props RendererFacts.

(** X20: loading a project file other than the current one resets the
    workflow whatever the main process reports about the volume: no
    stage is complete, no test runs, the change notice is withdrawn
    and the three badges are pending; loading the current file again,
    or a first file, takes the setup and build flags from the report. *)
Theorem loadProject_resets_on_other_project (path : string) (result : ReadResult)
    (s : State) :
  rr_success result = true ->
  let s' := loadProject path result s in
  let other :=
    match projectPath s with
    | Some p => negb (JsString.falsy p) && negb (String.eqb p path)
    | None => false
    end in
  projectPath s' = Some path /\ projectInfo s' = Some result
  /\ testRunning s' = false /\ fileChangedSinceSetup s' = false
  /\ notificationShown s' = false
  /\ (other = true ->
      setupComplete s' = false /\ buildComplete s' = false
      /\ setupBadge s' = pending /\ buildBadge s' = pending /\ testBadge s' = pending)
  /\ (other = false ->
      setupComplete s' = orFalse (rr_setupComplete result)
      /\ buildComplete s' = orFalse (rr_buildComplete result)).
Proof.
  intros Hok. cbv zeta. unfold loadProject, loadProject_begin.
  destruct result as [ok ? ? [[]|] [[]|] ?]; cbn [rr_success] in Hok; subst ok.
  all: destruct s as [pp pinfo sc bc tr opr ? ? ? ? ? ? ? ? ? ?];
    cbn [projectPath];
    match goal with
    | |- context [match pp with _ => _ end] =>
        destruct (match pp with
                  | Some p => negb (JsString.falsy p) && negb (String.eqb p path)
                  | None => false
                  end)
    end;
    destruct pinfo, tr, opr; eval_state;
    repeat split; intros; first [reflexivity | discriminate].
Qed.

Lemma loadProject_resets_on_other_project_witness :
  setupComplete (loadProject "other.eez-project" Fixtures.demoRead Fixtures.afterSetup)
  = false
  /\ setupBadge (loadProject "other.eez-project" Fixtures.demoRead Fixtures.afterSetup)
     = pending.
Proof.
  pose proof (loadProject_resets_on_other_project "other.eez-project" Fixtures.demoRead
                Fixtures.afterSetup eq_refl) as H.
  cbv zeta in H. destruct H as (_ & _ & _ & _ & _ & Hother & _).
  destruct (Hother eq_refl) as (Hs & _ & Hb & _). split; [exact Hs|exact Hb].
Defined.

End RendererMoreFacts.

Module BuildShFacts.
Import BuildSh Props JsStringFacts.

Lemma prefix_inv (p s : string) : String.prefix p s = true -> exists v, s = p ++ v.
Proof. intros H. apply prefix_drop in H. eauto. Qed.

Lemma afterEquals_lvgl (v : string) : afterEquals ("--lvgl=" ++ v) = v.
Proof. sapp. reflexivity. Qed.

Lemma afterEquals_width (v : string) : afterEquals ("--display-width=" ++ v) = v.
Proof. sapp. reflexivity. Qed.

Lemma afterEquals_height (v : string) : afterEquals ("--display-height=" ++ v) = v.
Proof. sapp. reflexivity. Qed.

Lemma prefix_other (v : string) :
  String.prefix "--lvgl=" ("--display-width=" ++ v) = false
  /\ String.prefix "--lvgl=" ("--display-height=" ++ v) = false
  /\ String.prefix "--display-width=" ("--lvgl=" ++ v) = false
  /\ String.prefix "--display-width=" ("--display-height=" ++ v) = false
  /\ String.prefix "--display-height=" ("--lvgl=" ++ v) = false
  /\ String.prefix "--display-height=" ("--display-width=" ++ v) = false.
Proof. sapp. repeat split; reflexivity. Qed.

(** The loop stops at the first argument it does not know. *)
Lemma parse_unknown (pre post : list string) (arg : string) :
  forall o,
    forallb known pre = true -> known arg = false ->
    parse (pre ++ arg :: post) o = Exit1 ["Unknown option: " ++ arg].
Proof.
  induction pre as [|a pre IH]; intros o Hpre Harg.
  - cbn [app parse]. unfold known in Harg.
    apply orb_false_elim in Harg as [Harg H3]. apply orb_false_elim in Harg as [H1 H2].
    now rewrite H1, H2, H3.
  - cbn [forallb] in Hpre. apply andb_prop in Hpre as [Ha Hpre].
    cbn [app parse]. unfold known in Ha.
    destruct (String.prefix "--lvgl=" a); [now apply IH|].
    destruct (String.prefix "--display-width=" a); [now apply IH|].
    destruct (String.prefix "--display-height=" a); [now apply IH|discriminate].
Qed.

(** An option that is not given keeps its value. *)
Lemma parse_keeps (post : list string) :
  forall o o',
    parse post o = Go o' ->
    (forallb (fun a => negb (String.prefix "--lvgl=" a)) post = true ->
     LVGL_VERSION o' = LVGL_VERSION o)
    /\ (forallb (fun a => negb (String.prefix "--display-width=" a)) post = true ->
        DISPLAY_WIDTH o' = DISPLAY_WIDTH o)
    /\ (forallb (fun a => negb (String.prefix "--display-height=" a)) post = true ->
        DISPLAY_HEIGHT o' = DISPLAY_HEIGHT o).
Proof.
  induction post as [|a post IH]; intros o o'.
  - intros [= <-]. repeat split; reflexivity.
  - cbn [parse forallb].
    destruct (String.prefix "--lvgl=" a) eqn:H1.
    { apply prefix_inv in H1 as (w & ->).
      destruct (prefix_other w) as (_ & _ & -> & _ & -> & _).
      intros Hrun. apply IH in Hrun as (_ & Hw & Hh). cbn in Hw, Hh.
      repeat split; [discriminate|exact Hw|exact Hh]. }
    destruct (String.prefix "--display-width=" a) eqn:H2.
    { apply prefix_inv in H2 as (w & ->).
      destruct (prefix_other w) as (_ & _ & _ & _ & _ & ->).
      intros Hrun. apply IH in Hrun as (Hl & _ & Hh). cbn in Hl, Hh.
      repeat split; [exact Hl|discriminate|exact Hh]. }
    destruct (String.prefix "--display-height=" a) eqn:H3; [|discriminate].
    intros Hrun. apply IH in Hrun as (Hl & Hw & _). cbn in Hl, Hw.
    repeat split; [exact Hl|exact Hw|discriminate].
Qed.

(** The loop keeps, for each option, the value given last. *)
Lemma parse_last (pre post : list string) (p v : string) :
  forall o o',
    parse (pre ++ (p ++ v) :: post) o = Go o' ->
    forallb (fun a => negb (String.prefix p a)) post = true ->
    (p = "--lvgl=" -> LVGL_VERSION o' = v)
    /\ (p = "--display-width=" -> DISPLAY_WIDTH o' = v)
    /\ (p = "--display-height=" -> DISPLAY_HEIGHT o' = v).
Proof.
  induction pre as [|a pre IH]; intros o o'.
  - cbn [app parse]. intros Hrun Hnone.
    destruct (prefix_other v) as (E1 & E2 & E3 & E4 & E5 & E6).
    repeat split; intros ->.
    + rewrite prefix_app, afterEquals_lvgl in Hrun.
      apply parse_keeps in Hrun as (Hl & _). now rewrite (Hl Hnone).
    + rewrite E1, prefix_app, afterEquals_width in Hrun.
      apply parse_keeps in Hrun as (_ & Hw & _). now rewrite (Hw Hnone).
    + rewrite E2, E4, prefix_app, afterEquals_height in Hrun.
      apply parse_keeps in Hrun as (_ & _ & Hh). now rewrite (Hh Hnone).
  - cbn [app parse].
    destruct (String.prefix "--lvgl=" a); [apply IH|].
    destruct (String.prefix "--display-width=" a); [apply IH|].
    destruct (String.prefix "--display-height=" a); [apply IH|discriminate].
Qed.

Lemma parse_go (args : list string) :
  forall o o', parse args o = Go o' -> forallb known args = true.
Proof.
  induction args as [|a args IH]; intros o o'; [reflexivity|].
  cbn [parse forallb]. unfold known at 1.
  destruct (String.prefix "--lvgl=" a); [apply IH|].
  destruct (String.prefix "--display-width=" a); [apply IH|].
  destruct (String.prefix "--display-height=" a); [apply IH|discriminate].
Qed.

(** X21: scripts/build.sh goes on past its argument handling only
    when every argument starts with [--lvgl=], [--display-width=] or
    [--display-height=] and the LVGL version it ends up with is not
    empty; each value is the one given last; the first argument of any
    other form ends the script with "Unknown option" and exit code 1,
    whatever follows it. *)
Theorem build_sh_arguments (args : list string) :
  (forall o, arguments args = Go o ->
     forallb known args = true /\ LVGL_VERSION o <> ""
     /\ forall (pre : list string) (p v : string) (post : list string),
          args = (pre ++ (p ++ v)%string :: post)%list ->
          forallb (fun a => negb (String.prefix p a)) post = true ->
          (p = "--lvgl=" -> LVGL_VERSION o = v)
          /\ (p = "--display-width=" -> DISPLAY_WIDTH o = v)
          /\ (p = "--display-height=" -> DISPLAY_HEIGHT o = v))
  /\ (forall (pre : list string) (arg : string) (post : list string),
        args = (pre ++ arg :: post)%list ->
        forallb known pre = true -> known arg = false ->
        arguments args = Exit1 ["Unknown option: " ++ arg])
  /\ (forallb (fun a => negb (String.prefix "--lvgl=" a)) args = true ->
      exists printed, arguments args = Exit1 printed).
Proof.
  unfold arguments. repeat split.
  - destruct (parse args _) as [printed|o'] eqn:Hrun; [discriminate|].
    now apply parse_go in Hrun.
  - destruct (parse args _) as [printed|o'] eqn:Hrun; [discriminate|].
    destruct (String.eqb_spec (LVGL_VERSION o') ""); [discriminate|].
    injection H as H. subst o'. assumption.
  - destruct (parse args _) as [printed|o'] eqn:Hrun; [discriminate|].
    destruct (String.eqb (LVGL_VERSION o') ""); [discriminate|].
    injection H as H. subst o' args. eapply parse_last; eassumption.
  - destruct (parse args _) as [printed|o'] eqn:Hrun; [discriminate|].
    destruct (String.eqb (LVGL_VERSION o') ""); [discriminate|].
    injection H as H. subst o' args. eapply parse_last; eassumption.
  - destruct (parse args _) as [printed|o'] eqn:Hrun; [discriminate|].
    destruct (String.eqb (LVGL_VERSION o') ""); [discriminate|].
    injection H as H. subst o' args. eapply parse_last; eassumption.
  - intros pre arg post -> Hpre Harg. now rewrite parse_unknown.
  - intros Hnone. destruct (parse args _) as [printed|o'] eqn:Hrun; [eauto|].
    apply parse_keeps in Hrun as (Hl & _). rewrite (Hl Hnone). cbn. eauto.
Qed.

End BuildShFacts.

Module ContainerFacts.
Import Lib Spec Props LibFacts JsStringFacts NoiseFacts.

Lemma trimStart_head (s : string) (c : ascii) (rest : string) :
  JsString.trimStart s = String c rest -> JsString.isWhiteSpace c = false.
Proof.
  induction s as [|a s IH]; cbn [JsString.trimStart]; [discriminate|].
  destruct (JsString.isWhiteSpace a) eqn:Ha; [exact IH|].
  intros [= <- _]. exact Ha.
Qed.

Lemma trimEnd_head (t : string) (c : ascii) (rest : string) :
  JsString.trimEnd t = String c rest -> exists rest', t = String c rest'.
Proof.
  intros H. destruct (trimEnd_split t) as (ws & Ht & _). rewrite H in Ht.
  rewrite append_cons in Ht. eauto.
Qed.

Lemma snoc_single (front : string) (c a : ascii) :
  front ++ String c "" = String a "" -> front = "" /\ c = a.
Proof.
  destruct front as [|b front]; [rewrite append_nil; intros [= ->]; auto|].
  rewrite append_cons. intros [= _ H]. destruct front; discriminate H.
Qed.

Lemma trimEnd_last (t front : string) (c : ascii) :
  JsString.trimEnd t = front ++ String c "" -> JsString.isWhiteSpace c = false.
Proof.
  revert front. induction t as [|a t IH]; intros front; cbn [JsString.trimEnd].
  - destruct front; discriminate.
  - destruct (JsString.trimEnd t) as [|b u] eqn:Ht.
    + destruct (JsString.isWhiteSpace a) eqn:Ha.
      * destruct front; discriminate.
      * intros H. symmetry in H. apply snoc_single in H as [_ ->]. exact Ha.
    + destruct front as [|f front]; [rewrite append_nil; discriminate|].
      rewrite append_cons. intros [= _ H]. eapply IH. exact H.
Qed.

Lemma blank_app (a b : string) : blank (a ++ b) = blank a && blank b.
Proof.
  unfold blank. induction a as [|c a IH]; [now rewrite append_nil|].
  rewrite append_cons. cbn [list_ascii_of_string forallb]. rewrite IH.
  now rewrite andb_assoc.
Qed.

Lemma trim_empty_iff (s : string) : JsString.trim s = "" <-> blank s = true.
Proof.
  unfold JsString.trim. split.
  - intros H. destruct (trimStart_split s) as (ws1 & H1 & Hb1).
    destruct (trimEnd_split (JsString.trimStart s)) as (ws2 & H2 & Hb2).
    rewrite H, append_nil in H2. rewrite H1, H2, blank_app, Hb1, Hb2. reflexivity.
  - intros H. assert (Hs : JsString.trimStart s = "").
    { pose proof (trimStart_blank s "" H) as Hb.
      replace (s ++ "") with s in Hb; [exact Hb|].
      clear. induction s as [|c s IH]; [reflexivity|].
      rewrite append_cons. now f_equal. }
    now rewrite Hs.
Qed.

(** X24: [createTempContainer] runs [docker-compose run -d] and
    nothing else. It throws exactly when the command failed or printed
    nothing at all. In every other case it returns, without an error,
    the output of the command without the white space around it: what
    it returns neither starts nor ends with white space, and is empty
    exactly when the command printed nothing but white space. *)
Theorem createTempContainer_identifier (E : Env) (st : Run) :
  let result := respond E (trace st) RunDetached in
  trace (snd (createTempContainer E st)) = (trace st ++ [(RunDetached, result)])%list
  /\ (success result = false \/ output result = None \/ output result = Some "" ->
      fst (createTempContainer E st) = inl "Failed to create temporary container")
  /\ (forall out,
        success result = true -> output result = Some out -> out <> "" ->
        fst (createTempContainer E st) = inr (JsString.trim out)
        /\ (exists ws1 ws2,
              out = ws1 ++ JsString.trim out ++ ws2
              /\ blank ws1 = true /\ blank ws2 = true)
        /\ (forall c rest,
              JsString.trim out = String c rest -> JsString.isWhiteSpace c = false)
        /\ (forall front c,
              JsString.trim out = front ++ String c "" ->
              JsString.isWhiteSpace c = false)
        /\ (JsString.trim out = "" <-> blank out = true)).
Proof.
  cbv zeta. unfold createTempContainer. exec.
  destruct (output (respond E (trace st) RunDetached)) as [out|];
    destruct (success (respond E (trace st) RunDetached)); cbn [negb orb].
  2-4: repeat split; intros; first [reflexivity | discriminate].
  destruct (JsString.falsy out) eqn:Hout.
  - apply LibFacts.falsy_true in Hout. subst out.
    repeat split; intros; first [reflexivity | congruence].
  - cbn [fst snd trace]. split; [reflexivity|]. split.
    + intros [H|[H|H]]; try discriminate H. injection H as ->. discriminate Hout.
    + intros out' _ [= <-] _. split; [reflexivity|].
      destruct (trimStart_split out) as (ws1 & H1 & Hb1).
      destruct (trimEnd_split (JsString.trimStart out)) as (ws2 & H2 & Hb2).
      split; [|split; [|split]].
      * exists ws1, ws2. repeat split; try assumption.
        unfold JsString.trim. now rewrite <- H2.
      * intros c rest Hc. unfold JsString.trim in Hc.
        destruct (trimEnd_head _ _ _ Hc) as (rest' & Hs).
        eapply trimStart_head. exact Hs.
      * intros front c Hc. eapply trimEnd_last. exact Hc.
      * apply trim_empty_iff.
Qed.

(** A command that succeeds and prints a line feed only: the
    identifier is empty, and nothing is thrown. *)
Example createTempContainer_blank_output :
  fst (createTempContainer Samples.silentDocker start) = inr "".
Proof. reflexivity. Qed.

Lemma copyFontFiles_error (E : Env) (cid : string) (fs : list FontInfo) :
  forall st msg st',
    copyFontFiles E cid fs st = (inl msg, st') ->
    exists font r,
      In font fs /\ msg = "Failed to copy font file: " ++ fileName font
      /\ In (copyFont E cid font, r) (trace st') /\ success r = false.
Proof.
  induction fs as [|font rest IH]; intros st msg st'.
  - cbn [copyFontFiles]. exec. discriminate.
  - cbn [copyFontFiles]. exec.
    match goal with |- context [if negb (success ?r) then _ else _] =>
      destruct (success r) eqn:Hr end; cbn [negb].
    + intros Hrun. apply IH in Hrun as (g & r & Hg & -> & Hin & Hs).
      exists g, r. repeat split; try assumption. now right.
    + intros [= <- <-]. eexists font, _. split; [now left|]. split; [reflexivity|].
      split; [|exact Hr]. cbn [trace]. unfold copyFont.
      apply in_or_app. left. apply in_or_app. right. left. reflexivity.
Qed.

Lemma updateBuildFiles_error (E : Env) (pi : ProjectInfo) (cid : string)
    (st : Run) (msg : string) (st' : Run) :
  updateBuildFiles E pi cid st = (inl msg, st') ->
  (msg = "UI directory path is missing" /\ uiDir pi = "")
  \/ (msg = "UI directory not found: " ++ uiDir pi /\ existsSync E (uiDir pi) = false)
  \/ (msg = "Failed to copy build destination directory"
      /\ exists r, In (CopyUiDir cid (path_resolve E (uiDir pi)), r) (trace st')
                   /\ success r = false)
  \/ exists font r,
       In font (fonts pi) /\ msg = "Failed to copy font file: " ++ fileName font
       /\ In (copyFont E cid font, r) (trace st') /\ success r = false.
Proof.
  unfold updateBuildFiles. exec.
  destruct (JsString.falsy (uiDir pi)) eqn:Hui.
  { intros [= <- <-]. left. split; [reflexivity|now apply falsy_true]. }
  destruct (existsSync E (uiDir pi)) eqn:Hex; cbn [negb].
  2:{ intros [= <- <-]. right. left. split; reflexivity. }
  match goal with |- context [if negb (success ?r) then _ else _] =>
    destruct (success r) eqn:Hr end; cbn [negb].
  2:{ intros [= <- <-]. right. right. left. split; [reflexivity|].
      eexists. split; [|exact Hr]. cbn [trace].
      apply in_or_app. left. apply in_or_app. right. left. reflexivity. }
  destruct (fonts pi) as [|f fs] eqn:Hfonts; [discriminate|].
  match goal with |- context [copyFontFiles ?E ?c ?l ?s] =>
    destruct (copyFontFiles E c l s) as [[m|[]] st1] eqn:Hcf end; [|discriminate].
  intros [= <- <-]. apply copyFontFiles_error in Hcf. right. right. right. exact Hcf.
Qed.

(** Names the event that made [setupProject] throw. *)
Ltac choose := (left; reflexivity) + (right; choose).

Ltac blame_event :=
  first
    [ eexists; split; [reflexivity | assumption]
    | eexists; (split; [cbn [In]; choose|]); solve [auto]
    | eexists _, _; (split; [cbn [In]; choose|]); assumption ].

Ltac blame :=
  repeat first
    [ left; split; [reflexivity|]; solve [blame_event]
    | right ].

(** X25: [setupProject] fails in seven ways only, each with its own
    message and its own cause: the image cannot be built, no helper
    container can be created (the command failed or printed nothing),
    the clone fails, the UI directory is not given or does not exist,
    the UI directory cannot be copied, or a font cannot be copied.
    Hence a run in which none of these happens succeeds: a failed
    pull, a failure to empty /project/src, to touch the sources, to
    create a directory, to write the fonts manifest or to stop the
    container never makes it fail. *)
Theorem setupProject_failures (E : Env) (pi : ProjectInfo) (cfg : BuildConfig)
    (res : string + unit) (st : Run) :
  setupProject E pi cfg start = (res, st) ->
  (forall msg, res = inl msg ->
     (msg = "Failed to build Docker image"
      /\ exists r, trace st = [(ComposeBuild, r)] /\ success r = false)
     \/ (msg = "Failed to create temporary container"
         /\ exists r, In (RunDetached, r) (trace st)
                      /\ (success r = false \/ output r = None \/ output r = Some ""))
     \/ (msg = "Git clone failed"
         /\ exists c r, In (GitClone c (repositoryName cfg), r) (trace st)
                        /\ success r = false)
     \/ (msg = "UI directory path is missing" /\ uiDir pi = "")
     \/ (msg = "UI directory not found: " ++ uiDir pi
         /\ existsSync E (uiDir pi) = false)
     \/ (msg = "Failed to copy build destination directory"
         /\ exists c r, In (CopyUiDir c (path_resolve E (uiDir pi)), r) (trace st)
                        /\ success r = false)
     \/ (exists font c r,
           In font (fonts pi)
           /\ msg = "Failed to copy font file: " ++ fileName font
           /\ In (copyFont E c font, r) (trace st) /\ success r = false))
  /\ ((forall r, In (ComposeBuild, r) (trace st) -> success r = true) ->
      (forall r, In (RunDetached, r) (trace st) ->
         success r = true /\ exists out, output r = Some out /\ out <> "") ->
      (forall c repo r, In (GitClone c repo, r) (trace st) -> success r = true) ->
      uiDir pi <> "" -> existsSync E (uiDir pi) = true ->
      (forall c d r, In (CopyUiDir c d, r) (trace st) -> success r = true) ->
      (forall c a b d r, In (CopyFont c a b d, r) (trace st) -> success r = true) ->
      res = inr tt).
Proof.
  intros Hrun.
  assert (Hcause : forall msg, res = inl msg ->
     (msg = "Failed to build Docker image"
      /\ exists r, trace st = [(ComposeBuild, r)] /\ success r = false)
     \/ (msg = "Failed to create temporary container"
         /\ exists r, In (RunDetached, r) (trace st)
                      /\ (success r = false \/ output r = None \/ output r = Some ""))
     \/ (msg = "Git clone failed"
         /\ exists c r, In (GitClone c (repositoryName cfg), r) (trace st)
                        /\ success r = false)
     \/ (msg = "UI directory path is missing" /\ uiDir pi = "")
     \/ (msg = "UI directory not found: " ++ uiDir pi
         /\ existsSync E (uiDir pi) = false)
     \/ (msg = "Failed to copy build destination directory"
         /\ exists c r, In (CopyUiDir c (path_resolve E (uiDir pi)), r) (trace st)
                        /\ success r = false)
     \/ (exists font c r,
           In font (fonts pi)
           /\ msg = "Failed to copy font file: " ++ fileName font
           /\ In (copyFont E c font, r) (trace st) /\ success r = false)).
  { revert Hrun. unfold setupProject, createTempContainer, start. exec.
    repeat (branch; exec).
    all: try (intros [= <- <-] msg [= <-]; cbn [trace]).
    all: try (intros [= <- <-] msg Hm; discriminate Hm).
    all: try match goal with
             | H : JsString.falsy ?o = true |- _ =>
                 apply falsy_true in H; subst o
             end.
    all: try (blame; fail).
    all: intros H msg ->; apply updateBuildFiles_error in H;
      destruct H as [H|[H|[(-> & r & Hin & Hr)|(font & r & Hf & -> & Hin & Hr)]]].
    all: try (right; right; right; tauto).
    all: try (do 5 right; left; split; [reflexivity|]; eexists _, r; split; eassumption).
    all: do 6 right; exists font; eexists _, r; repeat split; eassumption. }
  split; [exact Hcause|].
  intros Hbuild Hrd Hclone Hui Hex Hcopy Hfont.
  destruct res as [msg|[]]; [exfalso|reflexivity].
  destruct (Hcause msg eq_refl)
    as [(_ & r & Htr & Hr)
       |[(_ & r & Hin & Hr)
        |[(_ & c & r & Hin & Hr)
         |[(_ & H)|[(_ & H)|[(_ & c & r & Hin & Hr)|(font & c & r & _ & _ & Hin & Hr)]]]]]].
  - rewrite (Hbuild r) in Hr; [discriminate|]. rewrite Htr. now left.
  - destruct (Hrd r Hin) as (Hs & out & Ho & Hne).
    destruct Hr as [Hr|[Hr|Hr]]; congruence.
  - rewrite (Hclone _ _ r Hin) in Hr. discriminate.
  - contradiction.
  - congruence.
  - rewrite (Hcopy _ _ r Hin) in Hr. discriminate.
  - unfold copyFont in Hin. rewrite (Hfont _ _ _ _ r Hin) in Hr. discriminate.
Qed.

Lemma setupProject_failures_witness :
  exists c r,
    In (CopyUiDir c (path_resolve (Fixtures.libEnv Fixtures.firstTimeCopyFails)
                       (uiDir Fixtures.project)), r)
       (trace (snd (setupProject (Fixtures.libEnv Fixtures.firstTimeCopyFails)
                      Fixtures.project Fixtures.config start)))
    /\ success r = false.
Proof.
  destruct (setupProject_failures (Fixtures.libEnv Fixtures.firstTimeCopyFails)
              Fixtures.project Fixtures.config
              (inl "Failed to copy build destination directory")
              (snd (setupProject (Fixtures.libEnv Fixtures.firstTimeCopyFails)
                      Fixtures.project Fixtures.config start))) as [Hcause _].
  - vm_compute. reflexivity.
  - destruct (Hcause _ eq_refl)
      as [(Hm & _)|[(Hm & _)|[(Hm & _)|[(Hm & _)|[(Hm & _)|[(_ & H)|(f & _ & _ & Hf & _)]]]]]];
      try discriminate Hm; [exact H | destruct Hf].
Defined.

End ContainerFacts.

Module WorkflowFacts.
Import Renderer Props RendererFacts.

(** X22: when every step succeeds, Run All leaves the workflow where
    Setup, Build and Test run one after the other leave it: both
    stages complete, the test running on the extracted output at the
    address of the server, the change notice withdrawn, no operation
    marked as running; the Test badge alone differs, running after
    Run All and completed after Test. *)
Theorem runAll_agrees_with_single_steps (reread : ReadResult)
    (r1 r2 r3 r4 : IpcResult) (elapsed : string) (s : State) :
  projectInfo s <> None ->
  rr_success reread = true ->
  ok r1 = true -> ok r2 = true -> ok r3 = true -> ok r4 = true ->
  let a := runAll r1 r2 r3 r4 elapsed s in
  let b := runTest r3 r4 (runBuild r2 (runSetup reread r1 s)) in
  setupComplete a = true /\ setupComplete b = true
  /\ buildComplete a = true /\ buildComplete b = true
  /\ testRunning a = true /\ testRunning b = true
  /\ outputPath a = res_outputPath r3 /\ outputPath b = res_outputPath r3
  /\ testUrl a = res_url r4 /\ testUrl b = res_url r4
  /\ fileChangedSinceSetup a = false /\ fileChangedSinceSetup b = false
  /\ notificationShown a = false /\ notificationShown b = false
  /\ operationRunning a = false /\ operationRunning b = false
  /\ setupBadge a = completed /\ setupBadge b = completed
  /\ buildBadge a = completed /\ buildBadge b = completed
  /\ testBadge a = running /\ testBadge b = completed.
Proof.
  intros Hinfo Hread H1 H2 H3 H4. cbv zeta.
  destruct reread as [ok0 ? ? ? ? ?], r1 as [ok1 ? ?], r2 as [ok2 ? ?],
    r3 as [ok3 ? ?], r4 as [ok4 ? ?].
  cbn [rr_success ok] in Hread, H1, H2, H3, H4. subst ok0 ok1 ok2 ok3 ok4.
  destruct s as [[[|c p]|] pinfo sc bc tr opr ? ? ? ? ? ? ? ? ? ?];
    cbn [projectInfo] in Hinfo; (destruct pinfo; [|congruence]);
    destruct tr, opr; eval_state; repeat split; reflexivity.
Qed.

Lemma runAll_agrees_with_single_steps_witness :
  testBadge (runAll Fixtures.succeeded Fixtures.succeeded Fixtures.succeeded
               Fixtures.succeeded "12.5" Fixtures.afterSetup) = running
  /\ testBadge (runTest Fixtures.succeeded Fixtures.succeeded
                  (runBuild Fixtures.succeeded
                     (runSetup Fixtures.demoRead Fixtures.succeeded Fixtures.afterSetup)))
     = completed.
Proof.
  pose proof (runAll_agrees_with_single_steps Fixtures.demoRead Fixtures.succeeded
                Fixtures.succeeded Fixtures.succeeded Fixtures.succeeded "12.5"
                Fixtures.afterSetup ltac:(discriminate) eq_refl eq_refl eq_refl eq_refl
                eq_refl) as H.
  cbv zeta in H. split; apply H.
Defined.

(** The listener on a change of the project file itself, after Setup. *)
Lemma onFileChanged_own_file (path : string) (s : State) :
  projectPath s = Some path ->
  setupComplete s = true ->
  onFileChanged path s
  = showNotification
      (set_fileChangedSinceSetup true
         (set_pendingReloads (pendingReloads s ++ [(path, false)])
            (logMessage "info" ("Selected project file: " ++ path)
               (set_projectPath (Some path)
                  (logMessage "info" "Project file changed, reloading..." s))))).
Proof.
  intros Hpath Hsetup. unfold onFileChanged, loadProject_begin.
  destruct s as [pp pinfo sc bc tr opr ? ? ? ? ? ? ? ? ? pending].
  cbn [projectPath setupComplete] in Hpath, Hsetup. subst pp sc.
  cbn [projectPath setupComplete logMessage set_messages].
  rewrite !String.eqb_refl. cbn [negb]. rewrite andb_false_r. reflexivity.
Qed.

(** X23: a change of the project file itself, seen after Setup, raises
    the change notice at once; when the reload it starts succeeds, the
    notice is withdrawn again although no Setup has run since, and the
    setup and build flags are taken from the answer; when the reload
    fails, the notice stays. *)
Theorem project_file_change_then_reload (path : string) (result : ReadResult)
    (s : State) :
  projectPath s = Some path ->
  setupComplete s = true ->
  pendingReloads s = [] ->
  let s1 := onFileChanged path s in
  let s2 := reloadDone result s1 in
  fileChangedSinceSetup s1 = true /\ notificationShown s1 = true
  /\ pendingReloads s2 = []
  /\ (rr_success result = true ->
      fileChangedSinceSetup s2 = false /\ notificationShown s2 = false
      /\ setupComplete s2 = orFalse (rr_setupComplete result)
      /\ buildComplete s2 = orFalse (rr_buildComplete result))
  /\ (rr_success result = false ->
      fileChangedSinceSetup s2 = true /\ notificationShown s2 = true
      /\ projectInfo s2 = None).
Proof.
  intros Hpath Hsetup Hpending. cbv zeta.
  rewrite (onFileChanged_own_file path s Hpath Hsetup).
  destruct s as [pp pinfo sc bc tr opr ? ? ? ? ? ? ? ? ? pending].
  cbn [projectPath setupComplete pendingReloads] in Hpath, Hsetup, Hpending.
  subst pp sc pending. cbn [pendingReloads app]. unfold reloadDone.
  destruct result as [[] ? ? sc' bc' ?].
  - destruct sc' as [[]|], bc' as [[]|], opr; eval_state; cbn [app];
      repeat split; intros; first [reflexivity | discriminate].
  - destruct tr, opr; eval_state; cbn [app];
      repeat split; intros; first [reflexivity | discriminate].
Qed.

Lemma project_file_change_then_reload_witness :
  fileChangedSinceSetup (onFileChanged "demo.eez-project" Fixtures.afterSetup) = true
  /\ fileChangedSinceSetup
       (reloadDone Fixtures.demoRead
          (onFileChanged "demo.eez-project" Fixtures.afterSetup)) = false.
Proof.
  pose proof (project_file_change_then_reload "demo.eez-project" Fixtures.demoRead
                Fixtures.afterSetup eq_refl eq_refl eq_refl) as H.
  cbv zeta in H. destruct H as (Hraised & _ & _ & Hok & _).
  split; [exact Hraised|]. apply Hok. reflexivity.
Defined.

End WorkflowFacts.

(** ** The renderer turn by turn: what holds when the handlers run one
    at a time, and what a reload does to a handler that waits *)

Module TurnsFacts.
Import Renderer Turns Spec Props TurnsSpec.

Ltac eval_prims :=
  cbv [stopTest dismiss finished
       updateUI setStatus logMessage hideNotification showNotification orFalse
       set_projectPath set_projectInfo set_setupComplete set_buildComplete
       set_testRunning set_operationRunning set_outputPath set_testUrl
       set_fileChangedSinceSetup set_setupBadge set_buildBadge set_testBadge
       set_notificationShown set_messages set_history set_pendingReloads
       projectPath projectInfo setupComplete buildComplete testRunning
       operationRunning outputPath testUrl fileChangedSinceSetup setupBadge
       buildBadge testBadge notificationShown messages history pendingReloads
       ok rr_success rr_setupComplete rr_buildComplete negb andb orb JsString.falsy
       badge class at_setupComplete at_buildComplete at_setupBadge at_buildBadge]
    in *.

Ltac calls_ok :=
  repeat lazymatch goal with
         | |- Forall _ (_ ++ _) => apply Forall_app_2
         | |- Forall _ (_ :: _) => constructor
         | |- Forall _ [] => constructor
         | |- Forall _ _ => assumption
         | |- gated _ => unfold gated; eval_prims; first [tauto | split; congruence]
         end.

Ltac known_badges :=
  repeat match goal with
         | H : Some _ <> None -> _ |- _ => specialize (H ltac:(discriminate))
         | H : true = true -> _ |- _ => specialize (H eq_refl)
         end.

Ltac flags_ok := intros; known_badges; first [congruence | tauto].

Ltac consistent_ok :=
  unfold consistent; eval_prims; known_badges;
  (split; [calls_ok | split; flags_ok]).

Ltac history_ok := eval_prims; known_badges; calls_ok.

Ltac settled_ok :=
  unfold settled; eval_prims;
  (split; [reflexivity | first [assumption | intros; congruence]]).

(** Unfolds the part of the handler that runs next. *)
Ltac next_part :=
  lazymatch goal with
  | |- settles (stopIfRunning _ _) => unfold stopIfRunning
  | |- settles (stopTestK _ _) => unfold stopTestK
  | |- settles (stopTest_stopped _ _) => unfold stopTest_stopped
  | |- settles (loadRecentProjectsK _ _) => unfold loadRecentProjectsK
  | |- settles (loadProject_reset _ _) => unfold loadProject_reset
  | |- settles (loadProject_loaded _ _ _ _) => unfold loadProject_loaded
  | |- settles (loadProject_added _ _ _ _) => unfold loadProject_added
  | |- settles (loadProject_read _ _ _ _ _) => unfold loadProject_read
  | |- settles (runSetup_done _ _ _) => unfold runSetup_done
  | |- settles (runSetup_start _ _) => unfold runSetup_start
  | |- settles (runSetup_reread _ _ _) => unfold runSetup_reread
  | |- settles (runSetup_stopped _ _) => unfold runSetup_stopped
  | |- settles (runSetupK _ _) => unfold runSetupK
  | |- settles (runBuild_done _ _ _) => unfold runBuild_done
  | |- settles (runBuild_start _ _) => unfold runBuild_start
  | |- settles (runBuildK _ _) => unfold runBuildK
  | |- settles (runRebuild_cleaned _ _ _) => unfold runRebuild_cleaned
  | |- settles (runRebuild_start _ _) => unfold runRebuild_start
  | |- settles (runRebuildK _ _) => unfold runRebuildK
  | |- settles (runAll_served _ _ _ _) => unfold runAll_served
  | |- settles (runAll_extracted _ _ _ _) => unfold runAll_extracted
  | |- settles (runAll_built _ _ _ _) => unfold runAll_built
  | |- settles (runAll_set_up _ _ _ _) => unfold runAll_set_up
  | |- settles (runAll_start _ _ _) => unfold runAll_start
  | |- settles (runAllK _ _ _) => unfold runAllK
  | |- settles (runTest_served _ _ _) => unfold runTest_served
  | |- settles (runTest_extracted _ _ _) => unfold runTest_extracted
  | |- settles (runTestK _ _) => unfold runTestK
  | |- settles (rebuild_stopped _ _) => unfold rebuild_stopped
  | |- settles (rebuildK _ _) => unfold rebuildK
  end.

(** Follows a handler through its turns, whatever it is answered. *)
Ltac follow :=
  repeat (eval_prims;
          lazymatch goal with
          | |- settles (_, Done) => apply settles_done; [consistent_ok | settled_ok]
          | |- settles (_, AwaitIpc _ _) =>
              apply settles_ipc; [history_ok | intros [[] ? ?]]
          | |- settles (_, AwaitRead _ _) =>
              apply settles_read; [history_ok | intros [[] ? ? [[]|] [[]|] ?]]
          | |- settles (_, AwaitVoid _ _) => apply settles_void; [history_ok | ]
          | |- _ => next_part
          end).

(** Names the fields of a consistent and settled state, and settles
    the flags the handlers branch on. *)
Ltac open_state s :=
  let pinfo := fresh "pinfo" in
  let tr := fresh "tr" in
  let opr := fresh "opr" in
  let sc := fresh "sc" in
  let bc := fresh "bc" in
  destruct s as [? pinfo sc bc tr opr ? ? ? ? ? ? ? ? ? ?];
  destruct pinfo, tr, opr, sc, bc;
  cbn [operationRunning testRunning buildComplete] in *;
  try discriminate;
  try match goal with
      | H : true = true -> false = true |- _ => discriminate (H eq_refl)
      end.

Ltac start := intros (Hh & HA & HB) (Hop & Ht).

Lemma settles_gated (s : State) (w : Proc) :
  settles (s, w) -> Forall gated (history s).
Proof.
  inversion 1; subst; try assumption.
  match goal with H : consistent _ |- _ => apply H end.
Qed.

Lemma runTestK_settles (s : State) :
  consistent s -> settled s -> settles (runTestK finished s).
Proof. start. open_state s; follow. Qed.

Lemma runBuildK_settles (s : State) :
  consistent s -> settled s -> settles (runBuildK finished s).
Proof. start. open_state s; follow. Qed.

Lemma runRebuildK_settles (s : State) :
  consistent s -> settled s -> settles (runRebuildK finished s).
Proof. start. open_state s; follow. Qed.

Lemma runAllK_settles (d : string) (s : State) :
  consistent s -> settled s -> settles (runAllK d finished s).
Proof. start. open_state s; follow. Qed.

Lemma rebuildK_settles (d : string) (s : State) :
  consistent s -> settled s -> settles (rebuildK d s).
Proof. start. open_state s; follow. Qed.

Lemma stopTestK_settles (s : State) :
  consistent s -> settled s -> settles (stopTestK finished s).
Proof. start. open_state s; follow. Qed.

Lemma runSetupK_settles (s : State) :
  consistent s -> settled s -> settles (runSetupK finished s).
Proof.
  start. destruct (projectPath s) as [[|c p]|] eqn:Hp.
  all: open_state s; cbn [projectPath] in Hp; subst; follow.
Qed.

Lemma loadProject_read_settles (path : string) (d : bool) (result : ReadResult)
    (s : State) :
  consistent s -> settled s ->
  settles (loadProject_read path d finished result s).
Proof.
  start. destruct result as [[] ? ? [[]|] [[]|] ?], d.
  all: open_state s; follow.
Qed.


Lemma begin_calm (path : string) (s : State) :
  consistent s -> settled s ->
  consistent (fst (loadProject_begin path s))
  /\ settled (fst (loadProject_begin path s)).
Proof. intros H1 H2. split; [exact H1 | exact H2]. Qed.

Lemma loadProjectK_settles (path : string) (s : State) :
  consistent s -> settled s -> settles (loadProjectK path finished s).
Proof.
  intros H H'. unfold loadProjectK.
  destruct (begin_calm path s H H') as [H1 H2].
  destruct (loadProject_begin path s) as [s1 d]. cbn [fst] in H1, H2.
  apply settles_read; [apply H1|].
  intros result. now apply loadProject_read_settles.
Qed.

Lemma onFileChangedK_settles (path : string) (s : State) :
  consistent s -> settled s -> settles (onFileChangedK path s).
Proof.
  intros H H'. unfold onFileChangedK.
  destruct (match projectPath s with Some p => String.eqb path p | None => false end).
  - unfold loadProjectK.
    set (s0 := logMessage "info" "Project file changed, reloading..." s).
    assert (H0 : consistent s0) by exact H.
    assert (H0' : settled s0) by exact H'.
    destruct (begin_calm path s0 H0 H0') as [H1 H2].
    destruct (loadProject_begin path s0) as [s1 d]. cbn [fst] in H1, H2.
    assert (H3 : consistent (if setupComplete s0
                             then showNotification (set_fileChangedSinceSetup true s1)
                             else s1)
                 /\ settled (if setupComplete s0
                             then showNotification (set_fileChangedSinceSetup true s1)
                             else s1)).
    { destruct (setupComplete s0); split; assumption. }
    destruct H3 as [H3 H4].
    apply settles_read; [apply H3|].
    intros result. now apply loadProject_read_settles.
  - destruct (setupComplete s && negb (fileChangedSinceSetup s));
      apply settles_done; assumption.
Qed.

Lemma handler_settles (x : Input) (h : Rest) (s : State) :
  handler x = Some h -> consistent s -> settled s -> settles (h s).
Proof.
  intros Hx H H'. destruct x; cbn [handler] in Hx; try discriminate;
    injection Hx as <-.
  - now apply loadProjectK_settles.
  - now apply runSetupK_settles.
  - now apply runBuildK_settles.
  - now apply runRebuildK_settles.
  - now apply runAllK_settles.
  - now apply runTestK_settles.
  - now apply stopTestK_settles.
  - now apply rebuildK_settles.
  - apply settles_done; assumption.
  - now apply onFileChangedK_settles.
Qed.

Lemma park_orderly (turn : State * Proc) : settles turn -> orderly (park turn []).
Proof.
  intros H. destruct turn as [s w]. unfold park, orderly.
  destruct w; cbn [snd fst waiting state app]; try exact H.
  - inversion H; split; assumption.
  - inversion H.
Qed.

Lemma step_start (x : Input) (p : Page) :
  answers x = false ->
  step x p = match handler x with
             | Some h => Some (park (h (state p)) (waiting p))
             | None => None
             end.
Proof. destruct x; intros H; try discriminate; reflexivity. Qed.

Lemma step_orderly (x : Input) (p p' : Page) :
  orderly p -> waiting p = [] \/ answers x = true ->
  step x p = Some p' -> orderly p'.
Proof.
  intros Ho Hx Hs. destruct p as [s ws]. unfold orderly in Ho.
  cbn [waiting state] in *. destruct ws as [|w [|w' ws]]; [| |contradiction].
  - destruct (answers x) eqn:Ha.
    + destruct x; try discriminate; cbn [step waiting] in Hs;
        destruct i; discriminate.
    + rewrite (step_start x _ Ha) in Hs. cbn [state waiting] in Hs.
      destruct (handler x) as [h|] eqn:Hh; [|discriminate].
      injection Hs as <-. apply park_orderly.
      destruct Ho as [Hc Hq]. now apply (handler_settles x).
  - destruct Hx as [Hx|Hx]; [discriminate|].
    destruct x; try discriminate; cbn [step waiting state] in Hs;
      (destruct i as [|i]; [|destruct i; discriminate]);
      cbn [nth_error] in Hs; destruct w; try discriminate;
      injection Hs as <-; cbn [without firstn skipn app];
      apply park_orderly; inversion Ho; subst; auto.
Qed.

Lemma in_turn_orderly (p : Page) : reachable_in_turn p -> orderly p.
Proof.
  induction 1 as [|x p p' _ IH Hx Hs].
  - repeat split; try discriminate. repeat constructor.
  - now apply (step_orderly x p p').
Qed.

Lemma orderly_gated (p : Page) : orderly p -> stage_gated p.
Proof.
  unfold orderly, stage_gated. destruct (waiting p) as [|w [|? ?]]; intros H.
  - apply H.
  - now apply settles_gated in H.
  - contradiction.
Qed.

Lemma run_in_turn (xs : list Input) :
  forall p p', reachable_in_turn p -> in_turn xs p = true ->
               play xs p = Some p' -> reachable_in_turn p'.
Proof.
  induction xs as [|x xs IH]; intros p p' Hp Hi Hr; cbn [play in_turn] in *.
  - now injection Hr as <-.
  - apply andb_prop in Hi. destruct Hi as [Ha Hi].
    destruct (step x p) as [p1|] eqn:Hs; [|discriminate].
    apply (IH p1 p'); [|exact Hi|exact Hr].
    apply (in_turn_step x p p1); [exact Hp| |exact Hs].
    destruct (waiting p); [now left | now right].
Qed.

Lemma run_reachable (xs : list Input) :
  forall p p', reachable p -> play xs p = Some p' -> reachable p'.
Proof.
  induction xs as [|x xs IH]; intros p p' Hp Hr; cbn [play] in *.
  - now injection Hr as <-.
  - destruct (step x p) as [p1|] eqn:Hs; [|discriminate].
    apply (IH p1 p'); [|exact Hr]. now apply (reach_step x p p1).
Qed.

Lemma guard_build (q : Page) :
  projectInfo (state q) = None \/ setupComplete (state q) = false ->
  step PressBuild q = Some q /\ step PressRunRebuild q = Some q.
Proof.
  destruct q as [s ws]. cbn [state step handler].
  unfold runBuildK, runRebuildK, finished, park.
  intros [H|H]; rewrite H; cbn; destruct (projectInfo s); auto.
Qed.

Lemma guard_test (q : Page) :
  projectInfo (state q) = None \/ buildComplete (state q) = false ->
  step PressTest q = Some q.
Proof.
  destruct q as [s ws]. cbn [state step handler].
  unfold runTestK, finished, park.
  intros [H|H]; rewrite H; cbn; destruct (projectInfo s); auto.
Qed.

Lemma failed_build (p : Page) (result : IpcResult) :
  orderly p -> waiting p = [] -> projectInfo (state p) <> None ->
  setupComplete (state p) = true -> ok result = false ->
  exists p1,
    play (buildRun p result) p = Some p1
    /\ waiting p1 = []
    /\ buildBadge (state p1) = error /\ buildComplete (state p1) = false
    /\ setupComplete (state p1) = true /\ setupBadge (state p1) = completed
    /\ step PressTest p1 = Some p1.
Proof.
  intros Ho Hw Hinfo Hsc Hr. destruct p as [s ws]. cbn [waiting state] in *.
  subst ws. unfold orderly in Ho. cbn [waiting state] in Ho.
  destruct Ho as ((Hh & HA & HB) & _). destruct result as [o ? ?]. cbn [ok] in Hr. subst o.
  destruct s as [? pinfo sc bc tr opr ? ? ? ? ? ? ? ? ? ?].
  cbn [projectInfo setupComplete] in Hinfo, Hsc. subst sc.
  destruct pinfo; [|contradiction]. specialize (HA Hinfo eq_refl).
  cbn [setupBadge] in HA. subst.
  destruct tr, opr; eexists; (split; [vm_compute; reflexivity|]); repeat split.
Qed.

(** X26: while the handlers run one at a time, every [setStatus] call
    that put Build in progress was made with Setup complete, and every
    one that put Test in progress or running with Build complete.
    Whatever else is going on, pressing Build or Rebuild without a
    finished Setup, or Test without a finished Build, changes nothing.
    When a Build started from such a page fails, its badge shows the
    failure, Setup stays complete, and pressing Test changes nothing. *)
Theorem stage_gating_in_turn (p : Page) :
  reachable_in_turn p ->
  stage_gated p
  /\ (forall q,
        projectInfo (state q) = None \/ setupComplete (state q) = false ->
        step PressBuild q = Some q /\ step PressRunRebuild q = Some q)
  /\ (forall q,
        projectInfo (state q) = None \/ buildComplete (state q) = false ->
        step PressTest q = Some q)
  /\ forall result,
       waiting p = [] -> projectInfo (state p) <> None ->
       setupComplete (state p) = true -> ok result = false ->
       exists p1,
         play (buildRun p result) p = Some p1
         /\ waiting p1 = []
         /\ buildBadge (state p1) = error /\ buildComplete (state p1) = false
         /\ setupComplete (state p1) = true /\ setupBadge (state p1) = completed
         /\ step PressTest p1 = Some p1.
Proof.
  intros Hp. pose proof (in_turn_orderly p Hp) as Ho.
  split; [now apply orderly_gated|].
  split; [exact guard_build|]. split; [exact guard_test|].
  intros result. now apply failed_build.
Qed.

Lemma setUp_in_turn : reachable_in_turn Scenes.setUp.
Proof.
  apply (run_in_turn Scenes.openSetUp opened);
    [apply in_turn_opened | vm_compute; reflexivity | vm_compute; reflexivity].
Qed.

Lemma stage_gating_in_turn_witness :
  stage_gated Scenes.setUp
  /\ exists p1,
       play (buildRun Scenes.setUp Fixtures.failure) Scenes.setUp = Some p1
       /\ buildBadge (state p1) = error /\ setupBadge (state p1) = completed
       /\ step PressTest p1 = Some p1.
Proof.
  pose proof (stage_gating_in_turn Scenes.setUp setUp_in_turn) as (Hg & _ & _ & Hf).
  split; [exact Hg|].
  destruct (Hf Fixtures.failure eq_refl ltac:(discriminate) eq_refl eq_refl)
    as (p1 & Hr & _ & Hb & _ & _ & Hsb & Ht).
  exists p1. repeat split; assumption.
Defined.

(** X19: while the handlers run one at a time, whenever none of them
    waits no operation is left marked as running, and a test is marked
    as running only while the build is marked complete. *)
Theorem in_turn_settled (p : Page) :
  reachable_in_turn p -> waiting p = [] ->
  operationRunning (state p) = false
  /\ (testRunning (state p) = true -> buildComplete (state p) = true).
Proof.
  intros Hp Hw. pose proof (in_turn_orderly p Hp) as Ho.
  unfold orderly in Ho. rewrite Hw in Ho. apply Ho.
Qed.

Lemma in_turn_settled_witness :
  operationRunning (state Scenes.setUp) = false
  /\ (testRunning (state Scenes.setUp) = true
      -> buildComplete (state Scenes.setUp) = true).
Proof.
  apply (in_turn_settled Scenes.setUp setUp_in_turn). vm_compute. reflexivity.
Defined.

(** C1: the page reaches a state in which a recorded [setStatus] call
    is not gated. Test is pressed on a finished build; while [runTest]
    waits for the extraction the project file changes, and the reload
    that the watcher starts finds no finished build and lowers the
    build flag; [runTest] then goes on, puts Test in progress and marks
    it as running, with Build no longer complete. *)
Lemma reload_inside_test_breaks_gating :
  reachable Scenes.raced /\ ~ stage_gated Scenes.raced.
Proof.
  split.
  - apply (run_reachable (Scenes.openBuilt ++ Scenes.reloadInsideTest) opened);
      [apply reach_opened | vm_compute; reflexivity].
  - unfold stage_gated. intros H.
    apply List.Forall_forall with
      (x := {| badge := testStatus; class := in_progress;
               at_setupComplete := true; at_buildComplete := false;
               at_setupBadge := completed; at_buildBadge := completed |}) in H.
    + cbn in H. destruct H as [H _]. discriminate.
    + vm_compute. tauto.
Qed.

(** C9: after Setup a source file changes: the stale flag goes up and
    one notice is logged. Then the project file changes: the watcher
    starts a reload that nobody waits for, and when the reload is
    answered it lowers the flag and hides the notification. The next
    change of a source file raises the flag and logs a notice a second
    time, although nothing was dismissed or rebuilt in between. *)
Lemma reload_lowers_stale_flag :
  exists p1 p2 p3,
    play [Watch "src/ui/screens.c"] Scenes.setUp = Some p1
    /\ fileChangedSinceSetup (state p1) = true /\ notices (state p1) = 1%nat
    /\ play Scenes.projectFileReloaded p1 = Some p2
    /\ fileChangedSinceSetup (state p2) = false
    /\ notificationShown (state p2) = false
    /\ step (Watch "src/ui/styles.c") p2 = Some p3
    /\ fileChangedSinceSetup (state p3) = true
    /\ notificationShown (state p3) = true
    /\ notices (state p3) = 2%nat.
Proof.
  do 3 eexists.
  split; [vm_compute; reflexivity|]. split; [reflexivity|]. split; [reflexivity|].
  split; [vm_compute; reflexivity|]. split; [reflexivity|]. split; [reflexivity|].
  split; [vm_compute; reflexivity|]. repeat split.
Qed.

Lemma watch_project_file (path : string) (s : State) (ws : list Proc) :
  projectPath s = Some path ->
  step (Watch path) {| state := s; waiting := ws |}
  = Some {| state :=
              (if setupComplete s
               then showNotification
                      (set_fileChangedSinceSetup true
                         (logMessage "info" ("Selected project file: " ++ path)
                            (set_projectPath (Some path)
                               (logMessage "info" "Project file changed, reloading..." s))))
               else logMessage "info" ("Selected project file: " ++ path)
                      (set_projectPath (Some path)
                         (logMessage "info" "Project file changed, reloading..." s)));
            waiting := ws ++ [AwaitRead path (loadProject_read path false finished)] |}.
Proof.
  intros Hp. cbn [step handler state waiting]. unfold onFileChangedK.
  rewrite Hp, String.eqb_refl. unfold loadProjectK, loadProject_begin.
  cbn [projectPath logMessage set_messages]. rewrite Hp, String.eqb_refl.
  rewrite andb_false_r. reflexivity.
Qed.

Lemma run_step (x : Input) (xs : list Input) (p p1 : Page) (r : option Page) :
  step x p = Some p1 -> play xs p1 = r -> play (x :: xs) p = r.
Proof. intros H1 H2. cbn [play]. now rewrite H1. Qed.

(** Runs [PressTest] or [PressRunRebuild], the change of the project
    file and the answers, from a state whose flags are known. *)
Ltac race :=
  eexists;
  (split;
   [ eapply run_step;
       [ cbn [step handler waiting state];
         unfold runTestK, runRebuildK, stopIfRunning, runRebuild_start;
         eval_prims; unfold park; cbn [snd fst app]; reflexivity |];
     eapply run_step; [apply watch_project_file; reflexivity|];
     vm_compute; reflexivity
   | repeat split ]).

(** X27: a handler does not look again at what it checked before it
    waited. From a page where nothing runs, if the project file changes
    while Test waits for the extraction and the reload finds no
    finished build, the test ends up marked as running on a build
    marked incomplete; if it changes while Rebuild waits for the
    cleaning and the reload finds no finished setup, [runBuild] returns
    at its first line and the page is left marked as busy, with no
    handler waiting that would clear the mark. *)
Theorem reload_inside_operation (s : State) (path : string)
    (info reloaded : ReadResult) (extracted served cleaned : IpcResult) :
  projectPath s = Some path -> projectInfo s = Some info ->
  operationRunning s = false -> testRunning s = false ->
  rr_success reloaded = true ->
  (buildComplete s = true -> orFalse (rr_buildComplete reloaded) = false ->
   ok extracted = true -> ok served = true ->
   exists p,
     play (reloadDuring PressTest path reloaded
            [IpcAnswered 0 extracted; IpcAnswered 0 served])
         {| state := s; waiting := [] |} = Some p
     /\ waiting p = [] /\ testRunning (state p) = true
     /\ testBadge (state p) = completed /\ buildComplete (state p) = false)
  /\ (setupComplete s = true ->
      orFalse (rr_setupComplete reloaded) = false -> ok cleaned = true ->
      exists p,
        play (reloadDuring PressRunRebuild path reloaded [IpcAnswered 0 cleaned])
            {| state := s; waiting := [] |} = Some p
        /\ waiting p = [] /\ operationRunning (state p) = true).
Proof.
  intros Hpath Hinfo Hopr Htr Hok.
  destruct s as [pp pinfo sc bc tr opr ? ? ? ? ? ? ? ? ? ?].
  cbn [projectPath projectInfo operationRunning testRunning] in Hpath, Hinfo, Hopr, Htr.
  subst pp pinfo opr tr.
  destruct reloaded as [o ? ? rsc rbc ?]. cbn [rr_success] in Hok. subst o.
  unfold reloadDuring. split.
  - intros Hbc Hrbc He Hs. cbn [buildComplete rr_buildComplete] in Hbc, Hrbc.
    subst bc. destruct extracted as [o ? ?], served as [o' ? ?].
    cbn [ok] in He, Hs. subst o o'.
    destruct rbc as [[]|]; try discriminate Hrbc.
    all: destruct sc, rsc as [[]|]; race.
  - intros Hsc Hrsc Hc.
    cbn [setupComplete rr_setupComplete] in Hsc, Hrsc.
    subst sc. destruct cleaned as [o ? ?]. cbn [ok] in Hc. subst o.
    destruct rsc as [[]|]; try discriminate Hrsc.
    all: destruct bc, rbc as [[]|]; race.
Qed.

Lemma reload_inside_operation_witness :
  exists p,
    play (reloadDuring PressTest Scenes.watchedFile Scenes.setUpRead
           [IpcAnswered 0 Fixtures.succeeded; IpcAnswered 0 Fixtures.succeeded])
        Scenes.built = Some p
    /\ testRunning (state p) = true /\ buildComplete (state p) = false.
Proof.
  destruct (reload_inside_operation (state Scenes.built) Scenes.watchedFile
              Scenes.builtRead Scenes.setUpRead Fixtures.succeeded Fixtures.succeeded
              Fixtures.succeeded
              ltac:(vm_compute; reflexivity) ltac:(vm_compute; reflexivity)
              ltac:(vm_compute; reflexivity) ltac:(vm_compute; reflexivity) eq_refl)
    as [H _].
  destruct (H ltac:(vm_compute; reflexivity) eq_refl eq_refl eq_refl)
    as (p & Hr & _ & Ht & _ & Hb).
  exists p. split; [|split; assumption].
  rewrite <- Hr. vm_compute. reflexivity.
Defined.

End TurnsFacts.
